(** * TaBERT input formatter: sequence assembly and masked-LM instance generation

    A shallow embedding of [table_bert/input_formatter.py]
    (class [VanillaTableBertInputFormatter]) together with the properties of
    its specification.

    Conventions of the embedding:
    - Python lists are Rocq lists; token strings are [string];
      token indices and lengths are [nat]; configuration integers and the
      budgets computed from them are [Z], since they may be negative.
    - A Python exception is a value of [exception]; code that may raise
      returns a [result].
    - The module-level random generator of Python's [random] is an explicit
      random source threaded through the code ([Rand.M]).
    - The float configuration values [masked_column_prob] and
      [masked_context_prob] are binary64 floats ([Float.t]); a product
      [len(...) * prob] is the binary64 product, rounded to nearest, and
      [int] and [ceil] are taken of the rounded product. *)

From Stdlib Require Import String ZArith QArith Qround Lia Bool Arith List.
From Stdlib Require Import SpecFloat.
From Stdlib Require Import Permutation Sorting.Sorted.
Import ListNotations.

Local Open Scope string_scope.
Local Open Scope nat_scope.
Local Open Scope list_scope.

(** ** Exceptions and results *)

Inductive exception : Type :=
| IndexError
| KeyError (key : string)
| ValueError
| OverflowError
| RuntimeError (msg : string).

Inductive result (A : Type) : Type :=
| Ok (a : A)
| Raise (e : exception).

Arguments Ok {A} a.
Arguments Raise {A} e.

Definition is_ok {A} (r : result A) : bool :=
  match r with Ok _ => true | Raise _ => false end.

(** ** Python list primitives *)

Module Py.

(** [l[:n]] for an integer [n] (a negative [n] counts from the end). *)
Definition slice_to {A} (l : list A) (n : Z) : list A :=
  if (0 <=? n)%Z then firstn (Z.to_nat n) l
  else firstn (length l - Z.to_nat (- n)) l.

(** [l[-1]]: raises [IndexError] on the empty list. *)
Definition last {A} (l : list A) : result A :=
  match rev l with
  | [] => Raise IndexError
  | x :: _ => Ok x
  end.

(** [l[i]] for a non-negative [i]. *)
Definition getitem {A} (l : list A) (i : nat) : result A :=
  match nth_error l i with
  | Some x => Ok x
  | None => Raise IndexError
  end.

(** [l[i] = x] for a non-negative [i]. *)
Fixpoint setitem {A} (l : list A) (i : nat) (x : A) : result (list A) :=
  match l, i with
  | [], _ => Raise IndexError
  | _ :: t, O => Ok (x :: t)
  | h :: t, S j =>
      match setitem t j x with
      | Ok t' => Ok (h :: t')
      | Raise e => Raise e
      end
  end.

(** [list(range(a, b))]. *)
Definition range (a b : nat) : list nat := seq a (b - a).

(** [sum(...)] over a list of lengths. *)
Definition sum (l : list nat) : nat := fold_right Nat.add 0 l.

(** [int(x)]: truncation towards zero. *)
Definition int (x : Q) : Z := Z.quot (Qnum x) (Zpos (Qden x)).

(** [math.ceil(x)]. *)
Definition ceil (x : Q) : Z := Qceiling x.

(** [sorted(l)] on integers, as a stable insertion sort. *)
Fixpoint insert (x : nat) (l : list nat) : list nat :=
  match l with
  | [] => [x]
  | y :: t => if x <? y then x :: y :: t else y :: insert x t
  end.

Definition sorted (l : list nat) : list nat := fold_right insert [] l.

End Py.

(** ** Python floats

    A Python [float] is an IEEE 754 binary64 number. The operations are
    those of the Standard Library's specification of binary floating point
    ([SpecFloat]) at precision 53 and exponent bound 1024, which rounds to
    nearest with ties to even. *)

Module Float.

Definition t : Type := spec_float.

Definition prec : Z := 53.

Definition emax : Z := 1024.

(** The float of an integer operand, as in [n * x]: the nearest float,
    and [OverflowError] when the integer is beyond the range. *)
Definition of_int (n : Z) : result t :=
  match binary_normalize prec emax n 0 false with
  | S754_infinity _ => Raise OverflowError
  | x => Ok x
  end.

(** [x * y] on floats. *)
Definition mul (x y : t) : t := SFmul prec emax x y.

(** [n * y] for an integer [n] and a float [y]. *)
Definition int_mul (n : Z) (y : t) : result t :=
  match of_int n with
  | Ok x => Ok (mul x y)
  | Raise e => Raise e
  end.

(** The number a finite float stands for: [(-1)^s * m * 2^e]. *)
Definition finite_value (s : bool) (m : positive) (e : Z) : Q :=
  let sm := if s then Z.neg m else Z.pos m in
  match e with
  | Z0 => inject_Z sm
  | Z.pos k => inject_Z (sm * Z.pos (2 ^ k))
  | Z.neg k => sm # (2 ^ k)
  end.

Definition value (x : t) : option Q :=
  match x with
  | S754_zero _ => Some 0%Q
  | S754_finite s m e => Some (finite_value s m e)
  | S754_infinity _ => None
  | S754_nan => None
  end.

(** The conversion of a float to an integer by [round]: [ValueError] on a
    NaN and [OverflowError] on an infinity. *)
Definition to_integer (round : Q -> Z) (x : t) : result Z :=
  match x with
  | S754_zero _ => Ok (round 0%Q)
  | S754_finite s m e => Ok (round (finite_value s m e))
  | S754_infinity _ => Raise OverflowError
  | S754_nan => Raise ValueError
  end.

(** [int(x)] *)
Definition int (x : t) : result Z := to_integer Py.int x.

(** [math.ceil(x)] *)
Definition ceil (x : t) : result Z := to_integer Py.ceil x.

(** The float that the decimal literal with value [n / d] denotes, for
    [n] and [d] below [2^53]: the float nearest to [n / d]. *)
Definition literal (n d : Z) : t :=
  SFdiv prec emax (binary_normalize prec emax n 0 false)
    (binary_normalize prec emax d 0 false).

End Float.

Arguments Float.of_int : simpl never.
Arguments Float.mul : simpl never.
Arguments Float.int_mul : simpl never.
Arguments Float.int : simpl never.
Arguments Float.ceil : simpl never.
Arguments Float.literal : simpl never.

(** ** A dict with string keys, in insertion order

    [d[k] = v] replaces the value of an existing key in place and appends a
    new key at the end, so [items] enumerates keys in order of first
    insertion, as a Python dict does. *)

Module Dict.

Definition t (V : Type) : Type := list (string * V).

Fixpoint set {V} (d : t V) (k : string) (v : V) : t V :=
  match d with
  | [] => [(k, v)]
  | (k', v') :: rest =>
      if String.eqb k' k then (k', v) :: rest
      else (k', v') :: set rest k v
  end.

Fixpoint get {V} (d : t V) (k : string) : option V :=
  match d with
  | [] => None
  | (k', v') :: rest => if String.eqb k' k then Some v' else get rest k
  end.

Definition items {V} (d : t V) : list (string * V) := d.

End Dict.

(** ** Data model *)

(** [table_bert.table.Column], restricted to the attributes read here. *)
Record Column : Type := mkColumn {
  name : string;
  type : string;
  name_tokens : list string;
  sample_value_tokens : list string
}.

(** [table_bert.table.Table]. *)
Record Table : Type := mkTable {
  id : string;
  header : list Column
}.

(** [table_bert.config.TableBertConfig], restricted to the attributes read
    here. *)
Record TableBertConfig : Type := mkConfig {
  cell_input_template : list string;
  context_first : bool;
  max_cell_len : Z;
  column_delimiter : string;
  table_mask_strategy : string;
  masked_column_prob : Float.t;
  masked_context_prob : Float.t;
  max_predictions_per_seq : Z
}.

(** The [span_map] dict of [get_cell_input]. A key that was never assigned
    is [None]; reading it raises [KeyError]. [first_token] is assigned when
    the dict is created. *)
Record SpanMap : Type := mkSpanMap {
  span_first_token : nat * nat;
  span_column_name : option (nat * nat);
  span_value : option (nat * nat);
  span_type : option (nat * nat);
  span_other_tokens : option (list nat);
  span_whole_span : option (nat * nat)
}.

(** [span[key]] *)
Definition span_lookup {A} (key : string) (field : option A) : result A :=
  match field with
  | Some v => Ok v
  | None => Raise (KeyError key)
  end.

(** The [instance] dict returned by [get_input]. *)
Record Instance : Type := mkInstance {
  tokens : list string;
  segment_ids : list nat;
  column_spans : Dict.t SpanMap;
  context_length : nat;
  context_token_indices : list nat
}.

(** ** SequenceBuilder *)

Section SequenceBuilder.

(** [table_bert.table_bert.MAX_BERT_INPUT_LENGTH], imported by the module. *)
Variable MAX_BERT_INPUT_LENGTH : Z.

Variable config : TableBertConfig.

(** One iteration of the template loop of [get_cell_input]. *)
Definition cell_step (column : Column) (cell_value : list string)
    (token_offset : nat) (st : list string * SpanMap) (token : string)
  : list string * SpanMap :=
  let '(input, span_map) := st in
  let start_token_abs_position := length input + token_offset in
  if (token =? "column")%string then
    (input ++ name_tokens column,
     mkSpanMap (span_first_token span_map)
       (Some (start_token_abs_position,
              start_token_abs_position + length (name_tokens column)))
       (span_value span_map) (span_type span_map)
       (span_other_tokens span_map) (span_whole_span span_map))
  else if (token =? "value")%string then
    (input ++ cell_value,
     mkSpanMap (span_first_token span_map) (span_column_name span_map)
       (Some (start_token_abs_position,
              start_token_abs_position + length cell_value))
       (span_type span_map)
       (span_other_tokens span_map) (span_whole_span span_map))
  else if (token =? "type")%string then
    (input ++ [type column],
     mkSpanMap (span_first_token span_map) (span_column_name span_map)
       (span_value span_map)
       (Some (start_token_abs_position, start_token_abs_position + 1))
       (span_other_tokens span_map) (span_whole_span span_map))
  else
    (input ++ [token],
     mkSpanMap (span_first_token span_map) (span_column_name span_map)
       (span_value span_map) (span_type span_map)
       (Some (match span_other_tokens span_map with
              | Some l => l
              | None => []
              end ++ [start_token_abs_position]))
       (span_whole_span span_map)).

Definition get_cell_input (column : Column) (cell_value : list string)
    (token_offset : nat) : list string * SpanMap :=
  let span_map :=
    mkSpanMap (token_offset, token_offset + 1) None None None None None in
  let '(input, span_map) :=
    fold_left (cell_step column cell_value token_offset)
      (cell_input_template config) ([], span_map) in
  (input,
   mkSpanMap (span_first_token span_map) (span_column_name span_map)
     (span_value span_map) (span_type span_map)
     (span_other_tokens span_map)
     (Some (token_offset, token_offset + length input))).

(** The column loop of [get_input]; the [break] returns the accumulators
    as they are. *)
Fixpoint table_loop (max_table_token_length : Z) (columns : list Column)
    (row_input_tokens : list string)
    (column_token_span_maps : Dict.t SpanMap) (column_start_idx : nat)
  : list string * Dict.t SpanMap :=
  match columns with
  | [] => (row_input_tokens, column_token_span_maps)
  | column :: rest =>
      let value_tokens := sample_value_tokens column in
      let truncated_value_tokens :=
        Py.slice_to value_tokens (max_cell_len config) in
      let '(column_input_tokens, token_span_map) :=
        get_cell_input column truncated_value_tokens column_start_idx in
      let column_input_tokens :=
        column_input_tokens ++ [column_delimiter config] in
      if (Z.of_nat (length row_input_tokens + length column_input_tokens)
            >? max_table_token_length)%Z
      then (row_input_tokens, column_token_span_maps)
      else
        table_loop max_table_token_length rest
          (row_input_tokens ++ column_input_tokens)
          (Dict.set column_token_span_maps (name column) token_span_map)
          (column_start_idx + length column_input_tokens)
  end.

Definition get_input (context : list string) (table : Table)
  : result Instance :=
  let table_tokens_start_idx :=
    if context_first config then length context + 2 else 1 in
  let max_table_token_length :=
    (MAX_BERT_INPUT_LENGTH - Z.of_nat (length context) - 2 - 1)%Z in
  let '(row_input_tokens, column_token_span_maps) :=
    table_loop max_table_token_length (header table) [] []
      table_tokens_start_idx in
  match Py.last row_input_tokens with
  | Raise e => Raise e
  | Ok last_token =>
      let row_input_tokens :=
        if (last_token =? column_delimiter config)%string
        then removelast row_input_tokens
        else row_input_tokens in
      if context_first config then
        Ok (mkInstance
              (["[CLS]"] ++ context ++ ["[SEP]"] ++ row_input_tokens
                 ++ ["[SEP]"])
              (repeat 0 (length context + 2)
                 ++ repeat 1 (length row_input_tokens + 1))
              column_token_span_maps
              (1 + length context)
              (Py.range 0 (1 + length context)))
      else
        Ok (mkInstance
              (["[CLS]"] ++ row_input_tokens ++ ["[SEP]"] ++ context
                 ++ ["[SEP]"])
              (repeat 0 (length row_input_tokens + 2)
                 ++ repeat 1 (length context + 1))
              column_token_span_maps
              (1 + length context)
              (Py.range (length row_input_tokens + 1)
                 (length row_input_tokens + 1 + 1 + length context + 1)))
  end.

(** The row buffer once [get_input] has dropped the dangling delimiter. *)
Definition strip_delimiter (row : list string) (last_token : string)
  : list string :=
  if (last_token =? column_delimiter config)%string
  then removelast row else row.

End SequenceBuilder.

(** ** The random source

    Python's [random] module draws from one global generator. Here the
    generator is a list of raw draws consumed from the front (an exhausted
    list keeps yielding 0), and the library functions the formatter calls
    are written over it:
    - [random()] is a multiple of 2^-53 in [0, 1);
    - [choice(seq)] indexes [seq] at a drawn position and raises
      [IndexError] on an empty sequence;
    - [sample(population, k)] raises [ValueError] unless
      [0 <= k <= len(population)], and otherwise draws [k] positions
      without replacement;
    - [shuffle(x)] is a permutation of [x] chosen by the source.

    The thresholds [0.8], [0.5] and [0.01] the draws are compared with are
    the rationals 8/10, 5/10 and 1/100: a multiple [k / 2^53] is below the
    double nearest to each of them exactly when it is below the rational
    (for 0.8 both mean [k <= 7205759403792793], for 0.01 both mean
    [k <= 90071992547409], and 0.5 is exact). *)

Module Rand.

Definition source : Type := list N.

Definition M (A : Type) : Type := source -> result (A * source).

Definition ret {A} (a : A) : M A := fun s => Ok (a, s).

Definition bind {A B} (m : M A) (f : A -> M B) : M B :=
  fun s =>
    match m s with
    | Ok (a, s') => f a s'
    | Raise e => Raise e
    end.

Definition raise {A} (e : exception) : M A := fun _ => Raise e.

Definition lift {A} (r : result A) : M A :=
  fun s =>
    match r with
    | Ok a => Ok (a, s)
    | Raise e => Raise e
    end.

Definition next : M N :=
  fun s =>
    match s with
    | [] => Ok (0%N, [])
    | r :: s' => Ok (r, s')
    end.

Definition random : M Q :=
  bind next (fun r => ret (Z.of_N (r mod 2 ^ 53) # 2 ^ 53)).

Definition randbelow (n : nat) : M nat :=
  bind next (fun r => ret (N.to_nat (r mod N.of_nat n))).

Definition choice {A} (seq : list A) : M A :=
  match seq with
  | [] => raise IndexError
  | _ :: _ => bind (randbelow (length seq)) (fun i => lift (Py.getitem seq i))
  end.

(** The element at position [j] and the list without it. *)
Fixpoint pick {A} (j : nat) (pool : list A) {struct pool}
  : option (A * list A) :=
  match pool, j with
  | [], _ => None
  | x :: t, O => Some (x, t)
  | x :: t, S j' =>
      match pick j' t with
      | Some (y, t') => Some (y, x :: t')
      | None => None
      end
  end.

Fixpoint draw {A} (k : nat) (pool : list A) : M (list A) :=
  match k with
  | O => ret []
  | S k' =>
      bind (randbelow (length pool)) (fun j =>
      match pick j pool with
      | Some (x, pool') => bind (draw k' pool') (fun l => ret (x :: l))
      | None => raise ValueError
      end)
  end.

Definition sample {A} (population : list A) (k : Z) : M (list A) :=
  if ((k <? 0) || (Z.of_nat (length population) <? k))%Z
  then raise ValueError
  else draw (Z.to_nat k) population.

Definition shuffle {A} (x : list A) : M (list A) := draw (length x) x.

Fixpoint mapM {A B} (f : A -> M B) (l : list A) : M (list B) :=
  match l with
  | [] => ret []
  | a :: t => bind (f a) (fun b => bind (mapM f t) (fun bs => ret (b :: bs)))
  end.

End Rand.

Declare Scope rand_scope.
Delimit Scope rand_scope with rand.
Notation "x <- m ;; k" := (Rand.bind m (fun x => k))
  (at level 61, m at next level, right associativity) : rand_scope.
Notation "' p <- m ;; k" := (Rand.bind m (fun p => k))
  (at level 61, p pattern, m at next level, right associativity) : rand_scope.

(** [x < y] on rationals, as a boolean. *)
Definition Qltb (x y : Q) : bool := negb (Qle_bool y x).

(** ** MaskGenerator *)

(** The [info] dict. [num_masked_columns] is set by the ['column'] strategy
    only, [num_columns] by [create_pretraining_instance]. *)
Record Info : Type := mkInfo {
  num_maskable_column_tokens : nat;
  num_masked_columns : option Z;
  num_column_tokens_to_mask : Z;
  num_context_tokens_to_mask : Z;
  num_columns : option nat
}.

(** The dict returned by [create_pretraining_instance]. *)
Record PretrainingInstance : Type := mkPretrainingInstance {
  masked_tokens : list string;
  token_ids : list Z;
  segment_a_length : nat;
  masked_lm_positions : list nat;
  masked_lm_labels : list string;
  masked_lm_label_ids : list Z;
  info : Info
}.

Section MaskGenerator.

Local Open Scope rand_scope.

Variable MAX_BERT_INPUT_LENGTH : Z.

Variable config : TableBertConfig.

(** [self.vocab_list] *)
Variable vocab_list : list string.

(** [self.tokenizer.convert_tokens_to_ids], an external collaborator. *)
Variable convert_tokens_to_ids : list string -> result (list Z).

(** The [if]/[elif]/[else] on [table_mask_strategy]: the indices selected
    from the columns, [num_column_tokens_to_mask] and, for ['column'],
    [num_column_to_mask]. *)
Definition mask_columns (column_indices : list (list nat))
  : Rand.M (list nat * Z * option Z) :=
  if (table_mask_strategy config =? "column_token")%string then
    let column_indices := concat column_indices in
    product <-
      Rand.lift (Float.int_mul (Z.of_nat (length column_indices))
                   (masked_column_prob config)) ;;
    k <- Rand.lift (Float.int product) ;;
    let num_column_tokens_to_mask :=
      Z.min (max_predictions_per_seq config) (Z.max 2 k) in
    column_indices <- Rand.shuffle column_indices ;;
    s <- Rand.sample column_indices num_column_tokens_to_mask ;;
    Rand.ret (Py.sorted s, num_column_tokens_to_mask, None)
  else if (table_mask_strategy config =? "column")%string then
    let num_maskable_columns := length column_indices in
    product <-
      Rand.lift (Float.int_mul (Z.of_nat num_maskable_columns)
                   (masked_column_prob config)) ;;
    k <- Rand.lift (Float.ceil product) ;;
    let num_column_to_mask := Z.max 1 k in
    s <- Rand.sample (Py.range 0 num_maskable_columns) num_column_to_mask ;;
    let columns_to_mask := Py.sorted s in
    columns_to_mask <- Rand.shuffle columns_to_mask ;;
    selected <-
      Rand.mapM (fun i => Rand.lift (Py.getitem column_indices i))
        columns_to_mask ;;
    let num_column_tokens_to_mask :=
      Z.of_nat (Py.sum (map (@length nat) selected)) in
    Rand.ret (concat selected, num_column_tokens_to_mask,
              Some num_column_to_mask)
  else Rand.raise (RuntimeError "unknown mode!").

(** The context part: [num_context_tokens_to_mask] and the resulting
    [masked_indices]. *)
Definition mask_context (context_indices : list nat)
    (num_column_tokens_to_mask : Z)
    (masked_column_token_indices : list nat)
  : Rand.M (list nat * Z) :=
  let max_context_token_to_mask :=
    (max_predictions_per_seq config - num_column_tokens_to_mask)%Z in
  product <-
    Rand.lift (Float.int_mul (Z.of_nat (length context_indices))
                 (masked_context_prob config)) ;;
  k <- Rand.lift (Float.int product) ;;
  let num_context_tokens_to_mask :=
    Z.min max_context_token_to_mask (Z.max 1 k) in
  if (num_context_tokens_to_mask >? 0)%Z then
    context_indices <- Rand.shuffle context_indices ;;
    s <- Rand.sample context_indices num_context_tokens_to_mask ;;
    let masked_context_token_indices := Py.sorted s in
    Rand.ret (Py.sorted (masked_context_token_indices
                           ++ masked_column_token_indices),
              num_context_tokens_to_mask)
  else Rand.ret (masked_column_token_indices, num_context_tokens_to_mask).

(** The substitution loop over [masked_indices]. *)
Fixpoint mask_loop (masked_indices : list nat) (tokens : list string)
    (masked_token_labels : list string)
  : Rand.M (list string * list string) :=
  match masked_indices with
  | [] => Rand.ret (tokens, masked_token_labels)
  | index :: rest =>
      r <- Rand.random ;;
      masked_token <-
        (if Qltb r (8 # 10) then Rand.ret "[MASK]"
         else
           r' <- Rand.random ;;
           if Qltb r' (5 # 10) then Rand.lift (Py.getitem tokens index)
           else Rand.choice vocab_list) ;;
      label <- Rand.lift (Py.getitem tokens index) ;;
      tokens <- Rand.lift (Py.setitem tokens index masked_token) ;;
      mask_loop rest tokens (masked_token_labels ++ [label])
  end.

Definition create_masked_lm_predictions (tokens : list string)
    (context_indices : list nat) (column_indices : list (list nat))
  : Rand.M (list string * list nat * list string * Info) :=
  let maskable := Py.sum (map (@length nat) column_indices) in
  '(masked_column_token_indices, num_column_tokens_to_mask, masked_cols) <-
    mask_columns column_indices ;;
  '(masked_indices, num_context_tokens_to_mask) <-
    mask_context context_indices num_column_tokens_to_mask
      masked_column_token_indices ;;
  '(tokens, masked_token_labels) <- mask_loop masked_indices tokens [] ;;
  Rand.ret (tokens, masked_indices, masked_token_labels,
            mkInfo maskable masked_cols num_column_tokens_to_mask
              num_context_tokens_to_mask None).

(** The candidate indices of one column; [literal_prob] is the threshold
    of the literal-masking draw, [0.01] in the source. *)
Definition column_candidates (literal_prob : Q) (span : SpanMap)
  : Rand.M (list nat) :=
  cn <- Rand.lift (span_lookup "column_name" (span_column_name span)) ;;
  ty <- Rand.lift (span_lookup "type" (span_type span)) ;;
  r <- Rand.random ;;
  other <-
    (if Qltb r literal_prob
     then Rand.lift (span_lookup "other_tokens" (span_other_tokens span))
     else Rand.ret []) ;;
  Rand.ret (Py.range (fst cn) (snd cn) ++ Py.range (fst ty) (snd ty)
              ++ other).

(** [sum(1 for x in segment_ids if x == 0)] *)
Definition count_segment_a (segment_ids : list nat) : nat :=
  length (filter (fun x => x =? 0) segment_ids).

Definition context_candidates (input_instance : Instance) : list nat :=
  if context_first config
  then tl (context_token_indices input_instance)
  else removelast (context_token_indices input_instance).

Definition create_pretraining_instance_with (literal_prob : Q)
    (context : list string) (header : list Column)
  : Rand.M PretrainingInstance :=
  let table := mkTable "fake_table" header in
  input_instance <-
    Rand.lift (get_input MAX_BERT_INPUT_LENGTH config context table) ;;
  let column_spans := column_spans input_instance in
  column_candidate_indices <-
    Rand.mapM (fun kv => column_candidates literal_prob (snd kv))
      (Dict.items column_spans) ;;
  let context_candidate_indices := context_candidates input_instance in
  '(masked_sequence, masked_lm_positions, masked_lm_labels, info) <-
    create_masked_lm_predictions (tokens input_instance)
      context_candidate_indices column_candidate_indices ;;
  let info :=
    mkInfo (num_maskable_column_tokens info) (num_masked_columns info)
      (num_column_tokens_to_mask info) (num_context_tokens_to_mask info)
      (Some (length header)) in
  token_ids <- Rand.lift (convert_tokens_to_ids masked_sequence) ;;
  label_ids <- Rand.lift (convert_tokens_to_ids masked_lm_labels) ;;
  Rand.ret
    (mkPretrainingInstance masked_sequence token_ids
       (count_segment_a (segment_ids input_instance))
       masked_lm_positions masked_lm_labels label_ids info).

Definition create_pretraining_instance
  : list string -> list Column -> Rand.M PretrainingInstance :=
  create_pretraining_instance_with (1 # 100).

End MaskGenerator.

(** ** Instances from an example *)

(** [table_bert.dataset.Example], restricted to the attributes read here.
    A cell of [column_data] is [None] or a string. *)
Module Dataset.

Record Example : Type := mkExample {
  header : list Column;
  column_data : list (list (option string));
  source : string
}.

End Dataset.

(** The dict of [create_pretraining_instance] with the key ['source']
    added. *)
Record SourcedInstance : Type := mkSourcedInstance {
  instance : PretrainingInstance;
  instance_source : string
}.

(** [[val for val in col_values if val is not None and len(val) > 0]] *)
Definition usable_values (col_values : list (option string)) : list string :=
  flat_map (fun val =>
              match val with
              | Some v => if 0 <? String.length v then [v] else []
              | None => []
              end) col_values.

(** [column.sample_value_tokens = sampled_value_tokens] *)
Definition set_sample_value_tokens (column : Column)
    (sampled_value_tokens : list string) : Column :=
  mkColumn (name column) (type column) (name_tokens column)
    sampled_value_tokens.

Section ExampleInstances.

Local Open Scope rand_scope.

Variable MAX_BERT_INPUT_LENGTH : Z.

Variable config : TableBertConfig.

Variable vocab_list : list string.

Variable convert_tokens_to_ids : list string -> result (list Z).

(** [self.tokenizer.tokenize], an external collaborator. *)
Variable tokenize : string -> list string.

(** The contexts [context_sampler] yields for an example, the sampler
    being applied to [config.max_context_len] and
    [config.context_sample_strategy]. *)
Variable context_sampler : Dataset.Example -> list (list string).

(** The loop over [enumerate(example.header)] from [col_idx] on: each
    column object gets a sampled value; the result is the header with the
    new values. *)
Fixpoint sample_values (column_data : list (list (option string)))
    (columns : list Column) (col_idx : nat) : Rand.M (list Column) :=
  match columns with
  | [] => Rand.ret []
  | column :: rest =>
      col_values <- Rand.lift (Py.getitem column_data col_idx) ;;
      let col_values := usable_values col_values in
      sampled_value <- Rand.choice col_values ;;
      let sampled_value_tokens := tokenize sampled_value in
      let column := set_sample_value_tokens column sampled_value_tokens in
      rest <- sample_values column_data rest (S col_idx) ;;
      Rand.ret (column :: rest)
  end.

(** The loop over the contexts; [header] is the state of the column
    objects of [example.header]. *)
Fixpoint instances_loop (example : Dataset.Example)
    (contexts : list (list string)) (header : list Column)
    (instances : list SourcedInstance)
  : Rand.M (list SourcedInstance * list Column) :=
  match contexts with
  | [] => Rand.ret (instances, header)
  | context :: rest =>
      header <- sample_values (Dataset.column_data example) header 0 ;;
      inst <-
        create_pretraining_instance MAX_BERT_INPUT_LENGTH config vocab_list
          convert_tokens_to_ids context header ;;
      let inst := mkSourcedInstance inst (Dataset.source example) in
      instances_loop example rest header (instances ++ [inst])
  end.

(** Returns the instances, and the column objects of [example.header] as
    the call leaves them. *)
Definition get_pretraining_instances_from_example
    (example : Dataset.Example)
  : Rand.M (list SourcedInstance * list Column) :=
  let instances := [] in
  let context_iter := context_sampler example in
  instances_loop example context_iter (Dataset.header example) instances.

End ExampleInstances.

(** ** Vocabulary of the specification *)

(** Index of the context's boundary token on the table side: the [SEP]
    that closes the context when the context comes first, the [SEP] that
    opens it when the table comes first. *)
Definition table_side_boundary (config : TableBertConfig) (inst : Instance)
  : nat :=
  if context_first config then context_length inst
  else length (tokens inst) - context_length inst - 1.

(** Index of the context's boundary token away from the table: [CLS] when
    the context comes first, the final [SEP] otherwise. *)
Definition far_boundary (config : TableBertConfig) (inst : Instance) : nat :=
  if context_first config then 0 else length (tokens inst) - 1.

(** The scenario of the specification: one column [country] of type [text]
    with the sampled value [brazil], under the question "how many medals". *)
Definition scenario_context : list string := ["how"; "many"; "medals"].

Definition scenario_column : Column :=
  mkColumn "country" "text" ["country"] ["brazil"].

Definition scenario_table : Table := mkTable "fake_table" [scenario_column].

Definition scenario_template : list string := ["column"; "type"; "value"].

Definition scenario_config : TableBertConfig :=
  mkConfig scenario_template true 5 "[SEP]" "column_token"
    (Float.literal 15 100) (Float.literal 15 100) 200.

Definition scenario_tokens : list string :=
  ["[CLS]"; "how"; "many"; "medals"; "[SEP]"; "country"; "text"; "brazil";
   "[SEP]"].

(** What [get_input] returns in the scenario. *)
Definition scenario_span : SpanMap :=
  mkSpanMap (5, 6) (Some (5, 6)) (Some (7, 8)) (Some (6, 7)) None
    (Some (5, 8)).

Definition scenario_instance : Instance :=
  mkInstance scenario_tokens [0; 0; 0; 0; 0; 1; 1; 1; 1]
    [("country", scenario_span)] 4 [0; 1; 2; 3].

(** The instance [create_pretraining_instance] builds in the scenario when
    the literal draw does not fire and every later draw is 0. *)
Definition scenario_pretraining_instance : PretrainingInstance :=
  mkPretrainingInstance
    ["[CLS]"; "[MASK]"; "many"; "medals"; "[SEP]"; "[MASK]"; "[MASK]";
     "brazil"; "[SEP]"]
    [0; 0; 0; 0; 0; 0; 0; 0; 0]%Z 5 [1; 5; 6] ["how"; "country"; "text"]
    [0; 0; 0]%Z (mkInfo 2 None 2 1 (Some 1)).

(** The scenario with the table first. *)
Definition table_first_config : TableBertConfig :=
  mkConfig scenario_template false 5 "[SEP]" "column_token"
    (Float.literal 15 100) (Float.literal 15 100) 200.

Definition table_first_instance : Instance :=
  mkInstance
    ["[CLS]"; "country"; "text"; "brazil"; "[SEP]"; "how"; "many"; "medals";
     "[SEP]"]
    [0; 0; 0; 0; 0; 1; 1; 1; 1]
    [("country",
      mkSpanMap (1, 2) (Some (1, 2)) (Some (3, 4)) (Some (2, 3)) None
        (Some (1, 4)))]
    4 [4; 5; 6; 7; 8].

(** [column_spans[key]["column_name"]], when both keys are present. *)
Definition column_name_span (inst : Instance) (key : string)
  : option (nat * nat) :=
  match Dict.get (column_spans inst) key with
  | Some span => span_column_name span
  | None => None
  end.

(** The number that the product [n * prob] of the program stands for: the
    float of [n] times [prob], rounded to the nearest float. It is
    undefined when the product is an infinity or a NaN. *)
Definition float_product (n : nat) (prob : Float.t) : option Q :=
  match Float.int_mul (Z.of_nat n) prob with
  | Ok x => Float.value x
  | Raise _ => None
  end.

(** The counts of the specification, with [floor] and [ceil] of the
    products. *)
Definition column_token_quota (config : TableBertConfig) (pool_size : nat)
  : option Z :=
  option_map
    (fun product =>
       Z.min (max_predictions_per_seq config) (Z.max 2 (Qfloor product)))
    (float_product pool_size (masked_column_prob config)).

Definition column_quota (config : TableBertConfig) (num_columns : nat)
  : option Z :=
  option_map (fun product => Z.max 1 (Qceiling product))
    (float_product num_columns (masked_column_prob config)).

Definition context_budget (config : TableBertConfig)
    (num_column_tokens_masked : Z) : Z :=
  (max_predictions_per_seq config - num_column_tokens_masked)%Z.

(** [max(1, floor(len(context_indices) * masked_context_prob))] *)
Definition context_request (config : TableBertConfig) (context_size : nat)
  : option Z :=
  option_map (fun product => Z.max 1 (Qfloor product))
    (float_product context_size (masked_context_prob config)).

Definition context_quota (config : TableBertConfig)
    (num_column_tokens_masked : Z) (context_size : nat) : option Z :=
  option_map (Z.min (context_budget config num_column_tokens_masked))
    (context_request config context_size).

(** Positions strictly ascending, hence unique. *)
Definition strictly_ascending (positions : list nat) : Prop :=
  Sorted Nat.lt positions.

(** A table of four columns under the question "q", masked by whole
    columns with [masked_column_prob = 0.5] and a budget of four
    predictions. *)
Definition column_strategy_config : TableBertConfig :=
  mkConfig scenario_template true 5 "[SEP]" "column" (Float.literal 5 10)
    (Float.literal 15 100) 4.

Definition four_columns : list Column :=
  [mkColumn "a" "ta" ["a"] ["va"]; mkColumn "b" "tb" ["b"] ["vb"];
   mkColumn "c" "tc" ["c"] ["vc"]; mkColumn "d" "td" ["d"] ["vd"]].

Definition four_column_tokens : list string :=
  ["[CLS]"; "q"; "[SEP]"; "a"; "ta"; "va"; "[SEP]"; "b"; "tb"; "vb"; "[SEP]";
   "c"; "tc"; "vc"; "[SEP]"; "d"; "td"; "vd"; "[SEP]"].

Definition four_column_candidates : list (list nat) :=
  [[3; 4]; [7; 8]; [11; 12]; [15; 16]].

Definition small_vocab : list string := ["the"; "of"].

(** Membership of an index in a half-open span, in the literal list and
    among the indices [create_pretraining_instance] may offer for masking. *)
Definition in_span (i : nat) (span : option (nat * nat)) : Prop :=
  match span with
  | Some (a, b) => a <= i < b
  | None => False
  end.

Definition in_other_tokens (i : nat) (span : SpanMap) : Prop :=
  match span_other_tokens span with
  | Some l => In i l
  | None => False
  end.

Definition maskable (i : nat) (span : SpanMap) : Prop :=
  in_span i (span_column_name span)
  \/ in_span i (span_type span)
  \/ in_other_tokens i span.

(** A stand-in for the tokenizer's [convert_tokens_to_ids]. *)
Definition zero_ids (tokens : list string) : result (list Z) :=
  Ok (map (fun _ => 0%Z) tokens).

(** The scenario without the [type] marker in the template. *)
Definition no_type_config : TableBertConfig :=
  mkConfig ["column"; "value"] true 5 "[SEP]" "column_token"
    (Float.literal 15 100) (Float.literal 15 100) 200.

(** A span map has the key [column_name] exactly when the template has
    the marker [column], and the key [type] exactly when it has [type]. *)
Definition keys_follow_template (config : TableBertConfig)
    (span : SpanMap) : Prop :=
  (span_column_name span = None
   <-> ~ In "column"%string (cell_input_template config))
  /\ (span_type span = None
      <-> ~ In "type"%string (cell_input_template config)).

(** The extent of a cell: it starts at its [first_token] and ends where its
    [whole_span] ends. *)
Definition cell_lo (span : SpanMap) : nat := fst (span_first_token span).

Definition cell_hi (span : SpanMap) : nat :=
  match span_whole_span span with
  | Some (_, h) => h
  | None => cell_lo span
  end.

(** The spans of a cell lie within its extent, and its [value] span shares
    no index with [column_name], [type] or [other_tokens]. *)
Definition cell_wf (span : SpanMap) : Prop :=
  span_whole_span span = Some (cell_lo span, cell_hi span)
  /\ (forall i, maskable i span -> cell_lo span <= i < cell_hi span)
  /\ (forall i, in_span i (span_value span) ->
      cell_lo span <= i < cell_hi span)
  /\ (forall i, in_span i (span_value span) -> ~ maskable i span).

(** Two span maps are the same or their extents do not meet. *)
Definition cells_apart (a b : SpanMap) : Prop :=
  a = b \/ cell_hi a <= cell_lo b \/ cell_hi b <= cell_lo a.

(** The span maps of a row that starts at [start] and whose next column
    would start at [bound]: each cell is well formed and ends before its
    delimiter, and different cells are apart. *)
Definition spans_wf (start bound : nat) (spans : Dict.t SpanMap) : Prop :=
  Forall (fun kv => cell_wf (snd kv)
                    /\ start <= cell_lo (snd kv)
                    /\ cell_hi (snd kv) < bound) spans
  /\ forall kv1 kv2, In kv1 spans -> In kv2 spans ->
                     cells_apart (snd kv1) (snd kv2).

(** The invariant of the template loop at offset [off]. *)
Definition fold_wf (off : nat) (st : list string * SpanMap) : Prop :=
  span_first_token (snd st) = (off, off + 1)
  /\ (forall i, maskable i (snd st) -> off <= i < off + length (fst st))
  /\ (forall i, in_span i (span_value (snd st)) ->
      off <= i < off + length (fst st))
  /\ (forall i, in_span i (span_value (snd st)) -> ~ maskable i (snd st)).

(** [l[a:b]] for [0 <= a <= b]. *)
Definition slice {A} (l : list A) (a b : nat) : list A :=
  firstn (b - a) (skipn a l).

(** A span map moved [d] tokens to the right. *)
Definition shift_span (d : nat) (span : nat * nat) : nat * nat :=
  (fst span + d, snd span + d).

Definition shift_span_map (d : nat) (span : SpanMap) : SpanMap :=
  mkSpanMap (shift_span d (span_first_token span))
    (option_map (shift_span d) (span_column_name span))
    (option_map (shift_span d) (span_value span))
    (option_map (shift_span d) (span_type span))
    (option_map (map (fun i => i + d)) (span_other_tokens span))
    (option_map (shift_span d) (span_whole_span span)).

(** The value tokens [get_input] passes to [get_cell_input]. *)
Definition truncated_value (config : TableBertConfig) (column : Column)
  : list string :=
  Py.slice_to (sample_value_tokens column) (max_cell_len config).

(** The tokens a column contributes to the row, without the delimiter. *)
Definition cell_tokens (config : TableBertConfig) (column : Column)
  : list string :=
  fst (get_cell_input config column (truncated_value config column) 0).

(** A span recorded at offset [off] lies within [input] and cuts the
    tokens [expected] out of it. *)
Definition span_cuts (off : nat) (input : list string)
    (span : option (nat * nat)) (expected : list string) : Prop :=
  forall a b, span = Some (a, b) ->
    off <= a /\ a <= b /\ b <= off + length input
    /\ slice input (a - off) (b - off) = expected.

(** A template marker, as opposed to a literal token. *)
Definition is_marker (token : string) : Prop :=
  token = "column"%string \/ token = "value"%string \/ token = "type"%string.

(** The invariant of the template loop on what the spans cut out. *)
Definition fold_sliced (column : Column) (cell_value : list string)
    (template : list string) (off : nat) (st : list string * SpanMap)
  : Prop :=
  span_cuts off (fst st) (span_column_name (snd st)) (name_tokens column)
  /\ span_cuts off (fst st) (span_value (snd st)) cell_value
  /\ span_cuts off (fst st) (span_type (snd st)) [type column]
  /\ forall i, in_other_tokens i (snd st) ->
       off <= i
       /\ exists token,
            nth_error (fst st) (i - off) = Some token
            /\ In token template /\ ~ is_marker token.

(** The configuration with the template "column | type | value". *)
Definition literal_config : TableBertConfig :=
  mkConfig ["column"; "|"; "type"; "|"; "value"] true 5 "[SEP]"
    "column_token" (Float.literal 15 100) (Float.literal 15 100) 200.

(** The table-token budget of [get_input]. *)
Definition table_budget (MAX : Z) (context : list string) : Z :=
  (MAX - Z.of_nat (length context) - 2 - 1)%Z.

(** Where the table starts in the sequence. *)
Definition table_start (config : TableBertConfig) (context : list string)
  : nat :=
  if context_first config then length context + 2 else 1.

(** How many columns the loop of [get_input] includes when [used] tokens of
    the budget are already taken: it stops at the first column that does
    not fit. *)
Fixpoint included_columns (config : TableBertConfig) (budget : Z)
    (columns : list Column) (used : nat) : nat :=
  match columns with
  | [] => 0
  | column :: rest =>
      let n := length (cell_tokens config column) + 1 in
      if (Z.of_nat (used + n) >? budget)%Z then 0
      else S (included_columns config budget rest (used + n))
  end.

(** The cells of some columns, each followed by the delimiter. *)
Definition row_of (config : TableBertConfig) (columns : list Column)
  : list string :=
  flat_map (fun column =>
              cell_tokens config column ++ [column_delimiter config])
    columns.

(** The columns [get_input] includes, and the row it puts in the sequence. *)
Definition included (MAX : Z) (config : TableBertConfig)
    (context : list string) (table : Table) : list Column :=
  firstn (included_columns config (table_budget MAX context) (header table) 0)
    (header table).

Definition final_row (MAX : Z) (config : TableBertConfig)
    (context : list string) (table : Table) : list string :=
  removelast (row_of config (included MAX config context table)).

(** The entry of [column_spans] under a key comes from a column of that
    name whose cell lies in [row] where the span map says, [row] starting
    at index [start] of the sequence. *)
Definition entry_located (config : TableBertConfig) (columns : list Column)
    (start : nat) (row : list string) (kv : string * SpanMap) : Prop :=
  exists column off,
    In column columns
    /\ name column = fst kv
    /\ start <= off
    /\ snd kv
       = snd (get_cell_input config column (truncated_value config column)
                off)
    /\ off + length (cell_tokens config column) < start + length row
    /\ slice row (off - start)
         (off - start + length (cell_tokens config column))
       = cell_tokens config column.

(** A table with two columns of the same name. *)
Definition year_as_number : Column := mkColumn "year" "real" ["year"] ["1999"].

Definition year_as_text : Column := mkColumn "year" "text" ["year"] ["n/a"].

Definition duplicate_table : Table :=
  mkTable "fake_table" [year_as_number; year_as_text].

(** A column without a usable value: its data are missing, or every value
    is [None] or empty. *)
Definition column_unusable (column_data : list (list (option string)))
    (col_idx : nat) : Prop :=
  match nth_error column_data col_idx with
  | Some col_values => usable_values col_values = []
  | None => True
  end.

(** Two columns that differ at most in their sampled value. *)
Definition same_column (a b : Column) : Prop :=
  name a = name b /\ type a = type b /\ name_tokens a = name_tokens b.

(** An example with one column and two usable values, and one whose only
    column has no usable value. *)
Definition scenario_example : Dataset.Example :=
  Dataset.mkExample [mkColumn "country" "text" ["country"] []]
    [[None; Some "brazil"; Some ""; Some "peru"]] "wiki".

Definition empty_column_example : Dataset.Example :=
  Dataset.mkExample [mkColumn "country" "text" ["country"] []]
    [[None; Some ""]] "wiki".

(** A tokenizer that makes one token of a string, and a sampler that
    yields the scenario's question once. *)
Definition one_token (text : string) : list string := [text].

Definition one_context (example : Dataset.Example) : list (list string) :=
  [scenario_context].

(** The literal indices of a span map. *)
Definition other_list (span : SpanMap) : list nat :=
  match span_other_tokens span with
  | Some l => l
  | None => []
  end.

(** The [column_name] span, the [type] span and the literal indices share
    no index, and no literal index is recorded twice. *)
Definition span_distinct (span : SpanMap) : Prop :=
  (forall i, in_span i (span_column_name span) ->
             ~ in_span i (span_type span))
  /\ (forall i, In i (other_list span) ->
                ~ in_span i (span_column_name span)
                /\ ~ in_span i (span_type span))
  /\ NoDup (other_list span).

(** Two entries of [column_spans] whose cells do not meet. *)
Definition entries_apart (kv1 kv2 : string * SpanMap) : Prop :=
  cell_hi (snd kv1) < cell_lo (snd kv2)
  \/ cell_hi (snd kv2) < cell_lo (snd kv1).

(** * Properties *)

(** ** Python list primitives *)

Lemma last_app_singleton {A} (l : list A) (x : A) :
  Py.last (l ++ [x]) = Ok x.
Proof. unfold Py.last. rewrite rev_app_distr. reflexivity. Qed.

Lemma last_nil_iff {A} (l : list A) :
  Py.last l = Raise IndexError <-> l = [].
Proof.
  unfold Py.last. split.
  - destruct (rev l) eqn:E; [intros _ | discriminate].
    apply (f_equal (@rev A)) in E. rewrite rev_involutive in E. exact E.
  - intros ->. reflexivity.
Qed.

Lemma range_length (a b : nat) : length (Py.range a b) = b - a.
Proof. unfold Py.range. apply length_seq. Qed.

Lemma range_In (a b i : nat) : In i (Py.range a b) <-> a <= i < b.
Proof. unfold Py.range. rewrite in_seq. lia. Qed.

Lemma insert_perm (x : nat) (l : list nat) :
  Permutation (x :: l) (Py.insert x l).
Proof.
  induction l as [|y t IH]; simpl; [reflexivity|].
  destruct (x <? y); [reflexivity|].
  rewrite perm_swap. constructor. exact IH.
Qed.

Lemma sorted_perm (l : list nat) : Permutation l (Py.sorted l).
Proof.
  induction l as [|x t IH]; simpl; [constructor|].
  rewrite <- insert_perm. constructor. exact IH.
Qed.

Lemma sorted_length (l : list nat) : length (Py.sorted l) = length l.
Proof. symmetry. apply Permutation_length, sorted_perm. Qed.

Lemma sorted_In (l : list nat) (x : nat) : In x (Py.sorted l) <-> In x l.
Proof.
  split; intro H.
  - eapply Permutation_in; [symmetry; apply sorted_perm | exact H].
  - eapply Permutation_in; [apply sorted_perm | exact H].
Qed.

(** ** The shape of what [get_input] returns *)

Section SequenceFacts.

Variable MAX : Z.
Variable config : TableBertConfig.

Lemma get_input_inv (context : list string) (table : Table)
    (inst : Instance) :
  get_input MAX config context table = Ok inst ->
  exists row0 spans last_token,
    table_loop config (MAX - Z.of_nat (length context) - 2 - 1)
      (header table) [] []
      (if context_first config then length context + 2 else 1)
    = (row0, spans)
    /\ Py.last row0 = Ok last_token
    /\ column_spans inst = spans
    /\ context_length inst = 1 + length context
    /\ let row := strip_delimiter config row0 last_token in
       if context_first config then
         tokens inst
         = ["[CLS]"] ++ context ++ ["[SEP]"] ++ row ++ ["[SEP]"]
         /\ segment_ids inst
            = repeat 0 (length context + 2) ++ repeat 1 (length row + 1)
         /\ context_token_indices inst = Py.range 0 (1 + length context)
       else
         tokens inst
         = ["[CLS]"] ++ row ++ ["[SEP]"] ++ context ++ ["[SEP]"]
         /\ segment_ids inst
            = repeat 0 (length row + 2) ++ repeat 1 (length context + 1)
         /\ context_token_indices inst
            = Py.range (length row + 1)
                (length row + 1 + 1 + length context + 1).
Proof.
  unfold get_input.
  destruct (table_loop _ _ _ _ _ _) as [row0 spans] eqn:Eloop.
  destruct (Py.last row0) as [last_token|e] eqn:Elast; [|discriminate].
  intros H. exists row0, spans, last_token.
  unfold strip_delimiter.
  destruct (context_first config); injection H as <-; simpl;
    repeat split; first [assumption | reflexivity].
Qed.

End SequenceFacts.

(** ** Segment ids *)

Lemma count_segment_a_blocks (a b : nat) :
  count_segment_a (repeat 0 a ++ repeat 1 b) = a.
Proof.
  unfold count_segment_a. rewrite filter_app, length_app.
  assert (Ha : filter (fun x => x =? 0) (repeat 0 a) = repeat 0 a).
  { induction a as [|a IH]; simpl; [reflexivity | now rewrite IH]. }
  assert (Hb : filter (fun x => x =? 0) (repeat 1 b) = []).
  { induction b as [|b IH]; simpl; [reflexivity | exact IH]. }
  rewrite Ha, Hb, repeat_length. simpl. lia.
Qed.

Lemma sum_blocks (a b : nat) : Py.sum (repeat 0 a ++ repeat 1 b) = b.
Proof.
  unfold Py.sum. rewrite fold_right_app.
  assert (Hb : fold_right Nat.add 0 (repeat 1 b) = b).
  { induction b as [|b IH]; simpl; [reflexivity | now rewrite IH]. }
  rewrite Hb. induction a as [|a IH]; simpl; [reflexivity | exact IH].
Qed.

Lemma blocks_binary (a b : nat) :
  Forall (fun s => s = 0 \/ s = 1) (repeat 0 a ++ repeat 1 b).
Proof.
  apply Forall_app. split; apply Forall_forall; intros x Hx;
    apply repeat_spec in Hx; subst; auto.
Qed.

Lemma segment_layout (side_a side_b tokens : list string)
    (segment_ids : list nat) :
  tokens = ["[CLS]"] ++ side_a ++ ["[SEP]"] ++ side_b ++ ["[SEP]"] ->
  segment_ids = repeat 0 (length side_a + 2) ++ repeat 1 (length side_b + 1) ->
  length tokens = length segment_ids
  /\ segment_ids
     = repeat 0 (length (["[CLS]"] ++ side_a ++ ["[SEP]"]))
         ++ repeat 1 (length (side_b ++ ["[SEP]"]))
  /\ count_segment_a segment_ids = length (["[CLS]"] ++ side_a ++ ["[SEP]"])
  /\ Py.sum segment_ids = length tokens - count_segment_a segment_ids
  /\ Py.sum segment_ids = length (side_b ++ ["[SEP]"]).
Proof.
  intros -> ->.
  assert (La : length (["[CLS]"] ++ side_a ++ ["[SEP]"]) = length side_a + 2)
    by (rewrite !length_app; simpl; lia).
  assert (Lb : length (side_b ++ ["[SEP]"]) = length side_b + 1)
    by (rewrite !length_app; simpl; lia).
  assert (Lt : length (["[CLS]"] ++ side_a ++ ["[SEP]"] ++ side_b ++ ["[SEP]"])
               = length side_a + 2 + (length side_b + 1))
    by (rewrite !length_app; simpl; lia).
  rewrite La, Lb, Lt, count_segment_a_blocks, sum_blocks, length_app,
    !repeat_length.
  repeat split; try reflexivity; lia.
Qed.

(** C9. Every instance [get_input] returns has one segment id per token,
    each 0 or 1; the tokens read [CLS] side_a [SEP] side_b [SEP] with the
    context as side_a when [context_first] and as side_b otherwise; the
    segment ids are 0 on [CLS] side_a [SEP] and 1 on side_b [SEP]; and
    [segment_a_length], the count of zeros, satisfies
    [sum(segment_ids) = len(tokens) - segment_a_length], which is the length
    of the side without [CLS]. *)
Theorem C9_segment_ids_partition (MAX : Z) (config : TableBertConfig)
    (context : list string) (table : Table) (inst : Instance) :
  get_input MAX config context table = Ok inst ->
  length (tokens inst) = length (segment_ids inst)
  /\ Forall (fun s => s = 0 \/ s = 1) (segment_ids inst)
  /\ exists side_a side_b,
       tokens inst = ["[CLS]"] ++ side_a ++ ["[SEP]"] ++ side_b ++ ["[SEP]"]
       /\ (if context_first config then side_a = context
           else side_b = context)
       /\ segment_ids inst
          = repeat 0 (length (["[CLS]"] ++ side_a ++ ["[SEP]"]))
              ++ repeat 1 (length (side_b ++ ["[SEP]"]))
       /\ count_segment_a (segment_ids inst)
          = length (["[CLS]"] ++ side_a ++ ["[SEP]"])
       /\ Py.sum (segment_ids inst)
          = length (tokens inst) - count_segment_a (segment_ids inst)
       /\ Py.sum (segment_ids inst) = length (side_b ++ ["[SEP]"]).
Proof.
  intros H. apply get_input_inv in H.
  destruct H as (row0 & spans & last_token & _ & _ & _ & _ & H).
  cbv zeta in H. set (row := strip_delimiter config row0 last_token) in *.
  destruct (context_first config); destruct H as (Ht & Hs & _).
  - destruct (segment_layout context row _ _ Ht Hs) as (L & S1 & S2 & S3 & S4).
    split; [exact L|]. split; [rewrite Hs; apply blocks_binary|].
    exists context, row. repeat split; assumption.
  - destruct (segment_layout row context _ _ Ht Hs) as (L & S1 & S2 & S3 & S4).
    split; [exact L|]. split; [rewrite Hs; apply blocks_binary|].
    exists row, context. repeat split; assumption.
Qed.

Lemma C9_segment_ids_partition_witness :
  get_input 512 scenario_config scenario_context scenario_table
  = Ok scenario_instance
  /\ length (tokens scenario_instance) = length (segment_ids scenario_instance)
  /\ Forall (fun s => s = 0 \/ s = 1) (segment_ids scenario_instance).
Proof.
  split; [reflexivity|].
  pose proof (C9_segment_ids_partition 512 scenario_config scenario_context
                scenario_table scenario_instance eq_refl) as H.
  split; [exact (proj1 H) | exact (proj1 (proj2 H))].
Defined.

(** ** The context candidate pool *)

Lemma removelast_seq (a n : nat) : removelast (seq a (S n)) = seq a n.
Proof. rewrite seq_S. apply removelast_last. Qed.

(** The pool in either ordering. When the context comes first the pool is
    the indices [1 .. len(context)] of the context words: it holds neither
    the [SEP] next to the table nor [CLS]. When the table comes first the
    pool is [len(row) + 1 .. len(row) + 1 + len(context)]: it starts with
    the [SEP] next to the table, holds the context words, and leaves out
    the final [SEP]. *)
Theorem context_candidate_pool (MAX : Z) (config : TableBertConfig)
    (context : list string) (table : Table) (inst : Instance) :
  get_input MAX config context table = Ok inst ->
  nth_error (tokens inst) (table_side_boundary config inst) = Some "[SEP]"
  /\ ~ In (far_boundary config inst) (context_candidates config inst)
  /\ if context_first config then
       context_candidates config inst = seq 1 (length context)
       /\ ~ In (table_side_boundary config inst)
            (context_candidates config inst)
     else
       exists row,
         tokens inst = ["[CLS]"] ++ row ++ ["[SEP]"] ++ context ++ ["[SEP]"]
         /\ context_candidates config inst
            = seq (length row + 1) (length context + 1)
         /\ table_side_boundary config inst = length row + 1
         /\ In (table_side_boundary config inst)
              (context_candidates config inst).
Proof.
  intros H. apply get_input_inv in H.
  destruct H as (row0 & spans & last_token & _ & _ & _ & Hlen & H).
  cbv zeta in H. set (row := strip_delimiter config row0 last_token) in *.
  unfold table_side_boundary, far_boundary, context_candidates.
  destruct (context_first config); destruct H as (Ht & _ & Hc);
    rewrite Ht, Hc, Hlen.
  - assert (Hpool : tl (Py.range 0 (1 + length context))
                    = seq 1 (length context)).
    { unfold Py.range. rewrite Nat.sub_0_r. reflexivity. }
    rewrite Hpool. repeat split.
    + change (["[CLS]"] ++ context ++ ["[SEP]"] ++ row ++ ["[SEP]"])
        with (("[CLS]" :: context) ++ "[SEP]" :: row ++ ["[SEP]"]).
      rewrite nth_error_app2 by (simpl; lia).
      replace (1 + length context - length ("[CLS]" :: context)) with 0
        by (simpl; lia).
      reflexivity.
    + rewrite in_seq. lia.
    + rewrite in_seq. lia.
  - assert (Hpool : removelast
                      (Py.range (length row + 1)
                         (length row + 1 + 1 + length context + 1))
                    = seq (length row + 1) (length context + 1)).
    { unfold Py.range.
      replace (length row + 1 + 1 + length context + 1 - (length row + 1))
        with (S (length context + 1)) by lia.
      apply removelast_seq. }
    assert (Hl : length (["[CLS]"] ++ row ++ ["[SEP]"] ++ context ++ ["[SEP]"])
                 = length row + length context + 3)
      by (rewrite !length_app; simpl; lia).
    rewrite Hpool, Hl.
    replace (length row + length context + 3 - (1 + length context) - 1)
      with (length row + 1) by lia.
    split; [|split].
    + change (["[CLS]"] ++ row ++ ["[SEP]"] ++ context ++ ["[SEP]"])
        with (("[CLS]" :: row) ++ "[SEP]" :: context ++ ["[SEP]"]).
      rewrite nth_error_app2 by (simpl; lia).
      replace (length row + 1 - length ("[CLS]" :: row)) with 0
        by (simpl; lia).
      reflexivity.
    + rewrite in_seq. lia.
    + exists row. repeat split. rewrite in_seq. lia.
Qed.

Lemma context_candidate_pool_witness :
  get_input 512 table_first_config scenario_context scenario_table
  = Ok table_first_instance
  /\ nth_error (tokens table_first_instance)
       (table_side_boundary table_first_config table_first_instance)
     = Some "[SEP]".
Proof.
  split; [reflexivity|].
  exact (proj1 (context_candidate_pool 512 table_first_config
                  scenario_context scenario_table table_first_instance
                  eq_refl)).
Defined.

(** C4. When the table comes first the pool contains the [SEP] between
    the table and the context: in the scenario the sequence is
    [CLS] country text brazil [SEP] how many medals [SEP], that [SEP] is
    index 4 and the pool is 4, 5, 6, 7. When the context comes first the
    pool of the same scenario is 1, 2, 3 and leaves the [SEP] next to the
    table, again index 4, out. *)
Theorem C4_table_side_boundary_in_pool :
  (get_input 512 table_first_config scenario_context scenario_table
   = Ok table_first_instance
   /\ table_side_boundary table_first_config table_first_instance = 4
   /\ nth_error (tokens table_first_instance) 4 = Some "[SEP]"
   /\ context_candidates table_first_config table_first_instance
      = [4; 5; 6; 7]
   /\ In (table_side_boundary table_first_config table_first_instance)
        (context_candidates table_first_config table_first_instance))
  /\ (get_input 512 scenario_config scenario_context scenario_table
      = Ok scenario_instance
      /\ table_side_boundary scenario_config scenario_instance = 4
      /\ nth_error (tokens scenario_instance) 4 = Some "[SEP]"
      /\ context_candidates scenario_config scenario_instance = [1; 2; 3]
      /\ ~ In (table_side_boundary scenario_config scenario_instance)
            (context_candidates scenario_config scenario_instance)).
Proof.
  split.
  - repeat split; try reflexivity. simpl. auto.
  - repeat split; try reflexivity.
    simpl. intros [H|[H|[H|[]]]]; discriminate.
Qed.

(** ** The scenario of the specification *)

(** C5, with the offset the code computes. In the scenario, for every
    configuration with the template [column, type, value], the context
    first and room for the column ([max_cell_len >= 1] and a length budget
    of at least 10), [get_input] returns the tokens
    [CLS] how many medals [SEP] country text brazil [SEP], and the
    [column_name] span of [country] is (5, 6): [country] is the token at
    index 5. *)
Theorem C5_scenario_sequence (MAX : Z) (config : TableBertConfig)
    (table_id : string) :
  cell_input_template config = scenario_template ->
  context_first config = true ->
  (1 <= max_cell_len config)%Z ->
  (10 <= MAX)%Z ->
  exists inst,
    get_input MAX config scenario_context (mkTable table_id [scenario_column])
    = Ok inst
    /\ tokens inst = scenario_tokens
    /\ column_name_span inst "country" = Some (5, 6)
    /\ nth_error (tokens inst) 5 = Some "country".
Proof.
  destruct config as [tpl cf mcl delim strat pcol pctx mp]. simpl.
  intros -> -> Hcell Hmax.
  assert (Hslice : Py.slice_to ["brazil"] mcl = ["brazil"]).
  { unfold Py.slice_to. destruct (Z.leb_spec 0 mcl) as [_|]; [|lia].
    destruct (Z.to_nat mcl) as [|n] eqn:En; [lia|]. simpl.
    now rewrite firstn_nil. }
  unfold get_input, table_loop, get_cell_input. simpl. rewrite Hslice.
  simpl.
  destruct (Z.gtb_spec 4 (MAX - 3 - 2 - 1)) as [|_]; [lia|].
  simpl. rewrite String.eqb_refl. simpl.
  eexists. split; [reflexivity|]. repeat split.
Qed.

Lemma C5_scenario_sequence_witness :
  cell_input_template scenario_config = scenario_template
  /\ context_first scenario_config = true
  /\ (1 <= max_cell_len scenario_config)%Z
  /\ (10 <= 512)%Z
  /\ exists inst,
       get_input 512 scenario_config scenario_context
         (mkTable "fake_table" [scenario_column]) = Ok inst
       /\ tokens inst = scenario_tokens
       /\ column_name_span inst "country" = Some (5, 6)
       /\ nth_error (tokens inst) 5 = Some "country".
Proof.
  repeat (split; [first [reflexivity | simpl; lia]|]).
  apply (C5_scenario_sequence 512 scenario_config "fake_table");
    first [reflexivity | simpl; lia].
Defined.

(** C5 as stated fails: the [column_name] span in the scenario is (5, 6),
    not (6, 7). *)
Lemma C5_column_name_span_is_not_6_7 :
  get_input 512 scenario_config scenario_context scenario_table
  = Ok scenario_instance
  /\ tokens scenario_instance = scenario_tokens
  /\ column_name_span scenario_instance "country" = Some (5, 6)
  /\ column_name_span scenario_instance "country" <> Some (6, 7).
Proof. repeat split; try reflexivity. discriminate. Qed.

(** ** Zero columns within the budget *)

Lemma table_loop_first_column_too_long (config : TableBertConfig)
    (budget : Z) (column : Column) (rest : list Column) (start : nat) :
  (Z.of_nat
     (length
        (fst (get_cell_input config column
                (Py.slice_to (sample_value_tokens column)
                   (max_cell_len config)) start)) + 1) > budget)%Z ->
  table_loop config budget (column :: rest) [] [] start = ([], []).
Proof.
  intros H. simpl.
  destruct (get_cell_input _ _ _ _) as [cell span]. simpl in *.
  rewrite length_app. simpl.
  destruct (Z.gtb_spec (Z.of_nat (length cell + 1)) budget); [reflexivity|lia].
Qed.

(** Whenever the first column does not fit, [get_input] raises
    [IndexError] at [row_input_tokens[-1]]. *)
Lemma get_input_zero_columns_raises (MAX : Z) (config : TableBertConfig)
    (context : list string) (table_id : string) (column : Column)
    (rest : list Column) :
  (Z.of_nat
     (length
        (fst (get_cell_input config column
                (Py.slice_to (sample_value_tokens column)
                   (max_cell_len config))
                (if context_first config then length context + 2 else 1)))
      + 1) > MAX - Z.of_nat (length context) - 2 - 1)%Z ->
  get_input MAX config context (mkTable table_id (column :: rest))
  = Raise IndexError.
Proof.
  intros H. unfold get_input.
  cbn [header]. rewrite table_loop_first_column_too_long by exact H.
  reflexivity.
Qed.

Lemma get_input_empty_header_raises (MAX : Z) (config : TableBertConfig)
    (context : list string) (table_id : string) :
  get_input MAX config context (mkTable table_id []) = Raise IndexError.
Proof. reflexivity. Qed.

(** C2. With a context of 508 tokens the table budget is one token, the
    scenario's column (three tokens and its delimiter) does not fit, and
    [get_input] raises [IndexError] instead of returning the context-only
    sequence. *)
Theorem C2_zero_columns_raises_IndexError :
  (Z.of_nat
     (length
        (fst (get_cell_input scenario_config scenario_column
                (Py.slice_to (sample_value_tokens scenario_column)
                   (max_cell_len scenario_config))
                (length (repeat "w" 508) + 2))) + 1)
   > 512 - Z.of_nat (length (repeat "w" 508)) - 2 - 1)%Z
  /\ get_input 512 scenario_config (repeat "w" 508) scenario_table
     = Raise IndexError.
Proof.
  assert (H : (Z.of_nat
     (length
        (fst (get_cell_input scenario_config scenario_column
                (Py.slice_to (sample_value_tokens scenario_column)
                   (max_cell_len scenario_config))
                (length (repeat "w" 508) + 2))) + 1)
   > 512 - Z.of_nat (length (repeat "w" 508)) - 2 - 1)%Z).
  { rewrite repeat_length. vm_compute. reflexivity. }
  split; [exact H|].
  apply (get_input_zero_columns_raises 512 scenario_config (repeat "w" 508)
           "fake_table" scenario_column []).
  exact H.
Qed.

(** ** The random source *)

Lemma bind_Ok {A B} (m : Rand.M A) (f : A -> Rand.M B) (s s'' : Rand.source)
    (b : B) :
  Rand.bind m f s = Ok (b, s'') <->
  exists a s', m s = Ok (a, s') /\ f a s' = Ok (b, s'').
Proof.
  unfold Rand.bind. destruct (m s) as [[a s']|e]; split.
  - intros H. exists a, s'. auto.
  - intros (a' & t & E & H). injection E as -> ->. exact H.
  - discriminate.
  - intros (a' & t & E & _). discriminate.
Qed.

Lemma bind_Raise {A B} (m : Rand.M A) (f : A -> Rand.M B) (s : Rand.source)
    (e : exception) :
  Rand.bind m f s = Raise e <->
  m s = Raise e \/ exists a s', m s = Ok (a, s') /\ f a s' = Raise e.
Proof.
  unfold Rand.bind. destruct (m s) as [[a s']|e']; split.
  - intros H. right. exists a, s'. auto.
  - intros [E|(a' & t & E & H)]; [discriminate|].
    injection E as -> ->. exact H.
  - intros H. left. injection H as ->. reflexivity.
  - intros [E|(a' & t & E & _)]; [|discriminate].
    injection E as ->. reflexivity.
Qed.

Lemma lift_Ok {A} (r : result A) (s s' : Rand.source) (a : A) :
  Rand.lift r s = Ok (a, s') <-> r = Ok a /\ s' = s.
Proof.
  unfold Rand.lift. destruct r; split.
  - intros H. injection H as -> ->. auto.
  - intros [E ->]. injection E as ->. reflexivity.
  - discriminate.
  - intros [E _]. discriminate.
Qed.

Lemma ret_Ok {A} (a b : A) (s s' : Rand.source) :
  Rand.ret a s = Ok (b, s') <-> b = a /\ s' = s.
Proof.
  unfold Rand.ret. split.
  - intros H. injection H as -> ->. auto.
  - intros [-> ->]. reflexivity.
Qed.

(** Inversion of a successful run, one bind at a time. *)
Ltac run_inv H :=
  repeat match type of H with
  | Rand.bind _ _ _ = Ok _ =>
      let a := fresh "a" in
      let s := fresh "s" in
      let E := fresh "E" in
      apply bind_Ok in H; destruct H as (a & s & E & H)
  end.

Lemma next_total (s : Rand.source) : exists r s', Rand.next s = Ok (r, s').
Proof. destruct s as [|r s']; simpl; eauto. Qed.

Lemma randbelow_total (n : nat) (s : Rand.source) :
  exists j s', Rand.randbelow n s = Ok (j, s') /\ (0 < n -> j < n).
Proof.
  unfold Rand.randbelow, Rand.bind, Rand.ret.
  destruct (next_total s) as (r & s' & ->).
  eexists _, s'. split; [reflexivity|].
  intros Hn.
  assert (H : (r mod N.of_nat n < N.of_nat n)%N) by (apply N.mod_lt; lia).
  lia.
Qed.

Lemma random_total (s : Rand.source) :
  exists r s', Rand.random s = Ok (r, s') /\ (0 <= r)%Q.
Proof.
  unfold Rand.random, Rand.bind, Rand.ret.
  destruct (next_total s) as (r & s' & ->).
  eexists _, s'. split; [reflexivity|].
  unfold Qle. cbn [Qnum Qden]. rewrite Z.mul_0_l, Z.mul_1_r.
  apply N2Z.is_nonneg.
Qed.

Lemma pick_Some {A} (j : nat) (pool : list A) :
  j < length pool -> exists x pool', Rand.pick j pool = Some (x, pool').
Proof.
  revert j. induction pool as [|y t IH]; intros j Hj; simpl in *; [lia|].
  destruct j as [|j]; simpl; [eauto|].
  destruct (IH j ltac:(lia)) as (x & t' & ->). eauto.
Qed.

Lemma pick_perm {A} (j : nat) (pool pool' : list A) (x : A) :
  Rand.pick j pool = Some (x, pool') -> Permutation pool (x :: pool').
Proof.
  revert j pool'. induction pool as [|y t IH]; intros j pool' H; simpl in H;
    [discriminate|].
  destruct j as [|j]; simpl in H.
  - injection H as -> ->. reflexivity.
  - destruct (Rand.pick j t) as [[z t']|] eqn:E; [|discriminate].
    injection H as -> <-. rewrite (IH _ _ E). apply perm_swap.
Qed.

Lemma draw_spec {A} (k : nat) (pool l : list A) (s s' : Rand.source) :
  Rand.draw k pool s = Ok (l, s') ->
  length l = k /\ exists rest, Permutation pool (l ++ rest).
Proof.
  revert pool l s s'. induction k as [|k IH]; intros pool l s s' H; simpl in H.
  - apply ret_Ok in H. destruct H as [-> _]. split; [reflexivity|].
    exists pool. reflexivity.
  - run_inv H.
    destruct (Rand.pick a pool) as [[x pool']|] eqn:Ep; [|discriminate].
    run_inv H. apply ret_Ok in H. destruct H as [-> _].
    apply IH in E0. destruct E0 as [Hl (rest & Hp)].
    split; [simpl; congruence|].
    exists rest. rewrite (pick_perm _ _ _ _ Ep). simpl. constructor. exact Hp.
Qed.

Lemma draw_total {A} (k : nat) (pool : list A) (s : Rand.source) :
  k <= length pool -> exists l s', Rand.draw k pool s = Ok (l, s').
Proof.
  revert pool s. induction k as [|k IH]; intros pool s Hk; simpl.
  - eexists _, _. reflexivity.
  - destruct (randbelow_total (length pool) s) as (j & s1 & Ej & Hj).
    destruct (pick_Some j pool ltac:(apply Hj; lia)) as (x & pool' & Ep).
    assert (Hlen : length pool = S (length pool')).
    { apply pick_perm in Ep. apply Permutation_length in Ep. exact Ep. }
    destruct (IH pool' s1 ltac:(lia)) as (l & s2 & El).
    exists (x :: l), s2. unfold Rand.bind at 1. rewrite Ej, Ep.
    unfold Rand.bind. rewrite El. reflexivity.
Qed.

Lemma draw_raises {A} (k : nat) (pool : list A) (s : Rand.source)
    (e : exception) :
  Rand.draw k pool s = Raise e -> e = ValueError.
Proof.
  revert pool s. induction k as [|k IH]; intros pool s H; simpl in H;
    [discriminate|].
  apply bind_Raise in H. destruct H as [H|(j & s1 & Ej & H)].
  - destruct (randbelow_total (length pool) s) as (j & s1 & Ej & _).
    congruence.
  - destruct (Rand.pick j pool) as [[x pool']|]; [|injection H as <-; auto].
    apply bind_Raise in H. destruct H as [H|(l & s2 & _ & H)];
      [eapply IH; eauto | discriminate].
Qed.

Lemma sample_spec {A} (population l : list A) (k : Z) (s s' : Rand.source) :
  Rand.sample population k s = Ok (l, s') ->
  Z.of_nat (length l) = k
  /\ (0 <= k <= Z.of_nat (length population))%Z
  /\ exists rest, Permutation population (l ++ rest).
Proof.
  unfold Rand.sample.
  destruct (Z.ltb_spec k 0) as [|H0]; [discriminate|].
  destruct (Z.ltb_spec (Z.of_nat (length population)) k) as [|H1];
    [discriminate|].
  simpl. intros H. apply draw_spec in H. destruct H as [Hl Hp].
  repeat split; try lia. exact Hp.
Qed.

Lemma sample_total {A} (population : list A) (k : Z) (s : Rand.source) :
  (0 <= k <= Z.of_nat (length population))%Z ->
  exists l s', Rand.sample population k s = Ok (l, s').
Proof.
  intros Hk. unfold Rand.sample.
  destruct (Z.ltb_spec k 0); [lia|].
  destruct (Z.ltb_spec (Z.of_nat (length population)) k); [lia|].
  simpl. apply draw_total. lia.
Qed.

Lemma sample_raises {A} (population : list A) (k : Z) (s : Rand.source)
    (e : exception) :
  Rand.sample population k s = Raise e -> e = ValueError.
Proof.
  unfold Rand.sample.
  destruct ((k <? 0)%Z || (Z.of_nat (length population) <? k)%Z).
  - intros H. injection H as <-. reflexivity.
  - apply draw_raises.
Qed.

Lemma sample_out_of_range {A} (population : list A) (k : Z)
    (s : Rand.source) :
  (k < 0 \/ Z.of_nat (length population) < k)%Z ->
  Rand.sample population k s = Raise ValueError.
Proof.
  intros Hk. unfold Rand.sample.
  destruct (Z.ltb_spec k 0); [reflexivity|].
  destruct (Z.ltb_spec (Z.of_nat (length population)) k); [reflexivity|lia].
Qed.

Lemma shuffle_spec {A} (x y : list A) (s s' : Rand.source) :
  Rand.shuffle x s = Ok (y, s') -> Permutation x y.
Proof.
  unfold Rand.shuffle. intros H. apply draw_spec in H.
  destruct H as (Hl & rest & Hp).
  assert (rest = []).
  { apply Permutation_length in Hp. rewrite length_app in Hp.
    destruct rest; [reflexivity | simpl in Hp; lia]. }
  subst rest. rewrite app_nil_r in Hp. exact Hp.
Qed.

Lemma shuffle_total {A} (x : list A) (s : Rand.source) :
  exists y s', Rand.shuffle x s = Ok (y, s').
Proof. apply draw_total. lia. Qed.

(** ** Counting helpers *)

Lemma sum_lengths_concat (l : list (list nat)) :
  Py.sum (map (@length nat) l) = length (concat l).
Proof.
  induction l as [|x t IH]; [reflexivity|].
  cbn [map concat]. rewrite length_app, <- IH. reflexivity.
Qed.

(** [int] and [floor] agree under a positive lower bound. *)
Lemma int_floor_max (m : Z) (q : Q) :
  (0 < m)%Z -> Z.max m (Py.int q) = Z.max m (Qfloor q).
Proof.
  intros Hm. destruct q as [n d]. unfold Py.int, Qfloor. cbn [Qnum Qden].
  destruct (Z.le_gt_cases 0 n) as [Hn|Hn].
  - rewrite Z.quot_div_nonneg by lia. reflexivity.
  - assert (Hq : (n ÷ Z.pos d <= 0)%Z).
    { replace n with (- (- n))%Z by lia.
      rewrite Z.quot_opp_l by lia.
      assert (0 <= (- n) ÷ Z.pos d)%Z by (apply Z.quot_pos; lia). lia. }
    assert (Hd : (n / Z.pos d < 0)%Z) by (apply Z.div_lt_upper_bound; lia).
    lia.
Qed.

(** What [int] and [ceil] make of a product. *)
Lemma to_integer_Ok (round : Q -> Z) (x : Float.t) (k : Z) :
  Float.to_integer round x = Ok k
  <-> exists q, Float.value x = Some q /\ k = round q.
Proof.
  destruct x as [sg|sg| |sg m e]; cbn [Float.to_integer Float.value]; split.
  - intros H. injection H as <-. eauto.
  - intros (q & Hq & ->). injection Hq as <-. reflexivity.
  - discriminate.
  - intros (q & Hq & _). discriminate.
  - discriminate.
  - intros (q & Hq & _). discriminate.
  - intros H. injection H as <-. eauto.
  - intros (q & Hq & ->). injection Hq as <-. reflexivity.
Qed.

Lemma to_integer_raises (round : Q -> Z) (x : Float.t) (e : exception) :
  Float.to_integer round x = Raise e -> e = ValueError \/ e = OverflowError.
Proof.
  destruct x; cbn [Float.to_integer]; intros H;
    try discriminate; injection H as <-; auto.
Qed.

Lemma int_mul_raises (n : Z) (y : Float.t) (e : exception) :
  Float.int_mul n y = Raise e -> e = OverflowError.
Proof.
  unfold Float.int_mul, Float.of_int.
  destruct (binary_normalize Float.prec Float.emax n 0 false);
    intros H; try discriminate.
  injection H as <-. reflexivity.
Qed.

Lemma product_rounded (round : Q -> Z) (n : nat) (prob x : Float.t)
    (k : Z) :
  Float.int_mul (Z.of_nat n) prob = Ok x ->
  Float.to_integer round x = Ok k ->
  exists q, float_product n prob = Some q /\ k = round q.
Proof.
  intros Hx Hk. unfold float_product. rewrite Hx.
  apply to_integer_Ok. exact Hk.
Qed.

Lemma float_product_Some (n : nat) (prob : Float.t) (q : Q) :
  float_product n prob = Some q ->
  exists x,
    Float.int_mul (Z.of_nat n) prob = Ok x
    /\ forall round, Float.to_integer round x = Ok (round q).
Proof.
  unfold float_product.
  destruct (Float.int_mul (Z.of_nat n) prob) as [x|e]; [|discriminate].
  intros Hq. exists x. split; [reflexivity|].
  intros round. apply to_integer_Ok. eauto.
Qed.

(** The counts follow the rounded products, not the exact ones:
    [25 * 0.28] is the float just above 7, [50 * 0.58] the float just
    below 29, [20 * 0.15] is [3.0] although the float [0.15] is below
    3/20, and [3 * 1.3333333333333333] is [4.0]. *)
Lemma float_product_rounding :
  option_map Qceiling (float_product 25 (Float.literal 28 100)) = Some 8%Z
  /\ option_map Qfloor (float_product 50 (Float.literal 58 100))
     = Some 28%Z
  /\ option_map Qfloor (float_product 20 (Float.literal 15 100))
     = Some 3%Z
  /\ option_map Qfloor
       (float_product 3 (S754_finite false 6004799503160661 (-52)))
     = Some 4%Z.
Proof. repeat split; vm_compute; reflexivity. Qed.

(** The two stages of a count: the product, then its conversion. *)
Lemma lift_product_Ok (round : Q -> Z) (n : nat) (prob x : Float.t)
    (k : Z) (s s0 s1 : Rand.source) :
  Rand.lift (Float.int_mul (Z.of_nat n) prob) s = Ok (x, s0) ->
  Rand.lift (Float.to_integer round x) s0 = Ok (k, s1) ->
  s0 = s /\ s1 = s
  /\ exists q, float_product n prob = Some q /\ k = round q.
Proof.
  intros Hx Hk. apply lift_Ok in Hx. destruct Hx as [Hx ->].
  apply lift_Ok in Hk. destruct Hk as [Hk ->].
  split; [reflexivity|]. split; [reflexivity|].
  exact (product_rounded _ _ _ _ _ Hx Hk).
Qed.

Lemma mapM_getitem {A} (l : list A) (idxs : list nat) (sel : list A)
    (s s' : Rand.source) :
  Rand.mapM (fun i => Rand.lift (Py.getitem l i)) idxs s = Ok (sel, s') ->
  s' = s /\ Forall2 (fun i x => nth_error l i = Some x) idxs sel.
Proof.
  revert sel s s'. induction idxs as [|i t IH]; intros sel s s' H; simpl in H.
  - apply ret_Ok in H. destruct H as [-> ->]. auto.
  - run_inv H. apply ret_Ok in H. destruct H as [-> ->].
    apply lift_Ok in E. destruct E as [E ->].
    apply IH in E0. destruct E0 as [-> HF]. split; [reflexivity|].
    constructor; [|exact HF].
    unfold Py.getitem in E. destruct (nth_error l i); [|discriminate].
    congruence.
Qed.

Lemma mapM_getitem_total {A} (l : list A) (idxs : list nat)
    (s : Rand.source) :
  Forall (fun i => i < length l) idxs ->
  exists sel,
    Rand.mapM (fun i => Rand.lift (Py.getitem l i)) idxs s = Ok (sel, s).
Proof.
  induction 1 as [|i t Hi _ IH]; simpl.
  - eexists. reflexivity.
  - destruct IH as (sel & IH).
    destruct (nth_error l i) as [x|] eqn:E;
      [|apply nth_error_None in E; lia].
    exists (x :: sel). apply bind_Ok. exists x, s. split.
    + unfold Rand.lift, Py.getitem. rewrite E. reflexivity.
    + apply bind_Ok. exists sel, s. split; [exact IH | reflexivity].
Qed.

(** ** The three stages of [create_masked_lm_predictions] *)

Section MaskFacts.

Variable config : TableBertConfig.
Variable vocab_list : list string.

Lemma mask_columns_column_token (column_indices : list (list nat))
    (s s' : Rand.source) (masked : list nat) (n : Z) (cols : option Z) :
  table_mask_strategy config = "column_token" ->
  mask_columns config column_indices s = Ok ((masked, n, cols), s') ->
  column_token_quota config (length (concat column_indices)) = Some n
  /\ Z.of_nat (length masked) = n
  /\ cols = None
  /\ exists rest, Permutation (concat column_indices) (masked ++ rest).
Proof.
  intros Hs H. unfold mask_columns in H. rewrite Hs in H. simpl in H.
  run_inv H. apply ret_Ok in H. destruct H as [H _].
  injection H as -> -> ->.
  destruct (lift_product_Ok _ _ _ _ _ _ _ _ E E0)
    as (-> & -> & q & Hq & ->).
  apply shuffle_spec in E1. apply sample_spec in E2.
  destruct E2 as (Hl & _ & rest & Hp).
  unfold column_token_quota. rewrite Hq. cbn [option_map].
  rewrite <- int_floor_max by lia.
  repeat split.
  - rewrite sorted_length. exact Hl.
  - exists rest. rewrite <- sorted_perm, E1. exact Hp.
Qed.

Lemma mask_columns_column (column_indices : list (list nat))
    (s s' : Rand.source) (masked : list nat) (n : Z) (cols : option Z) :
  table_mask_strategy config = "column" ->
  mask_columns config column_indices s = Ok ((masked, n, cols), s') ->
  cols = column_quota config (length column_indices)
  /\ n = Z.of_nat (length masked)
  /\ exists columns_to_mask selected,
       Some (Z.of_nat (length columns_to_mask))
       = column_quota config (length column_indices)
       /\ NoDup columns_to_mask
       /\ Forall2 (fun c idxs => nth_error column_indices c = Some idxs)
            columns_to_mask selected
       /\ masked = concat selected.
Proof.
  intros Hs H. unfold mask_columns in H. rewrite Hs in H. simpl in H.
  run_inv H. apply ret_Ok in H. destruct H as [H _].
  injection H as -> -> ->.
  destruct (lift_product_Ok _ _ _ _ _ _ _ _ E E0)
    as (-> & -> & q & Hq & ->).
  apply sample_spec in E1. destruct E1 as (Hl & _ & rest & Hp).
  apply shuffle_spec in E2. apply mapM_getitem in E3. destruct E3 as [_ HF].
  assert (Hperm : Permutation a1 a2) by (rewrite <- E2; apply sorted_perm).
  unfold column_quota. rewrite Hq. cbn [option_map]. unfold Py.ceil.
  split; [reflexivity|]. split; [now rewrite sum_lengths_concat|].
  exists a2, a3. repeat split.
  - rewrite <- (Permutation_length Hperm). f_equal. exact Hl.
  - apply (Permutation_NoDup Hperm).
    assert (Hnd : NoDup (a1 ++ rest)).
    { apply (Permutation_NoDup Hp). apply seq_NoDup. }
    apply NoDup_app_remove_r in Hnd. exact Hnd.
  - exact HF.
Qed.

Lemma mask_columns_unknown (column_indices : list (list nat))
    (s : Rand.source) :
  table_mask_strategy config <> "column_token" ->
  table_mask_strategy config <> "column" ->
  mask_columns config column_indices s = Raise (RuntimeError "unknown mode!").
Proof.
  intros H1 H2. unfold mask_columns.
  destruct (String.eqb_spec (table_mask_strategy config) "column_token");
    [contradiction|].
  destruct (String.eqb_spec (table_mask_strategy config) "column");
    [contradiction|].
  reflexivity.
Qed.

Lemma mask_context_spec (context_indices masked_column : list nat)
    (num_column : Z) (s s' : Rand.source) (masked : list nat) (n : Z) :
  mask_context config context_indices num_column masked_column s
  = Ok ((masked, n), s') ->
  context_quota config num_column (length context_indices) = Some n
  /\ ((0 < n)%Z ->
      exists from_context rest,
        Z.of_nat (length from_context) = n
        /\ Permutation context_indices (from_context ++ rest)
        /\ Permutation masked (from_context ++ masked_column))
  /\ ((n <= 0)%Z -> masked = masked_column).
Proof.
  unfold mask_context. intros H.
  apply bind_Ok in H. destruct H as (x & s0 & E & H).
  apply bind_Ok in H. destruct H as (k & s1 & E0 & H).
  destruct (lift_product_Ok _ _ _ _ _ _ _ _ E E0)
    as (-> & -> & product & Hproduct & ->).
  unfold context_quota, context_request, context_budget.
  rewrite Hproduct. cbn [option_map].
  rewrite <- (int_floor_max 1) by lia.
  cbv zeta in H. revert H.
  set (q := Z.min _ _).
  destruct (Z.gtb_spec q 0) as [Hq|Hq]; intros H.
  - run_inv H. apply ret_Ok in H. destruct H as [H _].
    injection H as -> ->.
    apply shuffle_spec in E1. apply sample_spec in E2.
    destruct E2 as (Hl & _ & rest & Hp).
    split; [reflexivity|]. split; [|lia].
    intros _. exists (Py.sorted a0), rest. repeat split.
    + rewrite sorted_length. exact Hl.
    + rewrite <- sorted_perm, E1. exact Hp.
    + symmetry. apply sorted_perm.
  - apply ret_Ok in H. destruct H as [H _]. injection H as -> ->.
    split; [reflexivity|]. split; [lia | reflexivity].
Qed.

Lemma setitem_length {A} (l l' : list A) (i : nat) (x : A) :
  Py.setitem l i x = Ok l' -> length l' = length l /\ i < length l.
Proof.
  revert i l'. induction l as [|h t IH]; intros i l' H; simpl in H;
    [discriminate|].
  destruct i as [|i].
  - injection H as <-. simpl. lia.
  - destruct (Py.setitem t i x) as [t'|] eqn:E; [|discriminate].
    injection H as <-. apply IH in E. simpl. lia.
Qed.

Lemma setitem_total {A} (l : list A) (i : nat) (x : A) :
  i < length l -> exists l', Py.setitem l i x = Ok l'.
Proof.
  revert i. induction l as [|h t IH]; intros i Hi; simpl in *; [lia|].
  destruct i as [|i]; [eauto|].
  destruct (IH i ltac:(lia)) as (t' & ->). eauto.
Qed.

Lemma mask_loop_spec (masked_indices : list nat) (tokens labels : list string)
    (s s' : Rand.source) (tokens' labels' : list string) :
  mask_loop vocab_list masked_indices tokens labels s
  = Ok ((tokens', labels'), s') ->
  length tokens' = length tokens
  /\ length labels' = length labels + length masked_indices
  /\ Forall (fun i => i < length tokens) masked_indices.
Proof.
  revert tokens labels s. induction masked_indices as [|i t IH];
    intros tokens labels s H; simpl in H.
  - apply ret_Ok in H. destruct H as [H _]. injection H as -> ->.
    simpl. auto.
  - apply bind_Ok in H. destruct H as (r & s1 & _ & H).
    apply bind_Ok in H. destruct H as (tok & s2 & _ & H).
    apply bind_Ok in H. destruct H as (label & s3 & _ & H).
    apply bind_Ok in H. destruct H as (toks & s4 & E & H).
    apply lift_Ok in E. destruct E as [E _].
    apply setitem_length in E. destruct E as [El Ei].
    apply IH in H. destruct H as (H1 & H2 & H3).
    rewrite length_app in H2. simpl in *. repeat split; try lia.
    constructor; [exact Ei|]. rewrite <- El. exact H3.
Qed.

Lemma create_masked_lm_predictions_inv (tokens : list string)
    (context_indices : list nat) (column_indices : list (list nat))
    (s s' : Rand.source) (out : list string) (positions : list nat)
    (labels : list string) (inf : Info) :
  create_masked_lm_predictions config vocab_list tokens context_indices
    column_indices s = Ok ((out, positions, labels, inf), s') ->
  exists masked_column n cols s1 n' s2,
    mask_columns config column_indices s = Ok ((masked_column, n, cols), s1)
    /\ mask_context config context_indices n masked_column s1
       = Ok ((positions, n'), s2)
    /\ mask_loop vocab_list positions tokens [] s2 = Ok ((out, labels), s')
    /\ inf = mkInfo (Py.sum (map (@length nat) column_indices)) cols n n'
               None.
Proof.
  unfold create_masked_lm_predictions. intros H.
  apply bind_Ok in H. destruct H as ([[mc n] cols] & s1 & E1 & H).
  apply bind_Ok in H. destruct H as ([mi n'] & s2 & E2 & H).
  apply bind_Ok in H. destruct H as ([toks labs] & s3 & E3 & H).
  apply ret_Ok in H. destruct H as [H ->]. injection H as -> -> -> ->.
  exists mc, n, cols, s1, n', s2. auto.
Qed.

End MaskFacts.

(** ** How many positions are masked *)

(** C7. Whenever [create_masked_lm_predictions] returns, the masked
    positions are the indices selected from the columns together with those
    selected from the context. Under ['column_token'] the number selected
    from the flattened pool is
    [min(max_predictions_per_seq, max(2, floor(poolSize * masked_column_prob)))].
    Under either strategy the number selected from the context is
    [min(max_predictions_per_seq - numColumnTokensMasked,
         max(1, floor(len(context_indices) * masked_context_prob)))]
    when that value is positive; when it is not, nothing is selected from
    the context and the positions are the column-selected indices; and the
    value is [<= 0] exactly when the context budget is [<= 0]. The
    products are the float products of the program, which are finite
    whenever it returns. *)
Theorem C7_mask_counts (config : TableBertConfig) (vocab_list : list string)
    (tokens : list string) (context_indices : list nat)
    (column_indices : list (list nat)) (s s' : Rand.source)
    (out : list string) (positions : list nat) (labels : list string)
    (inf : Info) :
  create_masked_lm_predictions config vocab_list tokens context_indices
    column_indices s = Ok ((out, positions, labels, inf), s') ->
  exists from_columns from_context,
    Permutation positions (from_context ++ from_columns)
    /\ Z.of_nat (length from_columns) = num_column_tokens_to_mask inf
    /\ (table_mask_strategy config = "column_token" ->
        Some (Z.of_nat (length from_columns))
        = column_token_quota config (length (concat column_indices))
        /\ exists rest,
             Permutation (concat column_indices) (from_columns ++ rest))
    /\ exists quota,
       context_quota config (num_column_tokens_to_mask inf)
         (length context_indices) = Some quota
       /\ num_context_tokens_to_mask inf = quota
       /\ ((0 < quota)%Z ->
           Z.of_nat (length from_context) = quota
           /\ exists rest,
                Permutation context_indices (from_context ++ rest))
       /\ ((quota <= 0)%Z -> from_context = [] /\ positions = from_columns)
       /\ ((quota <= 0)%Z <->
           (context_budget config (num_column_tokens_to_mask inf) <= 0)%Z).
Proof.
  intros H. apply create_masked_lm_predictions_inv in H.
  destruct H as (mc & n & cols & s1 & n' & s2 & Hc & Hx & _ & ->).
  cbn [num_column_tokens_to_mask num_context_tokens_to_mask].
  apply mask_context_spec in Hx. destruct Hx as (Hn' & Hpos & Hskip).
  assert (Hlen : Z.of_nat (length mc) = n
                 /\ (table_mask_strategy config = "column_token" ->
                     Some n = column_token_quota config
                                (length (concat column_indices))
                     /\ exists rest,
                          Permutation (concat column_indices) (mc ++ rest))).
  { destruct (String.eqb_spec (table_mask_strategy config) "column_token")
      as [Hs|Hs].
    - destruct (mask_columns_column_token _ _ _ _ _ _ _ Hs Hc)
        as (Hq & Hl & _ & Hp). auto.
    - split; [|contradiction].
      destruct (String.eqb_spec (table_mask_strategy config) "column")
        as [Hs'|Hs'].
      + destruct (mask_columns_column _ _ _ _ _ _ _ Hs' Hc) as (_ & Hl & _).
        auto.
      + rewrite mask_columns_unknown in Hc by assumption. discriminate. }
  destruct Hlen as [Hlen Htok].
  assert (Hiff : (n' <= 0)%Z <-> (context_budget config n <= 0)%Z).
  { unfold context_quota, context_request in Hn'.
    destruct (float_product (length context_indices)
                (masked_context_prob config)); [|discriminate].
    cbn [option_map] in Hn'. injection Hn' as <-. lia. }
  destruct (Z.lt_ge_cases 0 n') as [Hpos'|Hneg].
  - destruct (Hpos Hpos') as (fc & rest & Hl & Hp & Hm).
    exists mc, fc. split; [exact Hm|]. split; [exact Hlen|].
    split; [intros Hs; destruct (Htok Hs) as [<- Hr]; rewrite Hlen; auto|].
    exists n'. split; [exact Hn'|]. split; [reflexivity|].
    split; [intros _; split; [exact Hl | exists rest; exact Hp]|].
    split; [lia | exact Hiff].
  - exists mc, []. rewrite (Hskip Hneg). split; [reflexivity|].
    split; [exact Hlen|].
    split; [intros Hs; destruct (Htok Hs) as [<- Hr]; rewrite Hlen; auto|].
    exists n'. split; [exact Hn'|]. split; [reflexivity|].
    split; [lia|]. split; [auto | exact Hiff].
Qed.

(** ** Lengths and order of the masked positions *)

Lemma create_masked_lm_predictions_lengths (config : TableBertConfig)
    (vocab_list tokens : list string) (context_indices : list nat)
    (column_indices : list (list nat)) (s s' : Rand.source)
    (out : list string) (positions : list nat) (labels : list string)
    (inf : Info) :
  create_masked_lm_predictions config vocab_list tokens context_indices
    column_indices s = Ok ((out, positions, labels, inf), s') ->
  length out = length tokens /\ length positions = length labels.
Proof.
  intros H. apply create_masked_lm_predictions_inv in H.
  destruct H as (mc & n & cols & s1 & n' & s2 & _ & _ & Hl & _).
  apply mask_loop_spec in Hl. simpl in Hl. destruct Hl as (H1 & H2 & _).
  auto.
Qed.

Lemma insert_Sorted (x : nat) (l : list nat) :
  Sorted le l -> Sorted le (Py.insert x l).
Proof.
  induction 1 as [|y t Ht IH Hd]; simpl.
  - repeat constructor.
  - destruct (Nat.ltb_spec x y).
    + constructor; [constructor; assumption|]. constructor. lia.
    + constructor; [exact IH|].
      destruct t as [|z t]; simpl.
      * constructor. exact H.
      * destruct (Nat.ltb_spec x z); constructor; [exact H|].
        inversion Hd. assumption.
Qed.

Lemma sorted_Sorted (l : list nat) : Sorted le (Py.sorted l).
Proof.
  induction l as [|x t IH]; simpl; [constructor|].
  apply insert_Sorted. exact IH.
Qed.

(** The positions are in ascending order on every path but one: the
    ['column'] strategy with context masking skipped. *)
Lemma positions_ascending_on_sorted_paths (config : TableBertConfig)
    (vocab_list tokens : list string) (context_indices : list nat)
    (column_indices : list (list nat)) (s s' : Rand.source)
    (out : list string) (positions : list nat) (labels : list string)
    (inf : Info) :
  create_masked_lm_predictions config vocab_list tokens context_indices
    column_indices s = Ok ((out, positions, labels, inf), s') ->
  table_mask_strategy config = "column_token"
  \/ (0 < num_context_tokens_to_mask inf)%Z ->
  Sorted le positions.
Proof.
  intros H Hpath. apply create_masked_lm_predictions_inv in H.
  destruct H as (mc & n & cols & s1 & n' & s2 & Hc & Hx & _ & ->).
  cbn [num_context_tokens_to_mask] in Hpath.
  unfold mask_context in Hx.
  apply bind_Ok in Hx. destruct Hx as (x & s0 & _ & Hx).
  apply bind_Ok in Hx. destruct Hx as (k & s3 & _ & Hx).
  cbv zeta in Hx.
  destruct (Z.gtb_spec
              (Z.min (max_predictions_per_seq config - n) (Z.max 1 k)) 0)
    as [Hq|Hq].
  - run_inv Hx. apply ret_Ok in Hx. destruct Hx as [Hx _].
    injection Hx as Hp _. subst positions. apply sorted_Sorted.
  - apply ret_Ok in Hx. destruct Hx as [Hx _]. injection Hx as Hp Hn.
    subst positions n'.
    destruct Hpath as [Hs|Hpos]; [|lia].
    unfold mask_columns in Hc. rewrite Hs in Hc. simpl in Hc.
    run_inv Hc. apply ret_Ok in Hc. destruct Hc as [Hc _].
    injection Hc as Hp _ _. subst mc. apply sorted_Sorted.
Qed.

(** C1. Under the ['column'] strategy with the context masking skipped
    the positions are returned in the shuffled column order: here the
    columns [d] and [a] are selected and the positions are 15, 16, 3, 4. *)
Theorem C1_column_strategy_positions_unsorted :
  create_masked_lm_predictions column_strategy_config small_vocab
    four_column_tokens [1] four_column_candidates [3; 0; 1; 0]%N
  = Ok ((["[CLS]"; "q"; "[SEP]"; "[MASK]"; "[MASK]"; "va"; "[SEP]"; "b";
          "tb"; "vb"; "[SEP]"; "c"; "tc"; "vc"; "[SEP]"; "[MASK]"; "[MASK]";
          "vd"; "[SEP]"],
         [15; 16; 3; 4], ["d"; "td"; "a"; "ta"],
         mkInfo 8 (Some 2%Z) 4 0 None), [])
  /\ ~ strictly_ascending [15; 16; 3; 4].
Proof.
  split; [vm_compute; reflexivity|].
  unfold strictly_ascending. intros H.
  inversion H as [|x0 l0 Htail _]. inversion Htail as [|x1 l1 _ Hhd].
  inversion Hhd as [|y0 l2 Hlt]. unfold Nat.lt in Hlt. lia.
Qed.

(** The tokens and candidate pools above are the ones
    [create_pretraining_instance] builds for the four-column table. *)
Lemma four_column_pools (convert : list string -> result (list Z)) :
  match get_input 512 column_strategy_config ["q"]
          (mkTable "fake_table" four_columns) with
  | Ok inst =>
      tokens inst = four_column_tokens
      /\ context_candidates column_strategy_config inst = [1]
      /\ Rand.mapM (fun kv => column_candidates (1 # 100) (snd kv))
           (Dict.items (column_spans inst))
           [2 ^ 52; 2 ^ 52; 2 ^ 52; 2 ^ 52; 3; 0; 1; 0]%N
         = Ok (four_column_candidates, [3; 0; 1; 0]%N)
  | Raise _ => False
  end.
Proof. vm_compute. repeat split. Qed.

(** ** Masking whole columns *)

Lemma Forall2_In_left {A B} (R : A -> B -> Prop) (l : list A) (l' : list B)
    (a : A) :
  Forall2 R l l' -> In a l -> exists b, In b l' /\ R a b.
Proof.
  induction 1 as [|x y t t' Hxy _ IH]; intros Hin; simpl in *; [tauto|].
  destruct Hin as [->|Hin]; [eauto|].
  destruct (IH Hin) as (b & Hb & HR). eauto.
Qed.

Lemma Forall2_In_right {A B} (R : A -> B -> Prop) (l : list A) (l' : list B)
    (b : B) :
  Forall2 R l l' -> In b l' -> exists a, In a l /\ R a b.
Proof.
  induction 1 as [|x y t t' Hxy _ IH]; intros Hin; simpl in *; [tauto|].
  destruct Hin as [->|Hin]; [eauto|].
  destruct (IH Hin) as (a & Ha & HR). eauto.
Qed.

(** C6. Under the ['column'] strategy, whenever
    [create_masked_lm_predictions] returns, the number of columns masked is
    [max(1, ceil(numColumns * masked_column_prob))] and the diagnostics
    record it; the selected columns are distinct; every candidate index of
    every selected column is among the masked positions; and a masked
    position is a context candidate or a candidate index of a selected
    column. The product is the float product of the program, which is
    finite whenever it returns. *)
Theorem C6_column_strategy (config : TableBertConfig)
    (vocab_list tokens : list string) (context_indices : list nat)
    (column_indices : list (list nat)) (s s' : Rand.source)
    (out : list string) (positions : list nat) (labels : list string)
    (inf : Info) :
  table_mask_strategy config = "column" ->
  create_masked_lm_predictions config vocab_list tokens context_indices
    column_indices s = Ok ((out, positions, labels, inf), s') ->
  num_masked_columns inf = column_quota config (length column_indices)
  /\ exists columns_to_mask,
       Some (Z.of_nat (length columns_to_mask))
       = column_quota config (length column_indices)
       /\ NoDup columns_to_mask
       /\ (forall c, In c columns_to_mask ->
           exists idxs,
             nth_error column_indices c = Some idxs
             /\ forall i, In i idxs -> In i positions)
       /\ (forall i, In i positions ->
           In i context_indices
           \/ exists c idxs,
                In c columns_to_mask
                /\ nth_error column_indices c = Some idxs /\ In i idxs).
Proof.
  intros Hs H. apply create_masked_lm_predictions_inv in H.
  destruct H as (mc & n & cols & s1 & n' & s2 & Hc & Hx & _ & ->).
  cbn [num_masked_columns].
  destruct (mask_columns_column _ _ _ _ _ _ _ Hs Hc)
    as (-> & _ & ctm & sel & Hlen & Hnd & HF & ->).
  split; [reflexivity|]. exists ctm. repeat split; try assumption.
  - intros c Hin.
    destruct (Forall2_In_left _ _ _ _ HF Hin) as (idxs & Hsel & Hnth).
    exists idxs. split; [exact Hnth|]. intros i Hi.
    assert (Hmc : In i (concat sel)) by (apply in_concat; eauto).
    apply mask_context_spec in Hx. destruct Hx as (_ & Hpos & Hskip).
    destruct (Z.lt_ge_cases 0 n') as [Hp|Hn].
    + destruct (Hpos Hp) as (fc & rest & _ & _ & Hperm).
      eapply Permutation_in; [symmetry; exact Hperm|].
      apply in_or_app. auto.
    + rewrite (Hskip Hn). exact Hmc.
  - intros i Hi.
    apply mask_context_spec in Hx. destruct Hx as (_ & Hpos & Hskip).
    assert (Hor : In i context_indices \/ In i (concat sel)).
    { destruct (Z.lt_ge_cases 0 n') as [Hp|Hn].
      - destruct (Hpos Hp) as (fc & rest & _ & Hctx & Hperm).
        apply (Permutation_in _ Hperm) in Hi.
        apply in_app_or in Hi. destruct Hi as [Hi|Hi]; [left|auto].
        eapply Permutation_in; [symmetry; exact Hctx|].
        apply in_or_app. auto.
      - rewrite (Hskip Hn) in Hi. auto. }
    destruct Hor as [Hctx|Hcol]; [auto|right].
    apply in_concat in Hcol. destruct Hcol as (idxs & Hsel & Hin).
    destruct (Forall2_In_right _ _ _ _ HF Hsel) as (c & Hc' & Hnth).
    eauto.
Qed.

Lemma C6_column_strategy_witness :
  table_mask_strategy column_strategy_config = "column"
  /\ create_masked_lm_predictions column_strategy_config small_vocab
       four_column_tokens [1] four_column_candidates [3; 0; 1; 0]%N
     = Ok ((["[CLS]"; "q"; "[SEP]"; "[MASK]"; "[MASK]"; "va"; "[SEP]"; "b";
             "tb"; "vb"; "[SEP]"; "c"; "tc"; "vc"; "[SEP]"; "[MASK]";
             "[MASK]"; "vd"; "[SEP]"],
            [15; 16; 3; 4], ["d"; "td"; "a"; "ta"],
            mkInfo 8 (Some 2%Z) 4 0 None), [])
  /\ column_quota column_strategy_config (length four_column_candidates)
     = Some 2%Z
  /\ num_masked_columns (mkInfo 8 (Some 2%Z) 4 0 None)
     = column_quota column_strategy_config (length four_column_candidates).
Proof.
  split; [reflexivity|]. split; [vm_compute; reflexivity|].
  split; [vm_compute; reflexivity|].
  refine (proj1 (C6_column_strategy column_strategy_config small_vocab
                   four_column_tokens [1] four_column_candidates
                   [3; 0; 1; 0]%N [] _ [15; 16; 3; 4] _ _ eq_refl _)).
  vm_compute. reflexivity.
Defined.

Lemma C7_mask_counts_witness :
  create_masked_lm_predictions scenario_config small_vocab scenario_tokens
    [1; 2; 3] [[5; 6]] [1; 0; 2; 5; 3; 7]%N
  = Ok ((["[CLS]"; "[MASK]"; "many"; "medals"; "[SEP]"; "[MASK]"; "[MASK]";
          "brazil"; "[SEP]"],
         [1; 5; 6], ["how"; "country"; "text"], mkInfo 2 None 2 1 None), [])
  /\ exists from_columns from_context,
       Permutation [1; 5; 6] (from_context ++ from_columns)
       /\ Z.of_nat (length from_columns) = 2%Z.
Proof.
  assert (H : create_masked_lm_predictions scenario_config small_vocab
                scenario_tokens [1; 2; 3] [[5; 6]] [1; 0; 2; 5; 3; 7]%N
              = Ok ((["[CLS]"; "[MASK]"; "many"; "medals"; "[SEP]"; "[MASK]";
                      "[MASK]"; "brazil"; "[SEP]"],
                     [1; 5; 6], ["how"; "country"; "text"],
                     mkInfo 2 None 2 1 None), []))
    by (vm_compute; reflexivity).
  split; [exact H|].
  destruct (C7_mask_counts _ _ _ _ _ _ _ _ _ _ _ H)
    as (fc & fx & Hp & Hl & _).
  exists fc, fx. split; assumption.
Defined.

(** ** Which exceptions the mask generator raises *)

Section MaskFailures.

Variable config : TableBertConfig.
Variable vocab_list : list string.

Lemma mapM_getitem_raises {A} (l : list A) (idxs : list nat)
    (s : Rand.source) (e : exception) :
  Rand.mapM (fun i => Rand.lift (Py.getitem l i)) idxs s = Raise e ->
  e = IndexError.
Proof.
  revert s. induction idxs as [|i t IH]; intros s H; simpl in H;
    [discriminate|].
  apply bind_Raise in H. destruct H as [H|(x & s1 & _ & H)].
  - unfold Rand.lift, Py.getitem in H.
    destruct (nth_error l i); [discriminate|]. injection H as <-. reflexivity.
  - apply bind_Raise in H. destruct H as [H|(xs & s2 & _ & H)];
      [eapply IH; eauto | discriminate].
Qed.

Lemma lift_raises {A} (r : result A) (s : Rand.source) (e : exception) :
  Rand.lift r s = Raise e -> r = Raise e.
Proof.
  unfold Rand.lift. destruct r; [discriminate|]. intros H.
  injection H as <-. reflexivity.
Qed.

(** A count raises only when the product is an infinity or a NaN. *)
Lemma count_raises {A} (round : Q -> Z) (n : Z) (prob : Float.t)
    (k : Z -> Rand.M A) (s : Rand.source) (e : exception) :
  Rand.bind (Rand.lift (Float.int_mul n prob))
    (fun product =>
       Rand.bind (Rand.lift (Float.to_integer round product)) k) s
  = Raise e ->
  e = ValueError \/ e = OverflowError
  \/ exists count, k count s = Raise e.
Proof.
  intros H. apply bind_Raise in H. destruct H as [H|(x & s1 & Ex & H)].
  - apply lift_raises, int_mul_raises in H. auto.
  - apply lift_Ok in Ex. destruct Ex as [_ ->].
    apply bind_Raise in H. destruct H as [H|(c & s2 & Ec & H)].
    + apply lift_raises, to_integer_raises in H. tauto.
    + apply lift_Ok in Ec. destruct Ec as [_ ->]. eauto.
Qed.

Lemma mask_columns_raises (column_indices : list (list nat))
    (s : Rand.source) (e : exception) :
  table_mask_strategy config = "column_token"
  \/ table_mask_strategy config = "column" ->
  mask_columns config column_indices s = Raise e ->
  e = ValueError \/ e = IndexError \/ e = OverflowError.
Proof.
  intros [Hs|Hs] H; unfold mask_columns in H; rewrite Hs in H; simpl in H;
    apply (count_raises _ _ _ _ _ _) in H;
    destruct H as [H|[H|(count & H)]]; auto.
  - apply bind_Raise in H. destruct H as [H|(x & s1 & _ & H)].
    + left. eapply draw_raises. exact H.
    + apply bind_Raise in H. destruct H as [H|(y & s2 & _ & H)];
        [left; eapply sample_raises; eauto | discriminate].
  - apply bind_Raise in H. destruct H as [H|(x & s1 & _ & H)].
    + left. eapply sample_raises. exact H.
    + apply bind_Raise in H. destruct H as [H|(y & s2 & _ & H)].
      * left. eapply draw_raises. exact H.
      * apply bind_Raise in H. destruct H as [H|(z & s3 & _ & H)];
          [right; left; eapply mapM_getitem_raises; eauto | discriminate].
Qed.

Lemma mask_context_raises (context_indices masked_column : list nat)
    (num_column : Z) (s : Rand.source) (e : exception) :
  mask_context config context_indices num_column masked_column s = Raise e ->
  e = ValueError \/ e = OverflowError.
Proof.
  unfold mask_context. intros H.
  apply (count_raises _ _ _ _ _ _) in H.
  destruct H as [H|[H|(count & H)]]; auto.
  cbv zeta in H. revert H.
  destruct (_ >? 0)%Z; [|discriminate]. intros H.
  apply bind_Raise in H. destruct H as [H|(x & s1 & _ & H)].
  - left. eapply draw_raises. exact H.
  - apply bind_Raise in H. destruct H as [H|(y & s2 & _ & H)];
      [left; eapply sample_raises; eauto | discriminate].
Qed.

Lemma getitem_raises {A} (l : list A) (i : nat) (s : Rand.source)
    (e : exception) :
  Rand.lift (Py.getitem l i) s = Raise e -> e = IndexError.
Proof.
  unfold Rand.lift, Py.getitem. destruct (nth_error l i); [discriminate|].
  intros H. injection H as <-. reflexivity.
Qed.

Lemma setitem_raises {A} (l : list A) (i : nat) (x : A) (e : exception) :
  Py.setitem l i x = Raise e -> e = IndexError.
Proof.
  revert i. induction l as [|h t IH]; intros i H; simpl in H.
  - injection H as <-. reflexivity.
  - destruct i as [|i]; [discriminate|].
    destruct (Py.setitem t i x) eqn:E; [discriminate|].
    injection H as <-. eapply IH. exact E.
Qed.

Lemma random_never_raises (s : Rand.source) (e : exception) :
  Rand.random s <> Raise e.
Proof. destruct (random_total s) as (r & s' & -> & _). discriminate. Qed.

Lemma choice_raises {A} (seq : list A) (s : Rand.source) (e : exception) :
  Rand.choice seq s = Raise e -> e = IndexError.
Proof.
  unfold Rand.choice. destruct seq as [|x t].
  - intros H. injection H as <-. reflexivity.
  - intros H. apply bind_Raise in H. destruct H as [H|(j & s1 & _ & H)].
    + destruct (randbelow_total (length (x :: t)) s) as (j & s1 & E & _).
      congruence.
    + eapply getitem_raises. exact H.
Qed.

Lemma mask_loop_raises (masked_indices : list nat)
    (tokens labels : list string) (s : Rand.source) (e : exception) :
  mask_loop vocab_list masked_indices tokens labels s = Raise e ->
  e = IndexError.
Proof.
  revert tokens labels s. induction masked_indices as [|i t IH];
    intros tokens labels s H; simpl in H; [discriminate|].
  apply bind_Raise in H. destruct H as [H|(r & s1 & _ & H)];
    [exfalso; eapply random_never_raises; eauto|].
  apply bind_Raise in H. destruct H as [H|(tok & s2 & _ & H)].
  - destruct (Qltb r (8 # 10)); [discriminate|].
    apply bind_Raise in H. destruct H as [H|(r' & s2 & _ & H)];
      [exfalso; eapply random_never_raises; eauto|].
    destruct (Qltb r' (5 # 10));
      [eapply getitem_raises | eapply choice_raises]; eauto.
  - apply bind_Raise in H. destruct H as [H|(label & s3 & _ & H)];
      [eapply getitem_raises; eauto|].
    apply bind_Raise in H. destruct H as [H|(toks & s4 & _ & H)].
    + unfold Rand.lift in H.
      destruct (Py.setitem tokens i tok) eqn:E; [discriminate|].
      injection H as <-. eapply setitem_raises. exact E.
    + eapply IH. exact H.
Qed.

(** With a valid strategy the only exceptions are the [ValueError] of
    [sample], the [IndexError] of an index out of range, and the
    [ValueError] or [OverflowError] of a product that is not finite. *)
Lemma create_masked_lm_predictions_raises (tokens : list string)
    (context_indices : list nat) (column_indices : list (list nat))
    (s : Rand.source) (e : exception) :
  table_mask_strategy config = "column_token"
  \/ table_mask_strategy config = "column" ->
  create_masked_lm_predictions config vocab_list tokens context_indices
    column_indices s = Raise e ->
  e = ValueError \/ e = IndexError \/ e = OverflowError.
Proof.
  intros Hs H. unfold create_masked_lm_predictions in H.
  apply bind_Raise in H. destruct H as [H|([[mc n] cols] & s1 & _ & H)];
    [eapply mask_columns_raises; eauto|].
  apply bind_Raise in H. destruct H as [H|([mi n'] & s2 & _ & H)];
    [apply mask_context_raises in H; tauto|].
  apply bind_Raise in H. destruct H as [H|([toks labs] & s3 & _ & H)];
    [right; left; eapply mask_loop_raises; eauto | discriminate].
Qed.

End MaskFailures.

(** ** When the mask generator completes *)

Section MaskTotality.

Variable config : TableBertConfig.
Variable vocab_list : list string.

Lemma getitem_total {A} (l : list A) (i : nat) (s : Rand.source) :
  i < length l -> exists x, Rand.lift (Py.getitem l i) s = Ok (x, s).
Proof.
  intros Hi. unfold Rand.lift, Py.getitem.
  destruct (nth_error l i) as [x|] eqn:E; [eauto|].
  apply nth_error_None in E. lia.
Qed.

Lemma choice_total {A} (seq : list A) (s : Rand.source) :
  seq <> [] -> exists x s', Rand.choice seq s = Ok (x, s').
Proof.
  intros Hne. unfold Rand.choice. destruct seq as [|y t]; [contradiction|].
  destruct (randbelow_total (length (y :: t)) s) as (j & s1 & Ej & Hj).
  destruct (getitem_total (y :: t) j s1 ltac:(apply Hj; simpl; lia))
    as (x & Ex).
  exists x, s1. apply bind_Ok. eauto.
Qed.

Lemma mask_loop_total (masked_indices : list nat)
    (tokens labels : list string) (s : Rand.source) :
  vocab_list <> [] ->
  Forall (fun i => i < length tokens) masked_indices ->
  exists r s', mask_loop vocab_list masked_indices tokens labels s
               = Ok (r, s').
Proof.
  intros Hv. revert tokens labels s.
  induction masked_indices as [|i t IH]; intros tokens labels s HF; simpl.
  - eexists _, _. reflexivity.
  - inversion HF as [|? ? Hi Ht]; subst.
    destruct (random_total s) as (r & s1 & Er & _).
    assert (Htok : exists tok s2,
               (if Qltb r (8 # 10) then Rand.ret "[MASK]"%string
                else
                  Rand.bind Rand.random (fun r' =>
                  if Qltb r' (5 # 10) then Rand.lift (Py.getitem tokens i)
                  else Rand.choice vocab_list)) s1 = Ok (tok, s2)).
    { destruct (Qltb r (8 # 10)); [eexists _, _; reflexivity|].
      destruct (random_total s1) as (r' & s2 & Er' & _).
      destruct (Qltb r' (5 # 10)) eqn:Eq.
      - destruct (getitem_total tokens i s2 Hi) as (x & Ex).
        exists x, s2. apply bind_Ok. exists r', s2. rewrite Eq. auto.
      - destruct (choice_total vocab_list s2 Hv) as (x & s3 & Ex).
        exists x, s3. apply bind_Ok. exists r', s2. rewrite Eq. auto. }
    destruct Htok as (tok & s2 & Etok).
    destruct (getitem_total tokens i s2 Hi) as (label & Elabel).
    destruct (setitem_total tokens i tok Hi) as (tokens' & Eset).
    destruct (setitem_length _ _ _ _ Eset) as [Hlen _].
    assert (Ht' : Forall (fun i => i < length tokens') t)
      by (rewrite Hlen; exact Ht).
    destruct (IH tokens' (labels ++ [label]) s2 Ht') as (res & s3 & Eloop).
    exists res, s3.
    apply bind_Ok. exists r, s1. split; [exact Er|].
    apply bind_Ok. exists tok, s2. split; [exact Etok|].
    apply bind_Ok. exists label, s2. split; [exact Elabel|].
    apply bind_Ok. exists tokens', s2. split; [|exact Eloop].
    unfold Rand.lift. rewrite Eset. reflexivity.
Qed.

Lemma lift_product_total (round : Q -> Z) (n : nat) (prob : Float.t)
    (q : Q) (s : Rand.source) :
  float_product n prob = Some q ->
  exists x,
    Rand.lift (Float.int_mul (Z.of_nat n) prob) s = Ok (x, s)
    /\ Rand.lift (Float.to_integer round x) s = Ok (round q, s).
Proof.
  intros Hq. destruct (float_product_Some _ _ _ Hq) as (x & Hx & Hr).
  exists x. unfold Rand.lift. rewrite Hx, Hr. auto.
Qed.

Lemma mask_columns_total (column_indices : list (list nat))
    (s : Rand.source) :
  (table_mask_strategy config = "column_token"
   /\ exists quota,
       column_token_quota config (length (concat column_indices))
       = Some quota
       /\ (0 <= quota <= Z.of_nat (length (concat column_indices)))%Z)
  \/ (table_mask_strategy config = "column"
      /\ exists quota,
          column_quota config (length column_indices) = Some quota
          /\ (quota <= Z.of_nat (length column_indices))%Z) ->
  exists r s', mask_columns config column_indices s = Ok (r, s').
Proof.
  intros [[Hs (quota & Eq & Hq)]|[Hs (quota & Eq & Hq)]];
    unfold mask_columns; rewrite Hs; simpl.
  - unfold column_token_quota in Eq.
    destruct (float_product (length (concat column_indices))
                (masked_column_prob config)) as [product|] eqn:Ep;
      [|discriminate].
    cbn [option_map] in Eq. injection Eq as <-.
    rewrite <- int_floor_max in Hq by lia.
    destruct (lift_product_total Py.int _ _ _ s Ep) as (x & Ex & Ek).
    destruct (shuffle_total (concat column_indices) s) as (y & s1 & Ey).
    pose proof (Permutation_length (shuffle_spec _ _ _ _ Ey)) as Hl.
    destruct (sample_total y _ s1 ltac:(rewrite <- Hl; exact Hq))
      as (l & s2 & El).
    eexists _, s2. apply bind_Ok. exists x, s. split; [exact Ex|].
    apply bind_Ok. exists (Py.int product), s. split; [exact Ek|].
    apply bind_Ok. exists y, s1. split; [exact Ey|].
    apply bind_Ok. exists l, s2. split; [exact El | reflexivity].
  - unfold column_quota in Eq.
    destruct (float_product (length column_indices)
                (masked_column_prob config)) as [product|] eqn:Ep;
      [|discriminate].
    cbn [option_map] in Eq. injection Eq as <-.
    destruct (lift_product_total Py.ceil _ _ _ s Ep) as (x & Ex & Ek).
    assert (Hr : (0 <= Z.max 1 (Py.ceil product)
                  <= Z.of_nat (length (Py.range 0 (length column_indices))))%Z).
    { rewrite range_length, Nat.sub_0_r. unfold Py.ceil. lia. }
    destruct (sample_total _ _ s Hr) as (l & s1 & El).
    destruct (shuffle_total (Py.sorted l) s1) as (y & s2 & Ey).
    destruct (sample_spec _ _ _ _ _ El) as (_ & _ & rest & Hp).
    assert (Hin : Forall (fun c => c < length column_indices) y).
    { apply Forall_forall. intros c Hc.
      apply (Permutation_in _ (Permutation_sym (shuffle_spec _ _ _ _ Ey)))
        in Hc.
      apply (proj1 (sorted_In _ _)) in Hc.
      assert (Hc' : In c (Py.range 0 (length column_indices))).
      { eapply Permutation_in; [symmetry; exact Hp|].
        apply in_or_app. auto. }
      apply range_In in Hc'. lia. }
    destruct (mapM_getitem_total column_indices y s2 Hin) as (sel & Esel).
    eexists _, s2. apply bind_Ok. exists x, s. split; [exact Ex|].
    apply bind_Ok. exists (Py.ceil product), s. split; [exact Ek|].
    apply bind_Ok. exists l, s1. split; [exact El|].
    apply bind_Ok. exists y, s2. split; [exact Ey|].
    apply bind_Ok. exists sel, s2. split; [exact Esel | reflexivity].
Qed.

Lemma mask_context_total (context_indices masked_column : list nat)
    (num_column : Z) (s : Rand.source) :
  (exists request,
      context_request config (length context_indices) = Some request
      /\ (request <= Z.of_nat (length context_indices))%Z) ->
  exists r s',
    mask_context config context_indices num_column masked_column s
    = Ok (r, s').
Proof.
  intros (request & Eq & Hq). unfold context_request in Eq.
  destruct (float_product (length context_indices)
              (masked_context_prob config)) as [product|] eqn:Ep;
    [|discriminate].
  cbn [option_map] in Eq. injection Eq as <-.
  rewrite <- (int_floor_max 1) in Hq by lia.
  destruct (lift_product_total Py.int _ _ _ s Ep) as (x & Ex & Ek).
  assert (Hrest : exists r s',
             (let num_context_tokens_to_mask :=
                Z.min (max_predictions_per_seq config - num_column)
                  (Z.max 1 (Py.int product)) in
              if (num_context_tokens_to_mask >? 0)%Z
              then
                Rand.bind (Rand.shuffle context_indices) (fun ctx =>
                Rand.bind (Rand.sample ctx num_context_tokens_to_mask)
                  (fun s0 =>
                Rand.ret (Py.sorted (Py.sorted s0 ++ masked_column),
                          num_context_tokens_to_mask)))
              else Rand.ret (masked_column, num_context_tokens_to_mask)) s
             = Ok (r, s')).
  { cbv zeta. set (q := Z.min _ _) in *.
    destruct (Z.gtb_spec q 0) as [Hpos|Hneg]; [|eexists _, _; reflexivity].
    destruct (shuffle_total context_indices s) as (y & s1 & Ey).
    pose proof (Permutation_length (shuffle_spec _ _ _ _ Ey)) as Hl.
    destruct (sample_total y q s1 ltac:(subst q; lia)) as (l & s2 & El).
    eexists _, s2. apply bind_Ok. exists y, s1. split; [exact Ey|].
    apply bind_Ok. exists l, s2. split; [exact El | reflexivity]. }
  destruct Hrest as (r & s' & Hrest).
  exists r, s'. unfold mask_context.
  apply bind_Ok. exists x, s. split; [exact Ex|].
  apply bind_Ok. exists (Py.int product), s. split; [exact Ek|].
  exact Hrest.
Qed.

End MaskTotality.

(** ** Where the masked positions come from *)

Lemma mask_columns_incl (config : TableBertConfig)
    (column_indices : list (list nat)) (s s' : Rand.source)
    (masked : list nat) (n : Z) (cols : option Z) :
  mask_columns config column_indices s = Ok ((masked, n, cols), s') ->
  incl masked (concat column_indices).
Proof.
  intros H i Hi.
  destruct (String.eqb_spec (table_mask_strategy config) "column_token")
    as [Hs|Hs].
  - destruct (mask_columns_column_token _ _ _ _ _ _ _ Hs H)
      as (_ & _ & _ & rest & Hp).
    eapply Permutation_in; [symmetry; exact Hp|]. apply in_or_app. auto.
  - destruct (String.eqb_spec (table_mask_strategy config) "column")
      as [Hs'|Hs'].
    + destruct (mask_columns_column _ _ _ _ _ _ _ Hs' H)
        as (_ & _ & ctm & sel & _ & _ & HF & ->).
      apply in_concat in Hi. destruct Hi as (idxs & Hsel & Hin).
      destruct (Forall2_In_right _ _ _ _ HF Hsel) as (c & _ & Hnth).
      apply in_concat. exists idxs. split; [|exact Hin].
      eapply nth_error_In. exact Hnth.
    + rewrite mask_columns_unknown in H by assumption. discriminate.
Qed.

Lemma mask_context_incl (config : TableBertConfig)
    (context_indices masked_column : list nat) (num_column : Z)
    (s s' : Rand.source) (masked : list nat) (n : Z) :
  mask_context config context_indices num_column masked_column s
  = Ok ((masked, n), s') ->
  incl masked (context_indices ++ masked_column).
Proof.
  intros H i Hi. apply mask_context_spec in H.
  destruct H as (_ & Hpos & Hskip).
  destruct (Z.lt_ge_cases 0 n) as [Hp|Hn].
  - destruct (Hpos Hp) as (fc & rest & _ & Hctx & Hperm).
    apply (Permutation_in _ Hperm) in Hi. apply in_app_or in Hi.
    apply in_or_app. destruct Hi as [Hi|Hi]; [left|auto].
    eapply Permutation_in; [symmetry; exact Hctx|]. apply in_or_app. auto.
  - rewrite (Hskip Hn) in Hi. apply in_or_app. auto.
Qed.

(** Every masked position is a context candidate or a column candidate. *)
Lemma masked_positions_are_candidates (config : TableBertConfig)
    (vocab_list tokens : list string) (context_indices : list nat)
    (column_indices : list (list nat)) (s s' : Rand.source)
    (out : list string) (positions : list nat) (labels : list string)
    (inf : Info) :
  create_masked_lm_predictions config vocab_list tokens context_indices
    column_indices s = Ok ((out, positions, labels, inf), s') ->
  incl positions (context_indices ++ concat column_indices).
Proof.
  intros H i Hi. apply create_masked_lm_predictions_inv in H.
  destruct H as (mc & n & cols & s1 & n' & s2 & Hc & Hx & _ & _).
  apply (mask_context_incl _ _ _ _ _ _ _ _ Hx) in Hi.
  apply in_app_or in Hi. apply in_or_app.
  destruct Hi as [Hi|Hi]; [auto|right].
  exact (mask_columns_incl _ _ _ _ _ _ _ Hc i Hi).
Qed.

(** ** Failure modes *)

(** C8, as the code has it. [create_masked_lm_predictions] raises the
    configuration error exactly when [table_mask_strategy] is neither
    ['column_token'] nor ['column']. With a valid strategy it completes
    whenever the vocabulary is not empty, every candidate index is within
    the token sequence, and the pools are large enough for the requested
    counts: the column-token count lies between 0 and the pool size
    (['column_token']), the column count is at most the number of columns
    (['column']), and [max(1, floor(len(context_indices) *
    masked_context_prob))] is at most the number of context candidates.
    The counts are those of the float products of the program, which have
    to be finite. *)
Theorem C8_failure_modes (config : TableBertConfig)
    (vocab_list tokens : list string) (context_indices : list nat)
    (column_indices : list (list nat)) (s : Rand.source) :
  ((exists msg,
       create_masked_lm_predictions config vocab_list tokens context_indices
         column_indices s = Raise (RuntimeError msg))
   <-> (table_mask_strategy config <> "column_token"
        /\ table_mask_strategy config <> "column"))
  /\ (table_mask_strategy config = "column_token"
      \/ table_mask_strategy config = "column" ->
      vocab_list <> [] ->
      Forall (fun i => i < length tokens) context_indices ->
      Forall (fun i => i < length tokens) (concat column_indices) ->
      (table_mask_strategy config = "column_token" ->
       exists quota,
         column_token_quota config (length (concat column_indices))
         = Some quota
         /\ (0 <= quota <= Z.of_nat (length (concat column_indices)))%Z) ->
      (table_mask_strategy config = "column" ->
       exists quota,
         column_quota config (length column_indices) = Some quota
         /\ (quota <= Z.of_nat (length column_indices))%Z) ->
      (exists request,
          context_request config (length context_indices) = Some request
          /\ (request <= Z.of_nat (length context_indices))%Z) ->
      exists r s',
        create_masked_lm_predictions config vocab_list tokens context_indices
          column_indices s = Ok (r, s')).
Proof.
  split; [split|].
  - intros (msg & H).
    destruct (String.eqb_spec (table_mask_strategy config) "column_token")
      as [Hs|Hs].
    + destruct (create_masked_lm_predictions_raises _ _ _ _ _ _ _
                  (or_introl Hs) H) as [He|[He|He]]; discriminate.
    + destruct (String.eqb_spec (table_mask_strategy config) "column")
        as [Hs'|Hs'].
      * destruct (create_masked_lm_predictions_raises _ _ _ _ _ _ _
                    (or_intror Hs') H) as [He|[He|He]]; discriminate.
      * auto.
  - intros [H1 H2]. exists "unknown mode!"%string.
    unfold create_masked_lm_predictions, Rand.bind.
    rewrite mask_columns_unknown by assumption. reflexivity.
  - intros Hs Hv Hctx Hcol Hq1 Hq2 Hq3.
    assert (Hpre :
      (table_mask_strategy config = "column_token"
       /\ exists quota,
           column_token_quota config (length (concat column_indices))
           = Some quota
           /\ (0 <= quota
               <= Z.of_nat (length (concat column_indices)))%Z)
      \/ (table_mask_strategy config = "column"
          /\ exists quota,
              column_quota config (length column_indices) = Some quota
              /\ (quota <= Z.of_nat (length column_indices))%Z))
      by (destruct Hs; [left | right]; auto).
    destruct (mask_columns_total config column_indices s Hpre)
      as ([[mc n] cols] & s1 & Ec).
    destruct (mask_context_total config context_indices mc n s1 Hq3)
      as ([mi n'] & s2 & Ex).
    assert (Hin : Forall (fun i => i < length tokens) mi).
    { apply Forall_forall. intros i Hi.
      apply (mask_context_incl _ _ _ _ _ _ _ _ Ex) in Hi.
      apply in_app_or in Hi. destruct Hi as [Hi|Hi].
      - exact (proj1 (Forall_forall _ _) Hctx i Hi).
      - apply (mask_columns_incl _ _ _ _ _ _ _ Ec) in Hi.
        exact (proj1 (Forall_forall _ _) Hcol i Hi). }
    destruct (mask_loop_total vocab_list mi tokens [] s2 Hv Hin)
      as ([toks labs] & s3 & El).
    eexists _, s3. unfold create_masked_lm_predictions.
    apply bind_Ok. exists (mc, n, cols), s1. split; [exact Ec|].
    apply bind_Ok. exists (mi, n'), s2. split; [exact Ex|].
    apply bind_Ok. exists (toks, labs), s3. split; [exact El|].
    reflexivity.
Qed.

Lemma C8_failure_modes_witness :
  (table_mask_strategy scenario_config = "column_token"
   \/ table_mask_strategy scenario_config = "column")
  /\ small_vocab <> []
  /\ Forall (fun i => i < length scenario_tokens) [1; 2; 3]
  /\ Forall (fun i => i < length scenario_tokens) (concat [[5; 6]])
  /\ column_token_quota scenario_config (length (concat [[5; 6]]))
     = Some 2%Z
  /\ context_request scenario_config (length [1; 2; 3]) = Some 1%Z
  /\ exists r s',
       create_masked_lm_predictions scenario_config small_vocab
         scenario_tokens [1; 2; 3] [[5; 6]] [] = Ok (r, s').
Proof.
  assert (H1 : table_mask_strategy scenario_config = "column_token"
               \/ table_mask_strategy scenario_config = "column")
    by (left; reflexivity).
  assert (H2 : small_vocab <> []) by discriminate.
  assert (H3 : Forall (fun i => i < length scenario_tokens) [1; 2; 3])
    by (repeat constructor).
  assert (H4 : Forall (fun i => i < length scenario_tokens)
                 (concat [[5; 6]])) by (repeat constructor).
  assert (E5 : column_token_quota scenario_config
                 (length (concat [[5; 6]])) = Some 2%Z)
    by (vm_compute; reflexivity).
  assert (E7 : context_request scenario_config (length [1; 2; 3])
               = Some 1%Z) by (vm_compute; reflexivity).
  assert (H5 : table_mask_strategy scenario_config = "column_token" ->
      exists quota,
        column_token_quota scenario_config (length (concat [[5; 6]]))
        = Some quota
        /\ (0 <= quota <= Z.of_nat (length (concat [[5; 6]])))%Z)
    by (intros _; exists 2%Z; split; [exact E5 | simpl; lia]).
  assert (H6 : table_mask_strategy scenario_config = "column" ->
      exists quota,
        column_quota scenario_config (length [[5; 6]]) = Some quota
        /\ (quota <= Z.of_nat (length [[5; 6]]))%Z) by discriminate.
  assert (H7 : exists request,
      context_request scenario_config (length [1; 2; 3]) = Some request
      /\ (request <= Z.of_nat (length [1; 2; 3]))%Z)
    by (exists 1%Z; split; [exact E7 | simpl; lia]).
  repeat (split; [assumption|]).
  exact (proj2 (C8_failure_modes scenario_config small_vocab scenario_tokens
                  [1; 2; 3] [[5; 6]] []) H1 H2 H3 H4 H5 H6 H7).
Defined.

(** C8 as stated fails: with the valid strategy ['column_token'] and a
    pool of a single column index, two indices are requested and [sample]
    raises [ValueError]. *)
Lemma C8_valid_strategy_raises_ValueError :
  table_mask_strategy scenario_config = "column_token"
  /\ create_masked_lm_predictions scenario_config small_vocab
       scenario_tokens [1; 2; 3] [[5]] [] = Raise ValueError.
Proof. split; [reflexivity | vm_compute; reflexivity]. Qed.

(** ** Which keys a span map has *)

Section SpanKeys.

Variable config : TableBertConfig.

Lemma cell_step_column_name (column : Column) (cell_value : list string)
    (token_offset : nat) (input : list string) (span_map : SpanMap)
    (token : string) :
  span_column_name
    (snd (cell_step column cell_value token_offset (input, span_map) token))
  = None
  <-> span_column_name span_map = None /\ token <> "column"%string.
Proof.
  unfold cell_step.
  destruct (String.eqb_spec token "column") as [->|Hc]; simpl.
  - split; [discriminate | intros [_ H]; contradiction].
  - destruct (token =? "value")%string; simpl; [tauto|].
    destruct (token =? "type")%string; simpl; tauto.
Qed.

Lemma cell_step_type (column : Column) (cell_value : list string)
    (token_offset : nat) (input : list string) (span_map : SpanMap)
    (token : string) :
  span_type
    (snd (cell_step column cell_value token_offset (input, span_map) token))
  = None
  <-> span_type span_map = None /\ token <> "type"%string.
Proof.
  unfold cell_step.
  destruct (String.eqb_spec token "column") as [->|Hc]; simpl.
  - split; [intros H; split; [exact H | discriminate] | tauto].
  - destruct (String.eqb_spec token "value") as [->|Hv]; simpl.
    + split; [intros H; split; [exact H | discriminate] | tauto].
    + destruct (String.eqb_spec token "type") as [->|Ht]; simpl.
      * split; [discriminate | intros [_ H]; contradiction].
      * tauto.
Qed.

Lemma cell_fold_keys (column : Column) (cell_value : list string)
    (token_offset : nat) (template : list string)
    (st : list string * SpanMap) :
  let st' :=
    fold_left (cell_step column cell_value token_offset) template st in
  (span_column_name (snd st') = None
   <-> span_column_name (snd st) = None /\ ~ In "column"%string template)
  /\ (span_type (snd st') = None
      <-> span_type (snd st) = None /\ ~ In "type"%string template).
Proof.
  revert st. induction template as [|token rest IH]; intros [input sm];
    simpl.
  - tauto.
  - specialize (IH (cell_step column cell_value token_offset (input, sm)
                      token)).
    cbv zeta in IH. destruct IH as [IHc IHt].
    rewrite IHc, IHt.
    destruct (cell_step column cell_value token_offset (input, sm) token)
      as [input' sm'] eqn:E.
    pose proof (cell_step_column_name column cell_value token_offset input
                  sm token) as Hc.
    pose proof (cell_step_type column cell_value token_offset input sm token)
      as Ht.
    rewrite E in Hc, Ht. simpl in *.
    split; split; intros H.
    + destruct H as [H1 H2]. apply Hc in H1. destruct H1 as [H1 H3].
      split; [exact H1|]. intros [H4|H4]; [congruence | contradiction].
    + destruct H as [H1 H2]. split; [apply Hc; split; auto|]; auto.
    + destruct H as [H1 H2]. apply Ht in H1. destruct H1 as [H1 H3].
      split; [exact H1|]. intros [H4|H4]; [congruence | contradiction].
    + destruct H as [H1 H2]. split; [apply Ht; split; auto|]; auto.
Qed.

Lemma get_cell_input_keys (column : Column) (cell_value : list string)
    (token_offset : nat) :
  keys_follow_template config
    (snd (get_cell_input config column cell_value token_offset)).
Proof.
  unfold get_cell_input, keys_follow_template.
  pose proof (cell_fold_keys column cell_value token_offset
                (cell_input_template config)
                ([], mkSpanMap (token_offset, token_offset + 1) None None
                       None None None)) as H.
  cbv zeta in H.
  destruct (fold_left _ _ _) as [input sm]. simpl in *. tauto.
Qed.

Lemma dict_set_nonempty {V} (d : Dict.t V) (k : string) (v : V) :
  Dict.set d k v <> [].
Proof.
  destruct d as [|[k' v'] rest]; simpl; [discriminate|].
  destruct (k' =? k)%string; discriminate.
Qed.

Lemma dict_set_In {V} (d : Dict.t V) (k k' : string) (v v' : V) :
  In (k', v') (Dict.set d k v) -> v' = v \/ In (k', v') d.
Proof.
  induction d as [|[k0 v0] rest IH]; simpl.
  - intros [H|[]]. injection H as _ <-. auto.
  - destruct (k0 =? k)%string; simpl.
    + intros [H|H]; [injection H as _ <-; auto | auto].
    + intros [H|H]; [auto|]. destruct (IH H); auto.
Qed.

Lemma table_loop_keys (budget : Z) (columns : list Column)
    (row row' : list string) (spans spans' : Dict.t SpanMap) (start : nat) :
  table_loop config budget columns row spans start = (row', spans') ->
  (row <> [] -> spans <> []) ->
  Forall (fun kv => keys_follow_template config (snd kv)) spans ->
  (row' <> [] -> spans' <> [])
  /\ Forall (fun kv => keys_follow_template config (snd kv)) spans'.
Proof.
  revert row spans start.
  induction columns as [|column rest IH]; intros row spans start H Hne HF;
    simpl in H.
  - injection H as <- <-. auto.
  - pose proof (get_cell_input_keys column
                  (Py.slice_to (sample_value_tokens column)
                     (max_cell_len config)) start) as Hk.
    destruct (get_cell_input config column _ start) as [cell sm].
    destruct (_ >? budget)%Z.
    + injection H as <- <-. auto.
    + apply IH in H; [exact H | intros _; apply dict_set_nonempty |].
      apply Forall_forall. intros [k' v'] Hin.
      apply dict_set_In in Hin. destruct Hin as [->|Hin]; [exact Hk|].
      exact (proj1 (Forall_forall _ _) HF _ Hin).
Qed.

End SpanKeys.

(** ** The template must have [column] and [type] *)

Lemma get_input_spans (MAX : Z) (config : TableBertConfig)
    (context : list string) (table : Table) (inst : Instance) :
  get_input MAX config context table = Ok inst ->
  column_spans inst <> []
  /\ Forall (fun kv => keys_follow_template config (snd kv))
       (column_spans inst).
Proof.
  intros H. apply get_input_inv in H.
  destruct H as (row0 & spans & last_token & Hloop & Hlast & -> & _).
  apply table_loop_keys in Hloop; [|congruence|constructor].
  destruct Hloop as [Hne HF]. split; [|exact HF].
  apply Hne. intros ->. discriminate.
Qed.

Lemma column_candidates_KeyError (literal_prob : Q) (span : SpanMap)
    (s : Rand.source) :
  span_column_name span = None \/ span_type span = None ->
  exists key,
    (key = "column_name"%string \/ key = "type"%string)
    /\ column_candidates literal_prob span s = Raise (KeyError key).
Proof.
  intros H. unfold column_candidates, Rand.bind, Rand.lift, span_lookup.
  destruct (span_column_name span) as [cn|].
  - destruct H as [H|H]; [discriminate|]. rewrite H.
    exists "type"%string. auto.
  - exists "column_name"%string. auto.
Qed.

(** C10. If the template lacks the marker [column] or the marker [type],
    [create_pretraining_instance] never returns an instance; and whenever
    [get_input] returns, so that at least one column is included, building
    the candidate pool raises [KeyError] for [column_name] or for [type]. *)
Theorem C10_template_needs_column_and_type (MAX : Z)
    (config : TableBertConfig) (vocab_list : list string)
    (convert_tokens_to_ids : list string -> result (list Z))
    (context : list string) (header : list Column) (s : Rand.source) :
  ~ (In "column"%string (cell_input_template config)
     /\ In "type"%string (cell_input_template config)) ->
  (forall r s',
      create_pretraining_instance MAX config vocab_list
        convert_tokens_to_ids context header s <> Ok (r, s'))
  /\ (forall inst,
         get_input MAX config context (mkTable "fake_table" header) = Ok inst ->
         column_spans inst <> []
         /\ exists key,
              (key = "column_name"%string \/ key = "type"%string)
              /\ create_pretraining_instance MAX config vocab_list
                   convert_tokens_to_ids context header s
                 = Raise (KeyError key)).
Proof.
  intros Hno.
  assert (Hraise : forall inst,
    get_input MAX config context (mkTable "fake_table" header) = Ok inst ->
    column_spans inst <> []
    /\ exists key,
         (key = "column_name"%string \/ key = "type"%string)
         /\ create_pretraining_instance MAX config vocab_list
              convert_tokens_to_ids context header s = Raise (KeyError key)).
  { intros inst Hget. destruct (get_input_spans _ _ _ _ _ Hget) as [Hne HF].
    split; [exact Hne|].
    destruct (column_spans inst) as [|[k sp] rest] eqn:Es; [contradiction|].
    inversion HF as [|? ? [Hc Ht] _]; subst. simpl in Hc, Ht.
    assert (Hnone : span_column_name sp = None \/ span_type sp = None).
    { destruct (in_dec string_dec "column"%string
                  (cell_input_template config)) as [Hic|Hic];
        [|left; apply Hc; exact Hic].
      destruct (in_dec string_dec "type"%string
                  (cell_input_template config)) as [Hit|Hit];
        [exfalso; auto | right; apply Ht; exact Hit]. }
    destruct (column_candidates_KeyError (1 # 100) sp s Hnone)
      as (key & Hkey & Hk).
    exists key. split; [exact Hkey|].
    unfold create_pretraining_instance, create_pretraining_instance_with.
    unfold Rand.bind at 1. unfold Rand.lift at 1. rewrite Hget.
    unfold Rand.bind at 1. rewrite Es. cbn [Dict.items Rand.mapM snd].
    unfold Rand.bind at 1. rewrite Hk. reflexivity. }
  split; [|exact Hraise].
  intros r s' H.
  destruct (get_input MAX config context (mkTable "fake_table" header))
    as [inst|e] eqn:Hget.
  - destruct (Hraise inst eq_refl) as (_ & key & _ & Hk). congruence.
  - unfold create_pretraining_instance, create_pretraining_instance_with in H.
    unfold Rand.bind at 1 in H. unfold Rand.lift at 1 in H.
    rewrite Hget in H. discriminate.
Qed.

Lemma C10_template_needs_column_and_type_witness :
  ~ (In "column"%string (cell_input_template no_type_config)
     /\ In "type"%string (cell_input_template no_type_config))
  /\ (exists inst,
         get_input 512 no_type_config scenario_context
           (mkTable "fake_table" [scenario_column]) = Ok inst)
  /\ forall r s',
       create_pretraining_instance 512 no_type_config small_vocab zero_ids
         scenario_context [scenario_column] [] <> Ok (r, s').
Proof.
  assert (H : ~ (In "column"%string (cell_input_template no_type_config)
                 /\ In "type"%string (cell_input_template no_type_config))).
  { simpl. intros [_ [H|[H|[]]]]; discriminate. }
  split; [exact H|]. split; [eexists; vm_compute; reflexivity|].
  exact (proj1 (C10_template_needs_column_and_type 512 no_type_config
                  small_vocab zero_ids scenario_context [scenario_column]
                  [] H)).
Defined.

(** ** Spans of a cell *)

Lemma cell_step_fold_wf (column : Column) (cell_value : list string)
    (off : nat) (st : list string * SpanMap) (token : string) :
  fold_wf off st -> fold_wf off (cell_step column cell_value off st token).
Proof.
  destruct st as [input sm]. unfold fold_wf, cell_step. simpl.
  intros (H1 & H2 & H3 & H4).
  unfold maskable, in_other_tokens in *.
  destruct (token =? "column")%string; [|destruct (token =? "value")%string;
    [|destruct (token =? "type")%string]]; simpl; rewrite length_app.
  - split; [exact H1|]. split; [|split].
    + intros i [Hi|Hi]; [lia|]. specialize (H2 i (or_intror Hi)). lia.
    + intros i Hi. specialize (H3 i Hi). lia.
    + intros i Hi [Hm|Hm].
      * specialize (H3 i Hi). lia.
      * exact (H4 i Hi (or_intror Hm)).
  - split; [exact H1|]. split; [|split].
    + intros i Hi. specialize (H2 i Hi). lia.
    + intros i Hi. lia.
    + intros i Hi Hm. specialize (H2 i Hm). lia.
  - split; [exact H1|]. split; [|split].
    + intros i [Hi|[Hi|Hi]].
      * specialize (H2 i (or_introl Hi)). lia.
      * simpl. lia.
      * specialize (H2 i (or_intror (or_intror Hi))). lia.
    + intros i Hi. specialize (H3 i Hi). lia.
    + intros i Hi [Hm|[Hm|Hm]].
      * exact (H4 i Hi (or_introl Hm)).
      * specialize (H3 i Hi). lia.
      * exact (H4 i Hi (or_intror (or_intror Hm))).
  - split; [exact H1|]. simpl.
    assert (Hold : forall i,
               In i (match span_other_tokens sm with
                     | Some l => l
                     | None => []
                     end ++ [length input + off]) ->
               i = length input + off
               \/ match span_other_tokens sm with
                  | Some l => In i l
                  | None => False
                  end).
    { intros i Hi. apply in_app_or in Hi. destruct Hi as [Hi|[Hi|[]]];
        [right | left; auto].
      destruct (span_other_tokens sm); [exact Hi | contradiction]. }
    split; [|split].
    + intros i [Hi|[Hi|Hi]].
      * specialize (H2 i (or_introl Hi)). lia.
      * specialize (H2 i (or_intror (or_introl Hi))). lia.
      * apply Hold in Hi. destruct Hi as [->|Hi]; [lia|].
        specialize (H2 i (or_intror (or_intror Hi))). lia.
    + intros i Hi. specialize (H3 i Hi). lia.
    + intros i Hi [Hm|[Hm|Hm]].
      * exact (H4 i Hi (or_introl Hm)).
      * exact (H4 i Hi (or_intror (or_introl Hm))).
      * apply Hold in Hm. destruct Hm as [->|Hm].
        -- specialize (H3 _ Hi). lia.
        -- exact (H4 i Hi (or_intror (or_intror Hm))).
Qed.

Lemma cell_fold_wf (column : Column) (cell_value : list string) (off : nat)
    (template : list string) (st : list string * SpanMap) :
  fold_wf off st ->
  fold_wf off (fold_left (cell_step column cell_value off) template st).
Proof.
  revert st. induction template as [|token rest IH]; intros st H; simpl.
  - exact H.
  - apply IH. apply cell_step_fold_wf. exact H.
Qed.

Lemma get_cell_input_wf (config : TableBertConfig) (column : Column)
    (cell_value : list string) (off : nat) :
  let cell := get_cell_input config column cell_value off in
  cell_wf (snd cell)
  /\ cell_lo (snd cell) = off
  /\ cell_hi (snd cell) = off + length (fst cell).
Proof.
  unfold get_cell_input.
  pose proof (cell_fold_wf column cell_value off (cell_input_template config)
                ([], mkSpanMap (off, off + 1) None None None None None))
    as H.
  destruct (fold_left _ _ _) as [input sm].
  assert (H0 : fold_wf off
                 ([], mkSpanMap (off, off + 1) None None None None None)).
  { unfold fold_wf, maskable, in_other_tokens. simpl. tauto. }
  destruct (H H0) as (H1 & H2 & H3 & H4). simpl in *.
  unfold cell_wf, cell_lo, cell_hi, maskable, in_other_tokens in *. simpl.
  rewrite H1. simpl.
  split; [|split; reflexivity].
  split; [reflexivity|]. split; [exact H2|]. split; [exact H3 | exact H4].
Qed.

Lemma dict_set_spans_wf (start bound bound' : nat) (spans : Dict.t SpanMap)
    (key : string) (span : SpanMap) :
  spans_wf start bound spans ->
  cell_wf span ->
  cell_lo span = bound ->
  start <= bound ->
  bound <= bound' ->
  cell_hi span < bound' ->
  spans_wf start bound' (Dict.set spans key span).
Proof.
  intros [HF Hap] Hwf Hlo Hstart Hbound Hhi.
  split.
  - apply Forall_forall. intros [k v] Hin. simpl.
    apply dict_set_In in Hin. destruct Hin as [->|Hin].
    + split; [exact Hwf | split; lia].
    + pose proof (proj1 (Forall_forall _ _) HF _ Hin) as (Hw & Hs & Hb).
      simpl in *. split; [exact Hw | split; lia].
  - intros [k1 v1] [k2 v2] H1 H2. simpl.
    apply dict_set_In in H1. apply dict_set_In in H2.
    destruct H1 as [->|H1]; destruct H2 as [->|H2].
    + left. reflexivity.
    + pose proof (proj1 (Forall_forall _ _) HF _ H2) as (_ & _ & Hb).
      simpl in Hb. right. right. lia.
    + pose proof (proj1 (Forall_forall _ _) HF _ H1) as (_ & _ & Hb).
      simpl in Hb. right. left. lia.
    + exact (Hap _ _ H1 H2).
Qed.

Lemma table_loop_wf (config : TableBertConfig) (budget : Z)
    (columns : list Column) (row row' : list string)
    (spans spans' : Dict.t SpanMap) (start0 start : nat) :
  table_loop config budget columns row spans start = (row', spans') ->
  start = start0 + length row ->
  spans_wf start0 start spans ->
  spans_wf start0 (start0 + length row') spans'.
Proof.
  revert row spans start.
  induction columns as [|column rest IH]; intros row spans start H Hs Hwf;
    simpl in H.
  - injection H as <- <-. rewrite <- Hs. exact Hwf.
  - pose proof (get_cell_input_wf config column
                  (Py.slice_to (sample_value_tokens column)
                     (max_cell_len config)) start) as Hcell.
    cbv zeta in Hcell.
    destruct (get_cell_input config column _ start) as [cell sm].
    simpl in Hcell. destruct Hcell as (Hw & Hlo & Hhi).
    destruct (_ >? budget)%Z.
    + injection H as <- <-. rewrite <- Hs. exact Hwf.
    + apply IH in H; [exact H | rewrite !length_app; simpl; lia |].
      apply (dict_set_spans_wf start0 start); auto; try lia.
      rewrite Hhi, length_app. simpl. lia.
Qed.

(** ** What the candidate pools contain *)

Lemma span_lookup_Ok {A} (key : string) (field : option A) (v : A) :
  span_lookup key field = Ok v -> field = Some v.
Proof. destruct field; simpl; congruence. Qed.

Lemma column_candidates_spec (literal_prob : Q) (span : SpanMap)
    (s s' : Rand.source) (l : list nat) :
  column_candidates literal_prob span s = Ok (l, s') ->
  forall i, In i l ->
    in_span i (span_column_name span)
    \/ in_span i (span_type span)
    \/ (~ (literal_prob <= 0)%Q /\ in_other_tokens i span).
Proof.
  unfold column_candidates. intros H.
  apply bind_Ok in H. destruct H as ([a b] & s1 & Ecn & H).
  apply bind_Ok in H. destruct H as ([c d] & s2 & Ety & H).
  apply bind_Ok in H. destruct H as (r & s3 & Er & H).
  apply bind_Ok in H. destruct H as (other & s4 & Eo & H).
  apply ret_Ok in H. destruct H as [-> _].
  apply lift_Ok in Ecn. destruct Ecn as [Ecn _].
  apply lift_Ok in Ety. destruct Ety as [Ety _].
  apply span_lookup_Ok in Ecn. apply span_lookup_Ok in Ety.
  assert (Hr : (0 <= r)%Q).
  { destruct (random_total s2) as (r0 & s0 & E0 & Hr0). congruence. }
  intros i Hi. simpl in Hi. rewrite Ecn, Ety. simpl.
  apply in_app_or in Hi. destruct Hi as [Hi|Hi];
    [left; apply range_In; exact Hi|].
  apply in_app_or in Hi. destruct Hi as [Hi|Hi];
    [right; left; apply range_In; exact Hi|].
  right. right. unfold Qltb in Eo.
  destruct (Qle_bool literal_prob r) eqn:Eq; simpl in Eo.
  - apply ret_Ok in Eo. destruct Eo as [-> _]. contradiction.
  - apply lift_Ok in Eo. destruct Eo as [Eo _]. apply span_lookup_Ok in Eo.
    split.
    + intros Hle.
      assert (Hq : Qle_bool literal_prob r = true).
      { apply Qle_bool_iff. eapply Qle_trans; eauto. }
      congruence.
    + unfold in_other_tokens. rewrite Eo. exact Hi.
Qed.

Lemma mapM_column_candidates (literal_prob : Q) (spans : Dict.t SpanMap)
    (s s' : Rand.source) (pools : list (list nat)) :
  Rand.mapM (fun kv => column_candidates literal_prob (snd kv))
    (Dict.items spans) s = Ok (pools, s') ->
  forall i, In i (concat pools) ->
    exists kv,
      In kv spans
      /\ (in_span i (span_column_name (snd kv))
          \/ in_span i (span_type (snd kv))
          \/ (~ (literal_prob <= 0)%Q /\ in_other_tokens i (snd kv))).
Proof.
  unfold Dict.items. revert s s' pools.
  induction spans as [|kv rest IH]; intros s s' pools H i Hi; simpl in H.
  - apply ret_Ok in H. destruct H as [-> _]. contradiction.
  - apply bind_Ok in H. destruct H as (l & s1 & El & H).
    apply bind_Ok in H. destruct H as (ls & s2 & Els & H).
    apply ret_Ok in H. destruct H as [-> _].
    simpl in Hi. apply in_app_or in Hi. destruct Hi as [Hi|Hi].
    + exists kv. split; [left; reflexivity|].
      eapply column_candidates_spec; eauto.
    + destruct (IH _ _ _ Els i Hi) as (kv' & Hin & Hd).
      exists kv'. split; [right; exact Hin | exact Hd].
Qed.

Lemma removelast_length {A} (l : list A) :
  length (removelast l) = length l - 1.
Proof.
  induction l as [|x t IH]; [reflexivity|].
  destruct t as [|y t']; [reflexivity|].
  change (removelast (x :: y :: t')) with (x :: removelast (y :: t')).
  simpl length in *. rewrite IH. lia.
Qed.

(** The row of an instance: its span maps are well formed between the
    start of the table and the end of the row, and no context candidate
    lies in that range. *)
Lemma get_input_layout (MAX : Z) (config : TableBertConfig)
    (context : list string) (table : Table) (inst : Instance) :
  get_input MAX config context table = Ok inst ->
  exists start bound,
    spans_wf start bound (column_spans inst)
    /\ forall i, In i (context_candidates config inst) ->
                 i < start \/ bound <= i + 1.
Proof.
  intros H. apply get_input_inv in H.
  destruct H as (row0 & spans & last_token & Hloop & Hlast & -> & _ & H).
  cbv zeta in H.
  eapply (table_loop_wf _ _ _ _ _ _ _
            (if context_first config then length context + 2 else 1))
    in Hloop; [|simpl; lia|split; [constructor | intros ? ? []]].
  eexists _, _. split; [exact Hloop|].
  unfold context_candidates.
  destruct (context_first config); destruct H as (_ & _ & ->); intros i Hi.
  - left. unfold Py.range in Hi. rewrite Nat.sub_0_r in Hi. simpl in Hi.
    apply in_seq in Hi. lia.
  - right.
    assert (Hrow : length row0 - 1 <= length (strip_delimiter config row0
                                                last_token)).
    { unfold strip_delimiter.
      destruct (last_token =? column_delimiter config)%string;
        [rewrite removelast_length|]; lia. }
    set (row := strip_delimiter config row0 last_token) in *.
    unfold Py.range in Hi.
    replace (length row + 1 + 1 + length context + 1 - (length row + 1))
      with (S (length context + 1)) in Hi by lia.
    rewrite removelast_seq in Hi. apply in_seq in Hi. lia.
Qed.

(** ** What masking can touch *)

Lemma create_pretraining_instance_inv (MAX : Z) (config : TableBertConfig)
    (vocab_list : list string)
    (convert_tokens_to_ids : list string -> result (list Z))
    (literal_prob : Q) (context : list string) (header : list Column)
    (s s' : Rand.source) (out : PretrainingInstance) :
  create_pretraining_instance_with MAX config vocab_list
    convert_tokens_to_ids literal_prob context header s = Ok (out, s') ->
  exists inst pools s1 masked labels inf s2,
    get_input MAX config context (mkTable "fake_table" header) = Ok inst
    /\ Rand.mapM (fun kv => column_candidates literal_prob (snd kv))
         (Dict.items (column_spans inst)) s = Ok (pools, s1)
    /\ create_masked_lm_predictions config vocab_list (tokens inst)
         (context_candidates config inst) pools s1
       = Ok ((masked, masked_lm_positions out, labels, inf), s2).
Proof.
  unfold create_pretraining_instance_with. intros H.
  apply bind_Ok in H. destruct H as (inst & s0 & Eget & H).
  apply lift_Ok in Eget. destruct Eget as [Eget ->].
  apply bind_Ok in H. destruct H as (pools & s1 & Epools & H).
  apply bind_Ok in H.
  destruct H as ([[[masked positions] labels] inf] & s2 & Emask & H).
  apply bind_Ok in H. destruct H as (ids & s3 & _ & H).
  apply bind_Ok in H. destruct H as (label_ids & s4 & _ & H).
  apply ret_Ok in H. destruct H as [-> _]. simpl.
  exists inst, pools, s1, masked, labels, inf, s2. auto.
Qed.

(** C3, as the code has it. For every template, threshold of the literal
    draw and random outcome: no index of a recorded [value] span is ever
    masked; and an index inside a column's [whole_span] is masked only if
    it lies in that column's [column_name] span or [type] span, or in its
    [other_tokens] list, the latter never when the threshold is 0. The
    [first_token] index is not protected: it is masked like any index of
    the [column_name] or [type] span it falls in. *)
Theorem C3_value_span_never_masked (MAX : Z) (config : TableBertConfig)
    (vocab_list : list string)
    (convert_tokens_to_ids : list string -> result (list Z))
    (literal_prob : Q) (context : list string) (header : list Column)
    (s s' : Rand.source) (inst : Instance) (out : PretrainingInstance) :
  get_input MAX config context (mkTable "fake_table" header) = Ok inst ->
  create_pretraining_instance_with MAX config vocab_list
    convert_tokens_to_ids literal_prob context header s = Ok (out, s') ->
  forall key span, In (key, span) (Dict.items (column_spans inst)) ->
    (forall i, in_span i (span_value span) ->
               ~ In i (masked_lm_positions out))
    /\ (forall i, in_span i (span_whole_span span) ->
                  In i (masked_lm_positions out) ->
                  in_span i (span_column_name span)
                  \/ in_span i (span_type span)
                  \/ (~ (literal_prob <= 0)%Q /\ in_other_tokens i span)).
Proof.
  intros Hget H key span Hin.
  apply create_pretraining_instance_inv in H.
  destruct H as (inst' & pools & s1 & masked & labels & inf & s2 & Hget'
                 & Hpools & Hmask).
  rewrite Hget in Hget'. injection Hget' as <-.
  destruct (get_input_layout _ _ _ _ _ Hget)
    as (start & bound & [HF Hap] & Hctx).
  unfold Dict.items in Hin.
  pose proof (proj1 (Forall_forall _ _) HF _ Hin) as (Hwf & Hlo & Hhi).
  simpl in Hwf, Hlo, Hhi. destruct Hwf as (Hw & Hm & Hv & Hvm).
  assert (Hwhole : forall i,
             cell_lo span <= i < cell_hi span ->
             In i (masked_lm_positions out) ->
             in_span i (span_column_name span)
             \/ in_span i (span_type span)
             \/ (~ (literal_prob <= 0)%Q /\ in_other_tokens i span)).
  { intros i Hi Hpos.
    apply (masked_positions_are_candidates _ _ _ _ _ _ _ _ _ _ _ Hmask)
      in Hpos.
    apply in_app_or in Hpos. destruct Hpos as [Hpos|Hpos].
    - apply Hctx in Hpos. lia.
    - destruct (mapM_column_candidates _ _ _ _ _ Hpools i Hpos)
        as ([key' span'] & Hin' & Hd).
      simpl in Hd.
      pose proof (proj1 (Forall_forall _ _) HF _ Hin') as ((_ & Hm' & _) & _).
      simpl in Hm'.
      assert (Hmask' : maskable i span').
      { unfold maskable. destruct Hd as [Hd|[Hd|[_ Hd]]]; auto. }
      apply Hm' in Hmask'.
      destruct (Hap _ _ Hin Hin') as [Heq|[Hlt|Hlt]]; simpl in *.
      + subst span'. exact Hd.
      + lia.
      + lia. }
  split.
  - intros i Hi Hpos. apply (Hvm i Hi).
    destruct (Hwhole i (Hv i Hi) Hpos) as [Hd|[Hd|[_ Hd]]];
      unfold maskable; auto.
  - intros i Hi Hpos. apply Hwhole; [|exact Hpos].
    rewrite Hw in Hi. exact Hi.
Qed.

Lemma C3_value_span_never_masked_witness :
  get_input 512 scenario_config scenario_context
    (mkTable "fake_table" [scenario_column]) = Ok scenario_instance
  /\ create_pretraining_instance_with 512 scenario_config small_vocab
       zero_ids (1 # 100) scenario_context [scenario_column] [2 ^ 52]%N
     = Ok (scenario_pretraining_instance, [])
  /\ In ("country"%string, scenario_span)
       (Dict.items (column_spans scenario_instance))
  /\ forall i, in_span i (span_value scenario_span) ->
               ~ In i (masked_lm_positions scenario_pretraining_instance).
Proof.
  assert (H1 : get_input 512 scenario_config scenario_context
                 (mkTable "fake_table" [scenario_column])
               = Ok scenario_instance) by reflexivity.
  assert (H2 : create_pretraining_instance_with 512 scenario_config
                 small_vocab zero_ids (1 # 100) scenario_context
                 [scenario_column] [2 ^ 52]%N
               = Ok (scenario_pretraining_instance, []))
    by (vm_compute; reflexivity).
  assert (H3 : In ("country"%string, scenario_span)
                 (Dict.items (column_spans scenario_instance)))
    by (left; reflexivity).
  repeat (split; [assumption|]).
  exact (proj1 (C3_value_span_never_masked _ _ _ _ _ _ _ _ _ _ _ H1 H2
                  _ _ H3)).
Defined.

(** C3 as stated fails for the [first_token] span: in the scenario, with
    the threshold of the literal draw at 0 as with the source's 0.01, the
    index 5 of [country] is the [first_token] span, the column has no
    [other_tokens], and index 5 is masked. *)
Lemma C3_first_token_is_masked :
  get_input 512 scenario_config scenario_context
    (mkTable "fake_table" [scenario_column]) = Ok scenario_instance
  /\ In ("country"%string, scenario_span)
       (Dict.items (column_spans scenario_instance))
  /\ span_first_token scenario_span = (5, 6)
  /\ span_other_tokens scenario_span = None
  /\ create_pretraining_instance_with 512 scenario_config small_vocab
       zero_ids 0 scenario_context [scenario_column] [2 ^ 52]%N
     = Ok (scenario_pretraining_instance, [])
  /\ create_pretraining_instance 512 scenario_config small_vocab
       zero_ids scenario_context [scenario_column] [2 ^ 52]%N
     = Ok (scenario_pretraining_instance, [])
  /\ In 5 (masked_lm_positions scenario_pretraining_instance).
Proof.
  split; [reflexivity|]. split; [left; reflexivity|].
  split; [reflexivity|]. split; [reflexivity|].
  split; [vm_compute; reflexivity|]. split; [vm_compute; reflexivity|].
  simpl. auto.
Qed.

(** * Further properties of the code *)

(** ** Slices *)

Lemma slice_app_l {A} (l m : list A) (a b : nat) :
  b <= length l -> slice (l ++ m) a b = slice l a b.
Proof.
  intros Hb. unfold slice.
  destruct (Nat.le_gt_cases a (length l)) as [Ha|Ha].
  - rewrite skipn_app. replace (a - length l) with 0 by lia. simpl.
    rewrite firstn_app, length_skipn.
    replace (b - a - (length l - a)) with 0 by lia.
    simpl. apply app_nil_r.
  - replace (b - a) with 0 by lia. reflexivity.
Qed.

Lemma slice_app_r {A} (l m : list A) (a b : nat) :
  slice (l ++ m) (length l + a) (length l + b) = slice m a b.
Proof.
  unfold slice. rewrite skipn_app.
  replace (length l + a - length l) with a by lia.
  rewrite (skipn_all2 l) by lia. simpl. f_equal. lia.
Qed.

Lemma slice_all {A} (l : list A) : slice l 0 (length l) = l.
Proof. unfold slice. simpl. rewrite Nat.sub_0_r. apply firstn_all. Qed.

Lemma slice_length {A} (l : list A) (a b : nat) :
  a <= b -> b <= length l -> length (slice l a b) = b - a.
Proof.
  intros Hab Hb. unfold slice. rewrite length_firstn, length_skipn. lia.
Qed.

Lemma slice_slice {A} (l : list A) (p q a b : nat) :
  p + b <= q -> slice (slice l p q) a b = slice l (p + a) (p + b).
Proof.
  intros Hq. unfold slice.
  rewrite skipn_firstn_comm, firstn_firstn, skipn_skipn.
  replace (a + p) with (p + a) by lia. f_equal. lia.
Qed.

Lemma slice_firstn {A} (l : list A) (n a b : nat) :
  b <= n -> slice (firstn n l) a b = slice l a b.
Proof.
  intros Hb. unfold slice.
  rewrite skipn_firstn_comm, firstn_firstn. f_equal. lia.
Qed.

(** ** One cell *)

Section CellFacts.

Variable config : TableBertConfig.
Variable column : Column.
Variable cell_value : list string.

Lemma cell_step_shift (off d : nat) (input : list string) (sm : SpanMap)
    (token : string) :
  cell_step column cell_value (off + d) (input, shift_span_map d sm) token
  = (fst (cell_step column cell_value off (input, sm) token),
     shift_span_map d (snd (cell_step column cell_value off (input, sm)
                              token))).
Proof.
  unfold cell_step, shift_span_map, shift_span.
  destruct (token =? "column")%string; [|destruct (token =? "value")%string;
    [|destruct (token =? "type")%string]]; simpl; f_equal; f_equal;
    try (f_equal; f_equal; lia).
  destruct (span_other_tokens sm); simpl; f_equal.
  - rewrite map_app. simpl. f_equal. f_equal. lia.
  - f_equal. lia.
Qed.

Lemma cell_fold_shift (off d : nat) (template : list string)
    (input : list string) (sm : SpanMap) :
  fold_left (cell_step column cell_value (off + d)) template
    (input, shift_span_map d sm)
  = (fst (fold_left (cell_step column cell_value off) template (input, sm)),
     shift_span_map d
       (snd (fold_left (cell_step column cell_value off) template
               (input, sm)))).
Proof.
  revert input sm. induction template as [|token rest IH]; intros input sm.
  - reflexivity.
  - cbn [fold_left]. rewrite cell_step_shift.
    destruct (cell_step column cell_value off (input, sm) token)
      as [input' sm']. cbn [fst snd]. apply IH.
Qed.

End CellFacts.

(** X1. Moving a cell by [d] tokens leaves its tokens unchanged and moves
    every recorded span and literal index by [d]. *)
Theorem get_cell_input_shift (config : TableBertConfig) (column : Column)
    (cell_value : list string) (off d : nat) :
  get_cell_input config column cell_value (off + d)
  = (fst (get_cell_input config column cell_value off),
     shift_span_map d (snd (get_cell_input config column cell_value off))).
Proof.
  unfold get_cell_input.
  pose proof (cell_fold_shift column cell_value off d
                (cell_input_template config) []
                (mkSpanMap (off, off + 1) None None None None None)) as H.
  unfold shift_span_map at 1 in H. unfold shift_span at 1 in H.
  simpl in H.
  replace (off + 1 + d) with (off + d + 1) in H by lia.
  rewrite H.
  destruct (fold_left (cell_step column cell_value off) _ _) as [input sm].
  simpl. unfold shift_span_map, shift_span. simpl. f_equal. f_equal.
  f_equal. f_equal. lia.
Qed.

(** ** What the spans of a cell cut out *)

Lemma span_cuts_app (off : nat) (input more : list string)
    (span : option (nat * nat)) (expected : list string) :
  span_cuts off input span expected ->
  span_cuts off (input ++ more) span expected.
Proof.
  intros H a b E. destruct (H a b E) as (H1 & H2 & H3 & H4).
  rewrite length_app. repeat split; try lia.
  rewrite slice_app_l by lia. exact H4.
Qed.

Lemma span_cuts_new (off : nat) (input more : list string) :
  span_cuts off (input ++ more)
    (Some (length input + off, length input + off + length more)) more.
Proof.
  intros a b E. injection E as <- <-. rewrite length_app.
  repeat split; try lia.
  replace (length input + off - off) with (length input + 0) by lia.
  replace (length input + off + length more - off)
    with (length input + length more) by lia.
  rewrite slice_app_r. apply slice_all.
Qed.

Lemma cell_step_sliced (column : Column) (cell_value : list string)
    (template : list string) (off : nat) (st : list string * SpanMap)
    (token : string) :
  In token template ->
  fold_sliced column cell_value template off st ->
  fold_sliced column cell_value template off
    (cell_step column cell_value off st token).
Proof.
  destruct st as [input sm]. unfold fold_sliced, cell_step. simpl.
  intros Hin (Hc & Hv & Ht & Ho).
  assert (Ho' : forall more i, in_other_tokens i sm ->
            off <= i
            /\ exists tok,
                 nth_error (input ++ more) (i - off) = Some tok
                 /\ In tok template /\ ~ is_marker tok).
  { intros more i Hi. destruct (Ho i Hi) as (Hle & tok & Hn & Ht' & Hm).
    split; [exact Hle|]. exists tok. split; [|auto].
    rewrite nth_error_app1; [exact Hn|].
    apply nth_error_Some. congruence. }
  destruct (String.eqb_spec token "column") as [->|Nc]; simpl.
  - split; [apply span_cuts_new|].
    split; [apply span_cuts_app; assumption|].
    split; [apply span_cuts_app; assumption | apply Ho'].
  - destruct (String.eqb_spec token "value") as [->|Nv]; simpl.
    + split; [apply span_cuts_app; assumption|].
      split; [apply span_cuts_new|].
      split; [apply span_cuts_app; assumption | apply Ho'].
    + destruct (String.eqb_spec token "type") as [->|Nt]; simpl.
      * split; [apply span_cuts_app; assumption|].
        split; [apply span_cuts_app; assumption|].
        split; [apply (span_cuts_new off input [type column]) | apply Ho'].
      * split; [apply span_cuts_app; assumption|].
        split; [apply span_cuts_app; assumption|].
        split; [apply span_cuts_app; assumption|].
        unfold in_other_tokens. simpl. intros i Hi.
        apply in_app_or in Hi. destruct Hi as [Hi|[<-|[]]].
        -- apply Ho'. unfold in_other_tokens.
           destruct (span_other_tokens sm); [exact Hi | contradiction].
        -- split; [lia|]. exists token.
           replace (length input + off - off) with (length input) by lia.
           rewrite nth_error_app2, Nat.sub_diag by lia.
           split; [reflexivity|]. split; [exact Hin|].
           unfold is_marker. intuition congruence.
Qed.

Lemma cell_fold_sliced (column : Column) (cell_value : list string)
    (template : list string) (off : nat) (rest : list string)
    (st : list string * SpanMap) :
  incl rest template ->
  fold_sliced column cell_value template off st ->
  fold_sliced column cell_value template off
    (fold_left (cell_step column cell_value off) rest st).
Proof.
  revert st. induction rest as [|token rest IH]; intros st Hincl H.
  - exact H.
  - cbn [fold_left]. apply IH.
    + intros x Hx. apply Hincl. right. exact Hx.
    + apply cell_step_sliced; [apply Hincl; left; reflexivity | exact H].
Qed.

Lemma get_cell_input_sliced (config : TableBertConfig) (column : Column)
    (cell_value : list string) (off : nat) :
  fold_sliced column cell_value (cell_input_template config) off
    (get_cell_input config column cell_value off).
Proof.
  unfold get_cell_input.
  pose proof (cell_fold_sliced column cell_value
                (cell_input_template config) off
                (cell_input_template config)
                ([], mkSpanMap (off, off + 1) None None None None None)
                (incl_refl _)) as H.
  destruct (fold_left _ _ _) as [input sm].
  apply H. unfold fold_sliced, span_cuts, in_other_tokens. simpl.
  split; [discriminate|]. split; [discriminate|].
  split; [discriminate | contradiction].
Qed.

(** X2. The spans of a cell cut its own fields out of its tokens: the
    [column_name] span holds the column's name tokens, the [value] span the
    value tokens, the [type] span the type tag, and the [whole_span] all
    the tokens of the cell. *)
Theorem get_cell_input_round_trip (config : TableBertConfig)
    (column : Column) (cell_value : list string) (off a b : nat) :
  let input := fst (get_cell_input config column cell_value off) in
  let span := snd (get_cell_input config column cell_value off) in
  (span_column_name span = Some (a, b) ->
   slice input (a - off) (b - off) = name_tokens column)
  /\ (span_value span = Some (a, b) ->
      slice input (a - off) (b - off) = cell_value)
  /\ (span_type span = Some (a, b) ->
      slice input (a - off) (b - off) = [type column])
  /\ (span_whole_span span = Some (a, b) ->
      slice input (a - off) (b - off) = input).
Proof.
  cbv zeta.
  destruct (get_cell_input_sliced config column cell_value off)
    as (Hc & Hv & Ht & _).
  repeat split; intros E.
  - apply (Hc a b E).
  - apply (Hv a b E).
  - apply (Ht a b E).
  - unfold get_cell_input in *.
    destruct (fold_left _ _ _) as [input sm]. simpl in *.
    injection E as <- <-.
    rewrite Nat.sub_diag.
    replace (off + length input - off) with (length input) by lia.
    apply slice_all.
Qed.

Lemma get_cell_input_round_trip_witness :
  span_column_name
    (snd (get_cell_input scenario_config scenario_column ["brazil"] 5))
  = Some (5, 6)
  /\ slice (fst (get_cell_input scenario_config scenario_column ["brazil"] 5))
       (5 - 5) (6 - 5)
     = name_tokens scenario_column.
Proof.
  split; [reflexivity|].
  exact (proj1 (get_cell_input_round_trip scenario_config scenario_column
                  ["brazil"] 5 5 6) eq_refl).
Defined.

(** X3. Every index in [other_tokens] holds a literal of the template: a
    token of the template that is none of the markers [column], [value]
    and [type]. *)
Theorem other_tokens_hold_literals (config : TableBertConfig)
    (column : Column) (cell_value : list string) (off i : nat) :
  in_other_tokens i (snd (get_cell_input config column cell_value off)) ->
  off <= i
  /\ exists token,
       nth_error (fst (get_cell_input config column cell_value off))
         (i - off) = Some token
       /\ In token (cell_input_template config)
       /\ ~ is_marker token.
Proof.
  intros Hi.
  destruct (get_cell_input_sliced config column cell_value off)
    as (_ & _ & _ & Ho).
  exact (Ho i Hi).
Qed.

Lemma other_tokens_hold_literals_witness :
  in_other_tokens 6
    (snd (get_cell_input literal_config scenario_column ["brazil"] 5))
  /\ 5 <= 6
  /\ exists token,
       nth_error
         (fst (get_cell_input literal_config scenario_column ["brazil"] 5))
         (6 - 5) = Some token
       /\ In token (cell_input_template literal_config)
       /\ ~ is_marker token.
Proof.
  assert (H : in_other_tokens 6
                (snd (get_cell_input literal_config scenario_column
                        ["brazil"] 5))) by (left; reflexivity).
  split; [exact H|].
  exact (other_tokens_hold_literals literal_config scenario_column
           ["brazil"] 5 6 H).
Defined.

(** ** The row of the table *)

Lemma get_cell_input_tokens_offset (config : TableBertConfig)
    (column : Column) (cell_value : list string) (off : nat) :
  fst (get_cell_input config column cell_value off)
  = fst (get_cell_input config column cell_value 0).
Proof.
  unfold get_cell_input.
  pose proof (cell_fold_shift column cell_value 0 off
                (cell_input_template config) []
                (mkSpanMap (0, 1) None None None None None)) as H.
  unfold shift_span_map at 1 in H. unfold shift_span at 1 in H.
  simpl in H. replace (S off) with (off + 1) in H by lia.
  rewrite H.
  destruct (fold_left (cell_step column cell_value 0) _ _) as [input sm].
  reflexivity.
Qed.

Lemma table_loop_row (config : TableBertConfig) (budget : Z)
    (columns : list Column) (row row' : list string)
    (spans spans' : Dict.t SpanMap) (start : nat) :
  table_loop config budget columns row spans start = (row', spans') ->
  row' = row ++ row_of config
                  (firstn (included_columns config budget columns
                             (length row)) columns).
Proof.
  revert row spans start.
  induction columns as [|column rest IH]; intros row spans start H;
    simpl in H.
  - injection H as <- _. simpl. symmetry. apply app_nil_r.
  - pose proof (get_cell_input_tokens_offset config column
                  (Py.slice_to (sample_value_tokens column)
                     (max_cell_len config)) start) as Hoff.
    destruct (get_cell_input config column _ start) as [cell sm].
    simpl in Hoff. cbn [included_columns].
    fold (truncated_value config column) in Hoff.
    fold (cell_tokens config column) in Hoff. subst cell.
    rewrite length_app in H. simpl in H.
    destruct (_ >? budget)%Z.
    + injection H as <- _. simpl. symmetry. apply app_nil_r.
    + apply IH in H. rewrite length_app, length_app in H. simpl in H.
      rewrite H. cbn [firstn row_of flat_map]. rewrite <- !app_assoc.
      reflexivity.
Qed.

Lemma last_app_nonempty {A} (l m : list A) :
  m <> [] -> Py.last (l ++ m) = Py.last m.
Proof.
  intros Hm. unfold Py.last. rewrite rev_app_distr.
  destruct (rev m) as [|x t] eqn:E; [|reflexivity].
  apply (f_equal (@rev A)) in E. rewrite rev_involutive in E.
  simpl in E. contradiction.
Qed.

Lemma row_of_last (config : TableBertConfig) (columns : list Column) :
  columns <> [] ->
  Py.last (row_of config columns) = Ok (column_delimiter config).
Proof.
  induction columns as [|c rest IH]; [contradiction|]. intros _.
  unfold row_of. cbn [flat_map]. fold (row_of config rest).
  destruct rest as [|c' rest'].
  - simpl. rewrite app_nil_r. apply last_app_singleton.
  - rewrite last_app_nonempty; [apply IH; discriminate|].
    unfold row_of. cbn [flat_map].
    destruct (cell_tokens config c'); discriminate.
Qed.

Lemma included_fits (config : TableBertConfig) (budget : Z)
    (columns : list Column) (used : nat) :
  0 < included_columns config budget columns used ->
  (Z.of_nat (used + length (row_of config
                              (firstn (included_columns config budget
                                         columns used) columns)))
   <= budget)%Z.
Proof.
  revert used. induction columns as [|c rest IH]; intros used H;
    cbn [included_columns] in *; [lia|].
  destruct (Z.gtb_spec (Z.of_nat (used + (length (cell_tokens config c) + 1)))
              budget) as [Hgt|Hle]; [lia|].
  cbn [firstn row_of flat_map]. fold (row_of config).
  rewrite !length_app. simpl length.
  destruct (included_columns config budget rest
              (used + (length (cell_tokens config c) + 1))) as [|n] eqn:En.
  - simpl. lia.
  - specialize (IH (used + (length (cell_tokens config c) + 1))).
    rewrite En in IH. specialize (IH ltac:(lia)). unfold row_of in IH. lia.
Qed.

(** What [get_input] does, in closed form. *)
Lemma get_input_exact (MAX : Z) (config : TableBertConfig)
    (context : list string) (table : Table) :
  get_input MAX config context table
  = match included MAX config context table with
    | [] => Raise IndexError
    | _ :: _ =>
        let row := final_row MAX config context table in
        let spans :=
          snd (table_loop config (table_budget MAX context) (header table)
                 [] [] (table_start config context)) in
        if context_first config then
          Ok (mkInstance
                (["[CLS]"] ++ context ++ ["[SEP]"] ++ row ++ ["[SEP]"])
                (repeat 0 (length context + 2) ++ repeat 1 (length row + 1))
                spans (1 + length context)
                (Py.range 0 (1 + length context)))
        else
          Ok (mkInstance
                (["[CLS]"] ++ row ++ ["[SEP]"] ++ context ++ ["[SEP]"])
                (repeat 0 (length row + 2) ++ repeat 1 (length context + 1))
                spans (1 + length context)
                (Py.range (length row + 1)
                   (length row + 1 + 1 + length context + 1)))
    end.
Proof.
  unfold get_input, final_row, included, table_start.
  fold (table_budget MAX context).
  destruct (table_loop config (table_budget MAX context) (header table) [] []
              (if context_first config then length context + 2 else 1))
    as [row0 spans] eqn:Eloop.
  pose proof (table_loop_row _ _ _ _ _ _ _ _ Eloop) as Hrow.
  simpl in Hrow. subst row0.
  destruct (firstn _ (header table)) as [|c cols] eqn:Ef.
  - reflexivity.
  - rewrite row_of_last by discriminate.
    rewrite String.eqb_refl. cbv zeta. reflexivity.
Qed.

Lemma included_nil_iff (MAX : Z) (config : TableBertConfig)
    (context : list string) (table : Table) :
  included MAX config context table <> []
  <-> exists column rest,
        header table = column :: rest
        /\ (Z.of_nat (length (cell_tokens config column) + 1)
            <= table_budget MAX context)%Z.
Proof.
  unfold included. destruct (header table) as [|c rest]; simpl.
  - split; [contradiction | intros (c & r & E & _); discriminate].
  - destruct (Z.gtb_spec
                (Z.of_nat (length (cell_tokens config c) + 1))
                (table_budget MAX context)) as [Hgt|Hle]; simpl.
    + split; [contradiction|]. intros (c' & r & E & Hfit).
      injection E as <- <-. lia.
    + split; [|discriminate]. intros _. exists c, rest. auto.
Qed.

(** X4. [get_input] returns an instance exactly when the table has a
    first column and that column, with its delimiter, fits in the table
    budget; otherwise it raises [IndexError], and it raises nothing else. *)
Theorem get_input_succeeds_iff (MAX : Z) (config : TableBertConfig)
    (context : list string) (table : Table) :
  ((exists inst, get_input MAX config context table = Ok inst)
   <-> exists column rest,
         header table = column :: rest
         /\ (Z.of_nat (length (cell_tokens config column) + 1)
             <= table_budget MAX context)%Z)
  /\ forall e, get_input MAX config context table = Raise e ->
               e = IndexError.
Proof.
  rewrite get_input_exact. rewrite <- included_nil_iff.
  destruct (included MAX config context table) as [|c cols].
  - split; [split|].
    + intros (inst & H). discriminate.
    + intros H. contradiction.
    + intros e H. injection H as <-. reflexivity.
  - cbv zeta. split; [split|].
    + intros _. discriminate.
    + intros _. destruct (context_first config); eexists; reflexivity.
    + intros e H. destruct (context_first config); discriminate.
Qed.

Lemma get_input_succeeds_iff_witness :
  (exists column rest,
      header scenario_table = column :: rest
      /\ (Z.of_nat (length (cell_tokens scenario_config column) + 1)
          <= table_budget 512 scenario_context)%Z)
  /\ exists inst,
       get_input 512 scenario_config scenario_context scenario_table
       = Ok inst.
Proof.
  assert (H : exists column rest,
             header scenario_table = column :: rest
             /\ (Z.of_nat (length (cell_tokens scenario_config column) + 1)
                 <= table_budget 512 scenario_context)%Z).
  { exists scenario_column, []. split; [reflexivity|].
    vm_compute. discriminate. }
  split; [exact H|].
  exact (proj2 (proj1 (get_input_succeeds_iff 512 scenario_config
                         scenario_context scenario_table)) H).
Defined.

Lemma row_of_removelast (config : TableBertConfig) (columns : list Column) :
  columns <> [] ->
  removelast (row_of config columns) ++ [column_delimiter config]
  = row_of config columns.
Proof.
  intros Hne. pose proof (row_of_last config columns Hne) as Hlast.
  unfold Py.last in Hlast.
  destruct (rev (row_of config columns)) as [|x t] eqn:E; [discriminate|].
  injection Hlast as ->.
  apply (f_equal (@rev string)) in E. rewrite rev_involutive in E.
  simpl in E. rewrite E. rewrite removelast_last. reflexivity.
Qed.

(** X5. The sequence [get_input] returns holds whole columns only: the
    included columns are a non-empty prefix of the header, and the table
    part of the sequence is their cells, each followed by the column
    delimiter except the last. *)
Theorem get_input_tokens (MAX : Z) (config : TableBertConfig)
    (context : list string) (table : Table) (inst : Instance) :
  get_input MAX config context table = Ok inst ->
  let columns := included MAX config context table in
  let row := final_row MAX config context table in
  columns <> []
  /\ (exists rest, header table = columns ++ rest)
  /\ row ++ [column_delimiter config]
     = flat_map (fun column =>
                   cell_tokens config column ++ [column_delimiter config])
         columns
  /\ tokens inst
     = if context_first config
       then ["[CLS]"] ++ context ++ ["[SEP]"] ++ row ++ ["[SEP]"]
       else ["[CLS]"] ++ row ++ ["[SEP]"] ++ context ++ ["[SEP]"].
Proof.
  rewrite get_input_exact. cbv zeta.
  destruct (included MAX config context table) as [|c cols] eqn:Ei;
    [discriminate|].
  intros H. split; [discriminate|]. split; [|split].
  - exists (skipn (included_columns config (table_budget MAX context)
                     (header table) 0) (header table)).
    rewrite <- Ei. unfold included. symmetry. apply firstn_skipn.
  - unfold final_row. rewrite Ei. apply row_of_removelast. discriminate.
  - destruct (context_first config); injection H as <-; reflexivity.
Qed.

Lemma get_input_tokens_witness :
  get_input 512 column_strategy_config ["q"]
    (mkTable "fake_table" four_columns)
  = Ok (mkInstance four_column_tokens
          (repeat 0 3 ++ repeat 1 16)
          (snd (table_loop column_strategy_config (table_budget 512 ["q"])
                  four_columns [] []
                  (table_start column_strategy_config ["q"])))
          2 [0; 1])
  /\ included 512 column_strategy_config ["q"]
       (mkTable "fake_table" four_columns) <> [].
Proof.
  assert (H : get_input 512 column_strategy_config ["q"]
                (mkTable "fake_table" four_columns)
              = Ok (mkInstance four_column_tokens
                      (repeat 0 3 ++ repeat 1 16)
                      (snd (table_loop column_strategy_config
                              (table_budget 512 ["q"]) four_columns [] []
                              (table_start column_strategy_config ["q"])))
                      2 [0; 1])) by (vm_compute; reflexivity).
  split; [exact H|].
  exact (proj1 (get_input_tokens _ _ _ _ _ H)).
Defined.

(** X6. The sequence [get_input] returns is shorter than the length
    budget: with [n] tokens of context and a row of [r] tokens it has
    [n + r + 3] tokens, and that is below [MAX_BERT_INPUT_LENGTH]. *)
Theorem get_input_within_budget (MAX : Z) (config : TableBertConfig)
    (context : list string) (table : Table) (inst : Instance) :
  get_input MAX config context table = Ok inst ->
  length (tokens inst)
  = length context + length (final_row MAX config context table) + 3
  /\ (Z.of_nat (length (tokens inst)) < MAX)%Z.
Proof.
  rewrite get_input_exact. cbv zeta.
  destruct (included MAX config context table) as [|c cols] eqn:Ei;
    [discriminate|].
  intros H.
  assert (Hfit : (Z.of_nat (length (row_of config (c :: cols)))
                  <= table_budget MAX context)%Z).
  { rewrite <- Ei. unfold included.
    apply (included_fits config (table_budget MAX context) (header table) 0).
    unfold included in Ei.
    destruct (included_columns config (table_budget MAX context)
                (header table) 0); [discriminate | lia]. }
  assert (Hrow : length (row_of config (c :: cols))
                 = length (final_row MAX config context table) + 1).
  { unfold final_row. rewrite Ei.
    rewrite <- (row_of_removelast config (c :: cols)) at 1 by discriminate.
    rewrite length_app. reflexivity. }
  assert (Hlen : length (tokens inst)
                 = length context
                   + length (final_row MAX config context table) + 3).
  { destruct (context_first config); injection H as <-; simpl;
      rewrite !length_app; simpl; rewrite ?length_app; simpl; lia. }
  split; [exact Hlen|]. unfold table_budget in Hfit. lia.
Qed.

Lemma get_input_within_budget_witness :
  get_input 512 scenario_config scenario_context scenario_table
  = Ok scenario_instance
  /\ (Z.of_nat (length (tokens scenario_instance)) < 512)%Z.
Proof.
  split; [reflexivity|].
  exact (proj2 (get_input_within_budget 512 scenario_config scenario_context
                  scenario_table scenario_instance eq_refl)).
Defined.

(** ** Where the cells lie in the sequence *)

Lemma dict_set_In_key {V} (d : Dict.t V) (k k' : string) (v v' : V) :
  In (k', v') (Dict.set d k v) -> (k' = k /\ v' = v) \/ In (k', v') d.
Proof.
  induction d as [|[k0 v0] rest IH]; simpl.
  - intros [H|[]]. injection H as <- <-. auto.
  - destruct (String.eqb_spec k0 k) as [->|Hne]; simpl.
    + intros [H|H]; [injection H as <- <-; auto | auto].
    + intros [H|H]; [auto|]. destruct (IH H); auto.
Qed.

Lemma entry_located_app (config : TableBertConfig) (columns : list Column)
    (start : nat) (row more : list string) (kv : string * SpanMap) :
  entry_located config columns start row kv ->
  entry_located config columns start (row ++ more) kv.
Proof.
  intros (c & off & Hin & Hname & Hle & Hsm & Hlt & Hs).
  exists c, off. rewrite length_app.
  repeat split; try assumption; try lia.
  rewrite slice_app_l by lia. exact Hs.
Qed.

Lemma table_loop_located (config : TableBertConfig) (all : list Column)
    (budget : Z) (columns : list Column) (row row' : list string)
    (spans spans' : Dict.t SpanMap) (start0 start : nat) :
  table_loop config budget columns row spans start = (row', spans') ->
  start = start0 + length row ->
  incl columns all ->
  Forall (entry_located config all start0 row) spans ->
  Forall (entry_located config all start0 row') spans'.
Proof.
  revert row spans start.
  induction columns as [|column rest IH];
    intros row spans start H Hstart Hincl HF; simpl in H.
  - injection H as <- <-. exact HF.
  - pose proof (get_cell_input_tokens_offset config column
                  (Py.slice_to (sample_value_tokens column)
                     (max_cell_len config)) start) as Hoff.
    fold (truncated_value config column) in Hoff, H.
    fold (cell_tokens config column) in Hoff.
    destruct (get_cell_input config column (truncated_value config column)
                start) as [cell sm] eqn:Ecell.
    simpl in Hoff. subst cell.
    destruct (_ >? budget)%Z.
    + injection H as <- <-. exact HF.
    + apply IH in H; [exact H | rewrite !length_app; simpl; lia | |].
      * intros x Hx. apply Hincl. right. exact Hx.
      * apply Forall_forall. intros [k v] Hin.
        apply dict_set_In_key in Hin. destruct Hin as [[-> ->]|Hin].
        -- exists column, start. simpl. rewrite Ecell, !length_app. simpl.
           split; [apply Hincl; left; reflexivity|].
           split; [reflexivity|]. split; [lia|]. split; [reflexivity|].
           split; [lia|].
           replace (start - start0 + length (cell_tokens config column))
             with (length row + length (cell_tokens config column)) by lia.
           replace (start - start0) with (length row + 0) by lia.
           rewrite slice_app_r, slice_app_l by lia.
           apply slice_all.
        -- apply entry_located_app.
           exact (proj1 (Forall_forall _ _) HF _ Hin).
Qed.

(** An index range within a located cell reads the same in the sequence
    [pre ++ removelast row ++ post] as in the cell. *)
Lemma located_slice (config : TableBertConfig) (column : Column)
    (pre row post : list string) (off a b : nat) :
  length pre <= off ->
  off + length (cell_tokens config column) < length pre + length row ->
  slice row (off - length pre)
    (off - length pre + length (cell_tokens config column))
  = cell_tokens config column ->
  off <= a -> a <= b -> b <= off + length (cell_tokens config column) ->
  slice (pre ++ removelast row ++ post) a b
  = slice (cell_tokens config column) (a - off) (b - off).
Proof.
  intros Hpre Hend Hcell Ha Hab Hb.
  replace a with (length pre + (a - length pre)) at 1 by lia.
  replace b with (length pre + (b - length pre)) at 1 by lia.
  rewrite slice_app_r.
  rewrite slice_app_l by (rewrite removelast_length; lia).
  rewrite removelast_firstn_len, slice_firstn by lia.
  rewrite <- Hcell at 1.
  rewrite slice_slice by lia. f_equal; lia.
Qed.

Lemma get_input_located (MAX : Z) (config : TableBertConfig)
    (context : list string) (table : Table) (inst : Instance) :
  get_input MAX config context table = Ok inst ->
  exists pre post,
    tokens inst
    = pre ++ removelast (row_of config (included MAX config context table))
        ++ post
    /\ length pre = table_start config context
    /\ Forall (entry_located config (header table)
                 (table_start config context)
                 (row_of config (included MAX config context table)))
         (column_spans inst).
Proof.
  rewrite get_input_exact. cbv zeta.
  destruct (included MAX config context table) as [|c cols] eqn:Ei;
    [discriminate|].
  intros H.
  destruct (table_loop config (table_budget MAX context) (header table) [] []
              (table_start config context)) as [row0 spans] eqn:Eloop.
  pose proof (table_loop_row _ _ _ _ _ _ _ _ Eloop) as Hrow.
  simpl in Hrow. fold (included MAX config context table) in Hrow.
  rewrite Ei in Hrow. subst row0.
  pose proof (table_loop_located config (header table) _ _ _ _ _ _
                (table_start config context) _ Eloop) as Hloc.
  specialize (Hloc ltac:(simpl; lia) (incl_refl _) (Forall_nil _)).
  unfold final_row in H. rewrite Ei in H. unfold table_start in *.
  destruct (context_first config); injection H as <-;
    cbn [tokens column_spans].
  - exists ("[CLS]" :: context ++ ["[SEP]"]), ["[SEP]"].
    split; [cbn [app]; rewrite <- (app_assoc context); reflexivity|].
    split; [simpl; rewrite length_app; simpl; lia | exact Hloc].
  - exists ["[CLS]"], ("[SEP]" :: context ++ ["[SEP]"]).
    split; [reflexivity|]. split; [reflexivity | exact Hloc].
Qed.

(** X7. Cutting the returned sequence at the spans recorded under a
    column name gives back a header column of that name: its name tokens
    at [column_name], its truncated value tokens at [value], its type tag
    at [type], and its whole cell at [whole_span]. *)
Theorem column_spans_round_trip (MAX : Z) (config : TableBertConfig)
    (context : list string) (table : Table) (inst : Instance)
    (key : string) (span : SpanMap) :
  get_input MAX config context table = Ok inst ->
  In (key, span) (Dict.items (column_spans inst)) ->
  exists column,
    In column (header table)
    /\ name column = key
    /\ forall a b,
         (span_column_name span = Some (a, b) ->
          slice (tokens inst) a b = name_tokens column)
         /\ (span_value span = Some (a, b) ->
             slice (tokens inst) a b
             = Py.slice_to (sample_value_tokens column)
                 (max_cell_len config))
         /\ (span_type span = Some (a, b) ->
             slice (tokens inst) a b = [type column])
         /\ (span_whole_span span = Some (a, b) ->
             slice (tokens inst) a b = cell_tokens config column).
Proof.
  intros Hget Hin. unfold Dict.items in Hin.
  destruct (get_input_located _ _ _ _ _ Hget)
    as (pre & post & Htok & Hpre & Hloc).
  pose proof (proj1 (Forall_forall _ _) Hloc _ Hin)
    as (column & off & Hc & Hname & Hle & Hsm & Hlt & Hs).
  simpl in Hname, Hsm. exists column. split; [exact Hc|].
  split; [exact Hname|]. intros a b.
  pose proof (get_cell_input_sliced config column
                (truncated_value config column) off) as Hsl.
  pose proof (get_cell_input_wf config column
                (truncated_value config column) off) as Hwf.
  cbv zeta in Hwf.
  pose proof (get_cell_input_tokens_offset config column
                (truncated_value config column) off) as Hoff.
  fold (cell_tokens config column) in Hoff.
  destruct (get_cell_input config column (truncated_value config column)
              off) as [cell sm] eqn:Ecell.
  simpl in Hsm, Hoff, Hsl, Hwf. subst span cell.
  destruct Hsl as (Hcn & Hv & Ht & _).
  destruct Hwf as ((Hw & _) & Hlo & Hhi).
  rewrite Htok. rewrite <- Hpre in Hle, Hlt, Hs.
  repeat split; intros E.
  - destruct (Hcn a b E) as (H1 & H2 & H3 & H4).
    rewrite (located_slice config column pre _ post off a b) by assumption.
    exact H4.
  - destruct (Hv a b E) as (H1 & H2 & H3 & H4).
    rewrite (located_slice config column pre _ post off a b) by assumption.
    exact H4.
  - destruct (Ht a b E) as (H1 & H2 & H3 & H4).
    rewrite (located_slice config column pre _ post off a b) by assumption.
    exact H4.
  - rewrite Hw, Hlo, Hhi in E. injection E as <- <-.
    rewrite (located_slice config column pre _ post off)
      by first [assumption | lia].
    rewrite Nat.sub_diag.
    replace (off + length (cell_tokens config column) - off)
      with (length (cell_tokens config column)) by lia.
    apply slice_all.
Qed.

Lemma column_spans_round_trip_witness :
  get_input 512 scenario_config scenario_context scenario_table
  = Ok scenario_instance
  /\ In ("country"%string, scenario_span)
       (Dict.items (column_spans scenario_instance))
  /\ exists column,
       In column (header scenario_table)
       /\ name column = "country"%string
       /\ forall a b,
            (span_column_name scenario_span = Some (a, b) ->
             slice (tokens scenario_instance) a b = name_tokens column)
            /\ (span_value scenario_span = Some (a, b) ->
                slice (tokens scenario_instance) a b
                = Py.slice_to (sample_value_tokens column)
                    (max_cell_len scenario_config))
            /\ (span_type scenario_span = Some (a, b) ->
                slice (tokens scenario_instance) a b = [type column])
            /\ (span_whole_span scenario_span = Some (a, b) ->
                slice (tokens scenario_instance) a b
                = cell_tokens scenario_config column).
Proof.
  assert (H1 : get_input 512 scenario_config scenario_context scenario_table
               = Ok scenario_instance) by reflexivity.
  assert (H2 : In ("country"%string, scenario_span)
                 (Dict.items (column_spans scenario_instance)))
    by (left; reflexivity).
  split; [exact H1|]. split; [exact H2|].
  exact (column_spans_round_trip 512 scenario_config scenario_context
           scenario_table scenario_instance "country" scenario_span H1 H2).
Defined.

(** ** The keys of [column_spans] *)

Lemma dict_get_set_same {V} (d : Dict.t V) (k : string) (v : V) :
  Dict.get (Dict.set d k v) k = Some v.
Proof.
  induction d as [|[k0 v0] rest IH]; simpl.
  - rewrite String.eqb_refl. reflexivity.
  - destruct (String.eqb_spec k0 k) as [->|Hne]; simpl.
    + rewrite String.eqb_refl. reflexivity.
    + destruct (String.eqb_spec k0 k); [contradiction | exact IH].
Qed.

Lemma dict_get_set_other {V} (d : Dict.t V) (k k' : string) (v : V) :
  k' <> k -> Dict.get (Dict.set d k v) k' = Dict.get d k'.
Proof.
  intros Hne. induction d as [|[k0 v0] rest IH]; simpl.
  - destruct (String.eqb_spec k k'); [congruence | reflexivity].
  - destruct (String.eqb_spec k0 k) as [->|Hk]; simpl.
    + destruct (String.eqb_spec k k'); [congruence | reflexivity].
    + destruct (String.eqb_spec k0 k'); [reflexivity | exact IH].
Qed.

Lemma dict_set_keys_In {V} (d : Dict.t V) (k k' : string) (v : V) :
  In k' (map fst (Dict.set d k v)) <-> k' = k \/ In k' (map fst d).
Proof.
  induction d as [|[k0 v0] rest IH]; simpl.
  - intuition.
  - destruct (String.eqb_spec k0 k) as [->|Hk]; simpl.
    + intuition.
    + rewrite IH. intuition.
Qed.

Lemma dict_set_keys_NoDup {V} (d : Dict.t V) (k : string) (v : V) :
  NoDup (map fst d) -> NoDup (map fst (Dict.set d k v)).
Proof.
  induction d as [|[k0 v0] rest IH]; simpl; intros H.
  - constructor; [intros [] | constructor].
  - inversion H as [|? ? Hnin Hnd]; subst.
    destruct (String.eqb_spec k0 k) as [->|Hk]; simpl.
    + constructor; assumption.
    + constructor; [|apply IH; exact Hnd].
      rewrite dict_set_keys_In. intros [->|Hin]; contradiction.
Qed.

Lemma table_loop_key_set (config : TableBertConfig) (budget : Z)
    (columns : list Column) (row row' : list string)
    (spans spans' : Dict.t SpanMap) (start : nat) :
  table_loop config budget columns row spans start = (row', spans') ->
  NoDup (map fst spans) ->
  NoDup (map fst spans')
  /\ forall key,
       In key (map fst spans')
       <-> In key (map fst spans)
           \/ In key (map name
                        (firstn (included_columns config budget columns
                                   (length row)) columns)).
Proof.
  revert row spans start.
  induction columns as [|column rest IH]; intros row spans start H Hnd;
    simpl in H.
  - injection H as <- <-. split; [exact Hnd|]. simpl. intuition.
  - pose proof (get_cell_input_tokens_offset config column
                  (Py.slice_to (sample_value_tokens column)
                     (max_cell_len config)) start) as Hoff.
    fold (truncated_value config column) in Hoff, H.
    fold (cell_tokens config column) in Hoff.
    destruct (get_cell_input config column (truncated_value config column)
                start) as [cell sm].
    simpl in Hoff. subst cell. cbn [included_columns].
    rewrite length_app in H. simpl in H.
    destruct (_ >? budget)%Z.
    + injection H as <- <-. split; [exact Hnd|]. simpl. intuition.
    + apply IH in H; [|apply dict_set_keys_NoDup; exact Hnd].
      destruct H as [Hnd' Hkeys]. split; [exact Hnd'|].
      intros key. rewrite Hkeys, dict_set_keys_In.
      rewrite !length_app. simpl. intuition.
Qed.

(** X8. [column_spans] has one entry per distinct name of an included
    column: its keys are pairwise different, and they are exactly the names
    of the included columns. *)
Theorem column_spans_keys (MAX : Z) (config : TableBertConfig)
    (context : list string) (table : Table) (inst : Instance) :
  get_input MAX config context table = Ok inst ->
  NoDup (map fst (Dict.items (column_spans inst)))
  /\ forall key,
       In key (map fst (Dict.items (column_spans inst)))
       <-> In key (map name (included MAX config context table)).
Proof.
  intros H. apply get_input_inv in H.
  destruct H as (row0 & spans & last_token & Hloop & _ & -> & _).
  apply table_loop_key_set in Hloop; [|constructor].
  destruct Hloop as [Hnd Hkeys]. split; [exact Hnd|].
  intros key. unfold Dict.items. rewrite Hkeys.
  unfold included, table_budget. simpl. intuition.
Qed.

Lemma column_spans_keys_witness :
  get_input 512 scenario_config scenario_context scenario_table
  = Ok scenario_instance
  /\ NoDup (map fst (Dict.items (column_spans scenario_instance))).
Proof.
  split; [reflexivity|].
  exact (proj1 (column_spans_keys 512 scenario_config scenario_context
                  scenario_table scenario_instance eq_refl)).
Defined.

Lemma table_loop_last_wins (config : TableBertConfig) (budget : Z)
    (columns : list Column) (row row' : list string)
    (spans spans' : Dict.t SpanMap) (start : nat) :
  table_loop config budget columns row spans start = (row', spans') ->
  let cols :=
    firstn (included_columns config budget columns (length row)) columns in
  (forall key, ~ In key (map name cols) ->
               Dict.get spans' key = Dict.get spans key)
  /\ forall j column,
       nth_error cols j = Some column ->
       (forall j' column', j < j' -> nth_error cols j' = Some column' ->
                           name column' <> name column) ->
       Dict.get spans' (name column)
       = Some (snd (get_cell_input config column
                      (truncated_value config column)
                      (start + length (row_of config (firstn j cols))))).
Proof.
  revert row spans start.
  induction columns as [|column0 rest IH]; intros row spans start H;
    simpl in H.
  - injection H as <- <-. simpl. split; [reflexivity|].
    intros j c Hj. destruct j; discriminate.
  - pose proof (get_cell_input_tokens_offset config column0
                  (Py.slice_to (sample_value_tokens column0)
                     (max_cell_len config)) start) as Hoff.
    fold (truncated_value config column0) in Hoff, H.
    fold (cell_tokens config column0) in Hoff.
    destruct (get_cell_input config column0 (truncated_value config column0)
                start) as [cell sm] eqn:Ecell.
    simpl in Hoff. subst cell. cbn [included_columns].
    rewrite length_app in H. simpl in H.
    destruct (_ >? budget)%Z.
    + injection H as <- <-. simpl. split; [reflexivity|].
      intros j c Hj. destruct j; discriminate.
    + apply IH in H. rewrite !length_app in H. simpl in H.
      cbv zeta in H. destruct H as [Hother Hlast].
      set (cols' := firstn (included_columns config budget rest
                              (length row
                               + (length (cell_tokens config column0) + 1)))
                      rest) in *.
      cbn [firstn]. cbv zeta. split.
      * intros key Hnin. simpl in Hnin.
        rewrite Hother by tauto.
        apply dict_get_set_other. intros ->. tauto.
      * intros j c Hj Hlater. destruct j as [|j].
        -- simpl in Hj. injection Hj as <-.
           rewrite Hother.
           ++ rewrite dict_get_set_same. simpl.
              rewrite Nat.add_0_r, Ecell. reflexivity.
           ++ intros Hin. apply in_map_iff in Hin.
              destruct Hin as (c' & Hn & Hc').
              apply In_nth_error in Hc'. destruct Hc' as (j' & Hj').
              apply (Hlater (S j') c'); [lia | exact Hj' | exact Hn].
        -- simpl in Hj. rewrite (Hlast j c Hj).
           ++ cbn [firstn row_of flat_map]. fold (row_of config).
              rewrite !length_app. simpl.
              do 3 f_equal. unfold row_of. subst cols'. lia.
           ++ intros j' c' Hlt Hj'.
              apply (Hlater (S j') c'); [lia | exact Hj'].
Qed.

(** X9. When several included columns share a name, the entry under that
    name is the span map of the last of them: for an included column with
    no later included column of the same name, [column_spans] holds the
    span map of its cell at its own offset in the sequence. *)
Theorem duplicate_names_last_wins (MAX : Z) (config : TableBertConfig)
    (context : list string) (table : Table) (inst : Instance)
    (j : nat) (column : Column) :
  get_input MAX config context table = Ok inst ->
  let columns := included MAX config context table in
  nth_error columns j = Some column ->
  (forall j' column', j < j' -> nth_error columns j' = Some column' ->
                      name column' <> name column) ->
  Dict.get (column_spans inst) (name column)
  = Some (snd (get_cell_input config column (truncated_value config column)
                 (table_start config context
                  + length (row_of config (firstn j columns))))).
Proof.
  intros H. apply get_input_inv in H.
  destruct H as (row0 & spans & last_token & Hloop & _ & -> & _).
  apply table_loop_last_wins in Hloop. cbv zeta in Hloop.
  destruct Hloop as [_ Hlast]. cbv zeta. intros Hj Hlater.
  exact (Hlast j column Hj Hlater).
Qed.

Lemma duplicate_names_last_wins_witness :
  exists inst,
    get_input 512 scenario_config ["q"] duplicate_table = Ok inst
    /\ nth_error (included 512 scenario_config ["q"] duplicate_table) 1
       = Some year_as_text
    /\ Dict.get (column_spans inst) "year"
       = Some (snd (get_cell_input scenario_config year_as_text
                      (truncated_value scenario_config year_as_text)
                      (table_start scenario_config ["q"]
                       + length
                           (row_of scenario_config
                              (firstn 1
                                 (included 512 scenario_config ["q"]
                                    duplicate_table)))))).
Proof.
  assert (Hinc : included 512 scenario_config ["q"] duplicate_table
                 = [year_as_number; year_as_text])
    by (vm_compute; reflexivity).
  destruct (get_input 512 scenario_config ["q"] duplicate_table)
    as [inst|e] eqn:E; [|vm_compute in E; discriminate].
  exists inst. split; [reflexivity|].
  assert (H1 : nth_error (included 512 scenario_config ["q"] duplicate_table)
                 1 = Some year_as_text) by (rewrite Hinc; reflexivity).
  split; [exact H1|].
  apply (duplicate_names_last_wins 512 scenario_config ["q"] duplicate_table
           inst 1 year_as_text E H1).
  intros j' c' Hlt Hj'. rewrite Hinc in Hj'.
  destruct j' as [|[|j']]; try lia. destruct j'; discriminate.
Defined.

(** ** The tokens at the context candidates *)

Lemma map_nth_seq {A} (pre l post : list A) (d : A) :
  map (fun i => nth i (pre ++ l ++ post) d) (seq (length pre) (length l)) = l.
Proof.
  revert pre. induction l as [|x t IH]; intros pre; [reflexivity|].
  cbn [length seq map]. f_equal.
  - apply nth_middle.
  - specialize (IH (pre ++ [x])).
    rewrite length_app, <- app_assoc in IH. simpl in IH.
    replace (length pre + 1) with (S (length pre)) in IH by lia.
    exact IH.
Qed.

(** X10. The context candidates point at the context: reading the
    returned sequence at the candidate indices gives the context tokens
    when the context comes first, and the separating [SEP] followed by
    the context tokens when the table comes first. *)
Theorem context_candidates_tokens (MAX : Z) (config : TableBertConfig)
    (context : list string) (table : Table) (inst : Instance) :
  get_input MAX config context table = Ok inst ->
  map (fun i => nth i (tokens inst) ""%string)
    (context_candidates config inst)
  = if context_first config then context else "[SEP]"%string :: context.
Proof.
  intros H. apply get_input_inv in H.
  destruct H as (row0 & spans & last_token & _ & _ & _ & _ & H).
  cbv zeta in H. set (row := strip_delimiter config row0 last_token) in *.
  unfold context_candidates.
  destruct (context_first config); destruct H as (-> & _ & ->).
  - unfold Py.range. rewrite Nat.sub_0_r. cbn [seq tl Nat.add].
    change (["[CLS]"%string] ++ context ++ ["[SEP]"%string] ++ row
              ++ ["[SEP]"%string])
      with (["[CLS]"%string] ++ context
              ++ ("[SEP]"%string :: row ++ ["[SEP]"%string])).
    apply (map_nth_seq ["[CLS]"%string] context).
  - unfold Py.range.
    replace (length row + 1 + 1 + length context + 1 - (length row + 1))
      with (S (length context + 1)) by lia.
    rewrite removelast_seq.
    change (["[CLS]"%string] ++ row ++ ["[SEP]"%string] ++ context
              ++ ["[SEP]"%string])
      with (("[CLS]"%string :: row) ++ ("[SEP]"%string :: context)
              ++ ["[SEP]"%string]).
    replace (length row + 1) with (length ("[CLS]"%string :: row))
      by (simpl; lia).
    replace (length context + 1) with (length ("[SEP]"%string :: context))
      by (simpl; lia).
    apply map_nth_seq.
Qed.

Lemma context_candidates_tokens_witness :
  get_input 512 table_first_config scenario_context scenario_table
  = Ok table_first_instance
  /\ map (fun i => nth i (tokens table_first_instance) ""%string)
       (context_candidates table_first_config table_first_instance)
     = "[SEP]"%string :: scenario_context.
Proof.
  split; [reflexivity|].
  exact (context_candidates_tokens 512 table_first_config scenario_context
           scenario_table table_first_instance eq_refl).
Defined.

(** ** What the substitution loop writes *)

Lemma setitem_nth_error {A} (l l' : list A) (i : nat) (x : A) :
  Py.setitem l i x = Ok l' ->
  nth_error l' i = Some x
  /\ forall j, j <> i -> nth_error l' j = nth_error l j.
Proof.
  revert i l'. induction l as [|h t IH]; intros i l' H; simpl in H;
    [discriminate|].
  destruct i as [|i].
  - injection H as <-. split; [reflexivity|].
    intros [|j] Hj; [contradiction | reflexivity].
  - destruct (Py.setitem t i x) as [t'|] eqn:E; [|discriminate].
    injection H as <-. destruct (IH _ _ E) as [H1 H2].
    split; [exact H1|]. intros [|j] Hj; [reflexivity|].
    simpl. apply H2. lia.
Qed.

Lemma getitem_Ok {A} (l : list A) (i : nat) (x : A) (s s' : Rand.source) :
  Rand.lift (Py.getitem l i) s = Ok (x, s') -> nth_error l i = Some x.
Proof.
  intros H. apply lift_Ok in H. destruct H as [H _].
  unfold Py.getitem in H. destruct (nth_error l i); congruence.
Qed.

Lemma choice_In {A} (seq : list A) (x : A) (s s' : Rand.source) :
  Rand.choice seq s = Ok (x, s') -> In x seq.
Proof.
  unfold Rand.choice. destruct seq as [|y t]; [discriminate|].
  intros H. apply bind_Ok in H. destruct H as (j & s1 & _ & H).
  apply getitem_Ok in H. eapply nth_error_In. exact H.
Qed.

Section LoopFacts.

Variable vocab_list : list string.

(** One iteration of [mask_loop], taken apart. *)
Lemma mask_loop_step (index : nat) (rest : list nat)
    (tokens labels : list string) (s s' : Rand.source)
    (out labels' : list string) :
  mask_loop vocab_list (index :: rest) tokens labels s
  = Ok ((out, labels'), s') ->
  exists masked_token label tokens1 s1,
    (masked_token = "[MASK]"%string
     \/ nth_error tokens index = Some masked_token
     \/ In masked_token vocab_list)
    /\ nth_error tokens index = Some label
    /\ Py.setitem tokens index masked_token = Ok tokens1
    /\ mask_loop vocab_list rest tokens1 (labels ++ [label]) s1
       = Ok ((out, labels'), s').
Proof.
  intros H. simpl in H.
  apply bind_Ok in H. destruct H as (r & s1 & _ & H).
  apply bind_Ok in H. destruct H as (tok & s2 & Etok & H).
  apply bind_Ok in H. destruct H as (label & s3 & Elabel & H).
  apply bind_Ok in H. destruct H as (tokens1 & s4 & Eset & H).
  exists tok, label, tokens1, s4.
  apply getitem_Ok in Elabel.
  apply lift_Ok in Eset. destruct Eset as [Eset _].
  repeat split; try assumption.
  destruct (Qltb r (8 # 10)).
  - apply ret_Ok in Etok. destruct Etok as [-> _]. auto.
  - apply bind_Ok in Etok. destruct Etok as (r' & s5 & _ & Etok).
    destruct (Qltb r' (5 # 10)).
    + apply getitem_Ok in Etok. auto.
    + apply choice_In in Etok. auto.
Qed.

Lemma mask_loop_untouched (masked_indices : list nat)
    (tokens labels : list string) (s s' : Rand.source)
    (out labels' : list string) :
  mask_loop vocab_list masked_indices tokens labels s
  = Ok ((out, labels'), s') ->
  forall j, ~ In j masked_indices -> nth_error out j = nth_error tokens j.
Proof.
  revert tokens labels s. induction masked_indices as [|i t IH];
    intros tokens labels s H j Hj.
  - simpl in H. apply ret_Ok in H. destruct H as [H _].
    injection H as -> _. reflexivity.
  - apply mask_loop_step in H.
    destruct H as (tok & label & tokens1 & s1 & _ & _ & Eset & H).
    rewrite (IH _ _ _ H j) by (intros Hin; apply Hj; right; exact Hin).
    apply (setitem_nth_error _ _ _ _ Eset).
    intros ->. apply Hj. left. reflexivity.
Qed.

Lemma mask_loop_provenance (masked_indices : list nat)
    (tokens labels : list string) (s s' : Rand.source)
    (out labels' : list string) :
  mask_loop vocab_list masked_indices tokens labels s
  = Ok ((out, labels'), s') ->
  forall j token, nth_error out j = Some token ->
    token = "[MASK]"%string
    \/ nth_error tokens j = Some token
    \/ In token vocab_list.
Proof.
  revert tokens labels s. induction masked_indices as [|i t IH];
    intros tokens labels s H j token Hj.
  - simpl in H. apply ret_Ok in H. destruct H as [H _].
    injection H as -> _. auto.
  - apply mask_loop_step in H.
    destruct H as (tok & label & tokens1 & s1 & Htok & _ & Eset & H).
    destruct (IH _ _ _ H j token Hj) as [Hm|[Ho|Hv]]; auto.
    destruct (setitem_nth_error _ _ _ _ Eset) as [Hi Hother].
    destruct (Nat.eq_dec j i) as [->|Hne].
    + rewrite Hi in Ho. injection Ho as <-. exact Htok.
    + rewrite (Hother j Hne) in Ho. auto.
Qed.

Lemma mask_loop_labels (masked_indices : list nat)
    (tokens labels : list string) (s s' : Rand.source)
    (out labels' : list string) :
  mask_loop vocab_list masked_indices tokens labels s
  = Ok ((out, labels'), s') ->
  NoDup masked_indices ->
  exists originals,
    labels' = labels ++ originals
    /\ Forall2 (fun i label => nth_error tokens i = Some label)
         masked_indices originals.
Proof.
  revert tokens labels s. induction masked_indices as [|i t IH];
    intros tokens labels s H Hnd.
  - simpl in H. apply ret_Ok in H. destruct H as [H _].
    injection H as _ ->. exists []. rewrite app_nil_r. auto.
  - inversion Hnd as [|? ? Hnin Hnd']; subst.
    apply mask_loop_step in H.
    destruct H as (tok & label & tokens1 & s1 & _ & Hlabel & Eset & H).
    destruct (IH _ _ _ H Hnd') as (originals & -> & HF).
    exists (label :: originals). rewrite <- app_assoc. split; [reflexivity|].
    constructor; [exact Hlabel|].
    destruct (setitem_nth_error _ _ _ _ Eset) as [_ Hother].
    clear - HF Hother Hnin.
    induction HF as [|j lab t' o' Hj _ IHF]; constructor.
    + rewrite <- Hj. symmetry. apply Hother. intros ->.
      apply Hnin. left. reflexivity.
    + apply IHF. intros Hin. apply Hnin. right. exact Hin.
Qed.

End LoopFacts.

(** X11. Masking rewrites only the masked positions, and only with the
    mask marker, the original token or a token of the vocabulary: every
    token of the returned sequence is [MASK], a vocabulary token or the
    token that was there, and outside the masked positions it is the token
    that was there. *)
Theorem masked_tokens_provenance (config : TableBertConfig)
    (vocab_list tokens : list string) (context_indices : list nat)
    (column_indices : list (list nat)) (s s' : Rand.source)
    (out : list string) (positions : list nat) (labels : list string)
    (inf : Info) :
  create_masked_lm_predictions config vocab_list tokens context_indices
    column_indices s = Ok ((out, positions, labels, inf), s') ->
  (forall j, ~ In j positions -> nth_error out j = nth_error tokens j)
  /\ forall j token, nth_error out j = Some token ->
       token = "[MASK]"%string
       \/ nth_error tokens j = Some token
       \/ In token vocab_list.
Proof.
  intros H. apply create_masked_lm_predictions_inv in H.
  destruct H as (mc & n & cols & s1 & n' & s2 & _ & _ & Hl & _).
  split.
  - exact (mask_loop_untouched _ _ _ _ _ _ _ _ Hl).
  - exact (mask_loop_provenance _ _ _ _ _ _ _ _ Hl).
Qed.

Lemma masked_tokens_provenance_witness :
  create_masked_lm_predictions scenario_config small_vocab scenario_tokens
    [1; 2; 3] [[5; 6]] [1; 0; 2; 5; 3; 7]%N
  = Ok ((["[CLS]"; "[MASK]"; "many"; "medals"; "[SEP]"; "[MASK]"; "[MASK]";
          "brazil"; "[SEP]"],
         [1; 5; 6], ["how"; "country"; "text"], mkInfo 2 None 2 1 None), [])
  /\ forall j, ~ In j [1; 5; 6] ->
       nth_error
         ["[CLS]"; "[MASK]"; "many"; "medals"; "[SEP]"; "[MASK]"; "[MASK]";
          "brazil"; "[SEP]"]%string j
       = nth_error scenario_tokens j.
Proof.
  assert (H : create_masked_lm_predictions scenario_config small_vocab
                scenario_tokens [1; 2; 3] [[5; 6]] [1; 0; 2; 5; 3; 7]%N
              = Ok ((["[CLS]"; "[MASK]"; "many"; "medals"; "[SEP]"; "[MASK]";
                      "[MASK]"; "brazil"; "[SEP]"],
                     [1; 5; 6], ["how"; "country"; "text"],
                     mkInfo 2 None 2 1 None), []))
    by (vm_compute; reflexivity).
  split; [exact H|].
  exact (proj1 (masked_tokens_provenance _ _ _ _ _ _ _ _ _ _ _ H)).
Defined.

(** X12. When no position is masked twice, the labels are the original
    tokens at the masked positions, in the order of the positions. *)
Theorem labels_are_original_tokens (config : TableBertConfig)
    (vocab_list tokens : list string) (context_indices : list nat)
    (column_indices : list (list nat)) (s s' : Rand.source)
    (out : list string) (positions : list nat) (labels : list string)
    (inf : Info) :
  create_masked_lm_predictions config vocab_list tokens context_indices
    column_indices s = Ok ((out, positions, labels, inf), s') ->
  NoDup positions ->
  Forall2 (fun i label => nth_error tokens i = Some label) positions labels.
Proof.
  intros H Hnd. apply create_masked_lm_predictions_inv in H.
  destruct H as (mc & n & cols & s1 & n' & s2 & _ & _ & Hl & _).
  destruct (mask_loop_labels _ _ _ _ _ _ _ _ Hl Hnd) as (originals & -> & HF).
  exact HF.
Qed.

Lemma labels_are_original_tokens_witness :
  create_masked_lm_predictions scenario_config small_vocab scenario_tokens
    [1; 2; 3] [[5; 6]] [1; 0; 2; 5; 3; 7]%N
  = Ok ((["[CLS]"; "[MASK]"; "many"; "medals"; "[SEP]"; "[MASK]"; "[MASK]";
          "brazil"; "[SEP]"],
         [1; 5; 6], ["how"; "country"; "text"], mkInfo 2 None 2 1 None), [])
  /\ NoDup [1; 5; 6]
  /\ Forall2 (fun i label => nth_error scenario_tokens i = Some label)
       [1; 5; 6] ["how"; "country"; "text"]%string.
Proof.
  assert (H : create_masked_lm_predictions scenario_config small_vocab
                scenario_tokens [1; 2; 3] [[5; 6]] [1; 0; 2; 5; 3; 7]%N
              = Ok ((["[CLS]"; "[MASK]"; "many"; "medals"; "[SEP]"; "[MASK]";
                      "[MASK]"; "brazil"; "[SEP]"],
                     [1; 5; 6], ["how"; "country"; "text"],
                     mkInfo 2 None 2 1 None), []))
    by (vm_compute; reflexivity).
  assert (Hnd : NoDup [1; 5; 6]).
  { repeat constructor; simpl; intros Hin; intuition discriminate. }
  split; [exact H|]. split; [exact Hnd|].
  exact (labels_are_original_tokens _ _ _ _ _ _ _ _ _ _ _ H Hnd).
Defined.

(** ** How many positions, and whether any twice *)

(** X13. The prediction budget bounds the number of masked positions on
    every path but one: under ['column_token'], and whenever context
    tokens are masked, at most [max_predictions_per_seq] positions are
    masked; under ['column'] with the context skipped the whole selected
    columns are masked, which is at least [max_predictions_per_seq]
    positions. *)
Theorem masked_count_and_budget (config : TableBertConfig)
    (vocab_list tokens : list string) (context_indices : list nat)
    (column_indices : list (list nat)) (s s' : Rand.source)
    (out : list string) (positions : list nat) (labels : list string)
    (inf : Info) :
  create_masked_lm_predictions config vocab_list tokens context_indices
    column_indices s = Ok ((out, positions, labels, inf), s') ->
  (table_mask_strategy config = "column_token"
   \/ (0 < num_context_tokens_to_mask inf)%Z ->
   (Z.of_nat (length positions) <= max_predictions_per_seq config)%Z)
  /\ (table_mask_strategy config = "column" ->
      (num_context_tokens_to_mask inf <= 0)%Z ->
      (max_predictions_per_seq config <= Z.of_nat (length positions))%Z).
Proof.
  intros H. apply create_masked_lm_predictions_inv in H.
  destruct H as (mc & n & cols & s1 & n' & s2 & Hc & Hx & _ & ->).
  cbn [num_context_tokens_to_mask].
  apply mask_context_spec in Hx. destruct Hx as (Hn' & Hpos & Hskip).
  assert (Hreq : exists r,
             n' = Z.min (max_predictions_per_seq config - n) (Z.max 1 r)).
  { unfold context_quota, context_request, context_budget in Hn'.
    destruct (float_product (length context_indices)
                (masked_context_prob config)); [|discriminate].
    cbn [option_map] in Hn'. injection Hn' as <-. eauto. }
  destruct Hreq as (r & Hreq).
  split.
  - intros Hpath.
    destruct (Z.lt_ge_cases 0 n') as [Hp|Hn].
    + destruct (Hpos Hp) as (fc & rest & Hl & _ & Hperm).
      rewrite (Permutation_length Hperm), length_app.
      assert (Hmc : Z.of_nat (length mc) = n).
      { destruct (String.eqb_spec (table_mask_strategy config)
                    "column_token") as [Hs|Hs].
        - destruct (mask_columns_column_token _ _ _ _ _ _ _ Hs Hc)
            as (_ & Hlen & _). exact Hlen.
        - destruct (String.eqb_spec (table_mask_strategy config) "column")
            as [Hs'|Hs'].
          + destruct (mask_columns_column _ _ _ _ _ _ _ Hs' Hc)
              as (_ & Hlen & _). auto.
          + rewrite mask_columns_unknown in Hc by assumption.
            discriminate. }
      lia.
    + destruct Hpath as [Hs|Hp]; [|lia].
      rewrite (Hskip Hn).
      destruct (mask_columns_column_token _ _ _ _ _ _ _ Hs Hc)
        as (Hq & Hlen & _).
      unfold column_token_quota in Hq.
      destruct (float_product (length (concat column_indices))
                  (masked_column_prob config)); [|discriminate].
      cbn [option_map] in Hq. injection Hq as Hq. lia.
  - intros Hs Hn. rewrite (Hskip Hn).
    destruct (mask_columns_column _ _ _ _ _ _ _ Hs Hc) as (_ & Hlen & _).
    lia.
Qed.

Lemma masked_count_and_budget_witness :
  create_masked_lm_predictions column_strategy_config small_vocab
    four_column_tokens [1] four_column_candidates [3; 0; 1; 0]%N
  = Ok ((["[CLS]"; "q"; "[SEP]"; "[MASK]"; "[MASK]"; "va"; "[SEP]"; "b";
          "tb"; "vb"; "[SEP]"; "c"; "tc"; "vc"; "[SEP]"; "[MASK]"; "[MASK]";
          "vd"; "[SEP]"],
         [15; 16; 3; 4], ["d"; "td"; "a"; "ta"],
         mkInfo 8 (Some 2%Z) 4 0 None), [])
  /\ table_mask_strategy column_strategy_config = "column"%string
  /\ (num_context_tokens_to_mask (mkInfo 8 (Some 2%Z) 4 0 None) <= 0)%Z
  /\ (max_predictions_per_seq column_strategy_config
      <= Z.of_nat (length [15; 16; 3; 4]))%Z.
Proof.
  assert (H : create_masked_lm_predictions column_strategy_config small_vocab
                four_column_tokens [1] four_column_candidates [3; 0; 1; 0]%N
              = Ok ((["[CLS]"; "q"; "[SEP]"; "[MASK]"; "[MASK]"; "va";
                      "[SEP]"; "b"; "tb"; "vb"; "[SEP]"; "c"; "tc"; "vc";
                      "[SEP]"; "[MASK]"; "[MASK]"; "vd"; "[SEP]"],
                     [15; 16; 3; 4], ["d"; "td"; "a"; "ta"],
                     mkInfo 8 (Some 2%Z) 4 0 None), []))
    by (vm_compute; reflexivity).
  assert (H1 : table_mask_strategy column_strategy_config = "column"%string)
    by reflexivity.
  assert (H2 : (num_context_tokens_to_mask (mkInfo 8 (Some 2%Z) 4 0 None)
                <= 0)%Z) by (simpl; lia).
  split; [exact H|]. split; [exact H1|]. split; [exact H2|].
  exact (proj2 (masked_count_and_budget _ _ _ _ _ _ _ _ _ _ _ H) H1 H2).
Defined.

Lemma NoDup_app_disjoint {A} (l l' : list A) (a : A) :
  NoDup (l ++ l') -> In a l -> ~ In a l'.
Proof.
  induction l as [|x t IH]; simpl; intros Hnd Hin Hin'; [contradiction|].
  inversion Hnd as [|? ? Hx Hnd']; subst.
  destruct Hin as [->|Hin].
  - apply Hx. apply in_or_app. auto.
  - exact (IH Hnd' Hin Hin').
Qed.

Lemma NoDup_concat_nth {A} (l : list (list A)) (c : nat) (x : list A) :
  NoDup (concat l) -> nth_error l c = Some x -> NoDup x.
Proof.
  revert c. induction l as [|h t IH]; intros c Hnd Hc.
  - destruct c; discriminate.
  - simpl in Hnd. destruct c as [|c]; simpl in Hc.
    + injection Hc as <-. eapply NoDup_app_remove_r. exact Hnd.
    + apply (IH c); [eapply NoDup_app_remove_l; exact Hnd | exact Hc].
Qed.

Lemma concat_nth_disjoint {A} (l : list (list A)) (c c' : nat)
    (x y : list A) (e : A) :
  NoDup (concat l) ->
  nth_error l c = Some x -> nth_error l c' = Some y -> c <> c' ->
  In e x -> ~ In e y.
Proof.
  revert c c'. induction l as [|h t IH]; intros c c' Hnd Hc Hc' Hne Hx Hy.
  - destruct c; discriminate.
  - simpl in Hnd. destruct c as [|c]; destruct c' as [|c']; simpl in Hc, Hc'.
    + contradiction.
    + injection Hc as <-.
      apply (NoDup_app_disjoint _ _ e Hnd Hx).
      apply in_concat. exists y. split; [|exact Hy].
      eapply nth_error_In. exact Hc'.
    + injection Hc' as <-.
      apply (NoDup_app_disjoint _ _ e Hnd Hy).
      apply in_concat. exists x. split; [|exact Hx].
      eapply nth_error_In. exact Hc.
    + apply (IH c c'); try assumption; [|lia].
      eapply NoDup_app_remove_l. exact Hnd.
Qed.

Lemma NoDup_concat_selected {A} (l : list (list A)) (idxs : list nat)
    (sel : list (list A)) :
  NoDup (concat l) ->
  NoDup idxs ->
  Forall2 (fun c x => nth_error l c = Some x) idxs sel ->
  NoDup (concat sel).
Proof.
  intros Hnd Hidx HF. induction HF as [|c x idxs' sel' Hc HF' IH].
  - constructor.
  - inversion Hidx as [|? ? Hnin Hidx']; subst. simpl.
    apply NoDup_app.
    + exact (NoDup_concat_nth _ _ _ Hnd Hc).
    + apply IH. exact Hidx'.
    + intros e Hx Hin. apply in_concat in Hin.
      destruct Hin as (y & Hy & Hey).
      destruct (Forall2_In_right _ _ _ _ HF' Hy) as (c' & Hc'in & Hc').
      apply (concat_nth_disjoint l c c' x y e Hnd Hc Hc'); try assumption.
      intros <-. contradiction.
Qed.

Lemma Sorted_le_NoDup_lt (l : list nat) :
  Sorted le l -> NoDup l -> Sorted lt l.
Proof.
  induction 1 as [|x t Ht IH Hd]; intros Hnd; constructor.
  - apply IH. inversion Hnd. assumption.
  - inversion Hnd as [|? ? Hx _]; subst.
    destruct Hd as [|y t' Hle]; constructor.
    assert (x <> y) by (intros ->; apply Hx; left; reflexivity). lia.
Qed.

Lemma mask_columns_NoDup (config : TableBertConfig)
    (column_indices : list (list nat)) (s s' : Rand.source)
    (masked : list nat) (n : Z) (cols : option Z) :
  mask_columns config column_indices s = Ok ((masked, n, cols), s') ->
  NoDup (concat column_indices) -> NoDup masked.
Proof.
  intros H Hnd.
  destruct (String.eqb_spec (table_mask_strategy config) "column_token")
    as [Hs|Hs].
  - destruct (mask_columns_column_token _ _ _ _ _ _ _ Hs H)
      as (_ & _ & _ & rest & Hp).
    apply (Permutation_NoDup Hp) in Hnd.
    eapply NoDup_app_remove_r. exact Hnd.
  - destruct (String.eqb_spec (table_mask_strategy config) "column")
      as [Hs'|Hs'].
    + destruct (mask_columns_column _ _ _ _ _ _ _ Hs' H)
        as (_ & _ & ctm & sel & _ & Hctm & HF & ->).
      exact (NoDup_concat_selected _ _ _ Hnd Hctm HF).
    + rewrite mask_columns_unknown in H by assumption. discriminate.
Qed.

Lemma masked_positions_NoDup (config : TableBertConfig)
    (vocab_list tokens : list string) (context_indices : list nat)
    (column_indices : list (list nat)) (s s' : Rand.source)
    (out : list string) (positions : list nat) (labels : list string)
    (inf : Info) :
  create_masked_lm_predictions config vocab_list tokens context_indices
    column_indices s = Ok ((out, positions, labels, inf), s') ->
  NoDup (context_indices ++ concat column_indices) ->
  NoDup positions.
Proof.
  intros H Hnd. apply create_masked_lm_predictions_inv in H.
  destruct H as (mc & n & cols & s1 & n' & s2 & Hc & Hx & _ & _).
  pose proof (mask_columns_NoDup _ _ _ _ _ _ _ Hc
                (NoDup_app_remove_l _ _ Hnd)) as Hmc.
  pose proof (mask_columns_incl _ _ _ _ _ _ _ Hc) as Hincl.
  apply mask_context_spec in Hx. destruct Hx as (_ & Hp & Hskip).
  destruct (Z.lt_ge_cases 0 n') as [Hpos|Hneg].
  - destruct (Hp Hpos) as (fc & rest & _ & Hctx & Hperm).
    apply (Permutation_NoDup (Permutation_sym Hperm)).
    apply NoDup_app.
    + pose proof (NoDup_app_remove_r _ _ Hnd) as Hc'.
      apply (Permutation_NoDup Hctx) in Hc'.
      eapply NoDup_app_remove_r. exact Hc'.
    + exact Hmc.
    + intros a Ha Ha'.
      apply (NoDup_app_disjoint _ _ a Hnd).
      * eapply Permutation_in; [symmetry; exact Hctx|].
        apply in_or_app. auto.
      * apply Hincl. exact Ha'.
  - rewrite (Hskip Hneg). exact Hmc.
Qed.

(** X14. With duplicate-free pools that share no index, no position is
    masked twice; and on the paths that sort, the positions are strictly
    ascending. *)
Theorem positions_without_duplicates (config : TableBertConfig)
    (vocab_list tokens : list string) (context_indices : list nat)
    (column_indices : list (list nat)) (s s' : Rand.source)
    (out : list string) (positions : list nat) (labels : list string)
    (inf : Info) :
  create_masked_lm_predictions config vocab_list tokens context_indices
    column_indices s = Ok ((out, positions, labels, inf), s') ->
  NoDup (context_indices ++ concat column_indices) ->
  NoDup positions
  /\ (table_mask_strategy config = "column_token"
      \/ (0 < num_context_tokens_to_mask inf)%Z ->
      strictly_ascending positions).
Proof.
  intros H Hnd.
  pose proof (positions_ascending_on_sorted_paths _ _ _ _ _ _ _ _ _ _ _ H)
    as Hsorted.
  pose proof (masked_positions_NoDup _ _ _ _ _ _ _ _ _ _ _ H Hnd) as Hpos.
  split; [exact Hpos|].
  intros Hpath. unfold strictly_ascending.
  apply Sorted_le_NoDup_lt; [apply Hsorted; exact Hpath | exact Hpos].
Qed.

Lemma positions_without_duplicates_witness :
  create_masked_lm_predictions scenario_config small_vocab scenario_tokens
    [1; 2; 3] [[5; 6]] [1; 0; 2; 5; 3; 7]%N
  = Ok ((["[CLS]"; "[MASK]"; "many"; "medals"; "[SEP]"; "[MASK]"; "[MASK]";
          "brazil"; "[SEP]"],
         [1; 5; 6], ["how"; "country"; "text"], mkInfo 2 None 2 1 None), [])
  /\ NoDup ([1; 2; 3] ++ concat [[5; 6]])
  /\ NoDup [1; 5; 6].
Proof.
  assert (H : create_masked_lm_predictions scenario_config small_vocab
                scenario_tokens [1; 2; 3] [[5; 6]] [1; 0; 2; 5; 3; 7]%N
              = Ok ((["[CLS]"; "[MASK]"; "many"; "medals"; "[SEP]"; "[MASK]";
                      "[MASK]"; "brazil"; "[SEP]"],
                     [1; 5; 6], ["how"; "country"; "text"],
                     mkInfo 2 None 2 1 None), []))
    by (vm_compute; reflexivity).
  assert (Hnd : NoDup ([1; 2; 3] ++ concat [[5; 6]])).
  { repeat constructor; simpl; intros Hin; intuition discriminate. }
  split; [exact H|]. split; [exact Hnd|].
  exact (proj1 (positions_without_duplicates _ _ _ _ _ _ _ _ _ _ _ H Hnd)).
Defined.

(** ** What [create_pretraining_instance] assembles *)

(** X15. An instance of [create_pretraining_instance] is the instance of
    [get_input] after masking: the masked sequence has the length of the
    assembled one, [segment_a_length] is the length of the side with
    [CLS], both boundary tokens included, there is one label per masked
    position, [num_columns] counts the columns of the header (included or
    not), and the ids are the tokenizer's for the masked tokens and for the
    labels. *)
Theorem create_pretraining_instance_fields (MAX : Z)
    (config : TableBertConfig) (vocab_list : list string)
    (convert_tokens_to_ids : list string -> result (list Z))
    (context : list string) (header : list Column) (s s' : Rand.source)
    (out : PretrainingInstance) :
  create_pretraining_instance MAX config vocab_list convert_tokens_to_ids
    context header s = Ok (out, s') ->
  exists inst,
    get_input MAX config context (mkTable "fake_table" header) = Ok inst
    /\ length (masked_tokens out) = length (tokens inst)
    /\ segment_a_length out
       = (if context_first config then length context
          else length (final_row MAX config context
                         (mkTable "fake_table" header))) + 2
    /\ length (masked_lm_positions out) = length (masked_lm_labels out)
    /\ num_columns (info out) = Some (length header)
    /\ convert_tokens_to_ids (masked_tokens out) = Ok (token_ids out)
    /\ convert_tokens_to_ids (masked_lm_labels out)
       = Ok (masked_lm_label_ids out).
Proof.
  unfold create_pretraining_instance, create_pretraining_instance_with.
  intros H.
  apply bind_Ok in H. destruct H as (inst & s0 & Eget & H).
  apply lift_Ok in Eget. destruct Eget as [Eget ->].
  apply bind_Ok in H. destruct H as (pools & s1 & Epools & H).
  apply bind_Ok in H.
  destruct H as ([[[masked positions] labels] inf] & s2 & Emask & H).
  apply bind_Ok in H. destruct H as (ids & s3 & Eids & H).
  apply bind_Ok in H. destruct H as (label_ids & s4 & Elab & H).
  apply ret_Ok in H. destruct H as [-> _]. simpl.
  apply lift_Ok in Eids. destruct Eids as [Eids _].
  apply lift_Ok in Elab. destruct Elab as [Elab _].
  destruct (create_masked_lm_predictions_lengths _ _ _ _ _ _ _ _ _ _ _ Emask)
    as [Hlen Hlab].
  exists inst. split; [exact Eget|]. split; [exact Hlen|].
  split; [|auto].
  rewrite get_input_exact in Eget. cbv zeta in Eget.
  destruct (included MAX config context (mkTable "fake_table" header));
    [discriminate|].
  destruct (context_first config); injection Eget as <-; simpl;
    apply count_segment_a_blocks.
Qed.

Lemma create_pretraining_instance_fields_witness :
  create_pretraining_instance 512 scenario_config small_vocab zero_ids
    scenario_context [scenario_column] [2 ^ 52]%N
  = Ok (scenario_pretraining_instance, [])
  /\ exists inst,
       get_input 512 scenario_config scenario_context
         (mkTable "fake_table" [scenario_column]) = Ok inst
       /\ length (masked_tokens scenario_pretraining_instance)
          = length (tokens inst).
Proof.
  assert (H : create_pretraining_instance 512 scenario_config small_vocab
                zero_ids scenario_context [scenario_column] [2 ^ 52]%N
              = Ok (scenario_pretraining_instance, []))
    by (vm_compute; reflexivity).
  split; [exact H|].
  destruct (create_pretraining_instance_fields _ _ _ _ _ _ _ _ _ H)
    as (inst & Hget & Hlen & _).
  exists inst. split; assumption.
Defined.

(** ** Instances from an example *)

Lemma usable_values_In (col_values : list (option string)) (v : string) :
  In v (usable_values col_values)
  <-> In (Some v) col_values /\ v <> ""%string.
Proof.
  unfold usable_values. rewrite in_flat_map. split.
  - intros ([w|] & Hin & Hv); [|contradiction].
    destruct w as [|a w]; simpl in Hv; [contradiction|].
    destruct Hv as [<-|[]]. split; [exact Hin | discriminate].
  - intros [Hin Hne]. exists (Some v). split; [exact Hin|].
    destruct v as [|a w]; [contradiction | simpl; auto].
Qed.

Section ExampleFacts.

Variable MAX : Z.
Variable config : TableBertConfig.
Variable vocab_list : list string.
Variable convert_tokens_to_ids : list string -> result (list Z).
Variable tokenize : string -> list string.
Variable context_sampler : Dataset.Example -> list (list string).

Lemma sample_values_spec (column_data : list (list (option string)))
    (columns columns' : list Column) (col_idx : nat) (s s' : Rand.source) :
  sample_values tokenize column_data columns col_idx s = Ok (columns', s') ->
  Forall2 (fun column column' =>
             same_column column column'
             /\ exists v, sample_value_tokens column' = tokenize v
                          /\ v <> ""%string)
    columns columns'
  /\ forall j column',
       nth_error columns' j = Some column' ->
       exists col_values v,
         nth_error column_data (col_idx + j) = Some col_values
         /\ In (Some v) col_values /\ v <> ""%string
         /\ sample_value_tokens column' = tokenize v.
Proof.
  revert columns' col_idx s s'.
  induction columns as [|column rest IH]; intros columns' col_idx s s' H;
    simpl in H.
  - apply ret_Ok in H. destruct H as [-> _]. split; [constructor|].
    intros j c Hj. destruct j; discriminate.
  - apply bind_Ok in H. destruct H as (col_values & s1 & Eget & H).
    apply bind_Ok in H. destruct H as (v & s2 & Echoice & H).
    apply bind_Ok in H. destruct H as (rest' & s3 & Erest & H).
    apply ret_Ok in H. destruct H as [-> _].
    apply getitem_Ok in Eget. apply choice_In in Echoice.
    apply usable_values_In in Echoice. destruct Echoice as [Hin Hne].
    destruct (IH _ _ _ _ Erest) as [HF Hnth]. split.
    + constructor; [|exact HF]. split; [repeat split|].
      exists v. auto.
    + intros [|j] c Hj; simpl in Hj.
      * injection Hj as <-. exists col_values, v.
        rewrite Nat.add_0_r. auto.
      * destruct (Hnth j c Hj) as (vals & w & H1 & H2).
        exists vals, w. replace (col_idx + S j) with (S col_idx + j) by lia.
        auto.
Qed.

Lemma sample_values_raises (column_data : list (list (option string)))
    (columns : list Column) (col_idx j : nat) (s : Rand.source) :
  j < length columns ->
  column_unusable column_data (col_idx + j) ->
  sample_values tokenize column_data columns col_idx s = Raise IndexError.
Proof.
  revert col_idx j s.
  induction columns as [|column rest IH]; intros col_idx j s Hj Hbad;
    simpl in Hj; [lia|].
  simpl. unfold Rand.bind at 1. unfold Rand.lift, Py.getitem.
  destruct (nth_error column_data col_idx) as [col_values|] eqn:Eget;
    [|reflexivity].
  unfold Rand.bind at 1.
  destruct (Rand.choice (usable_values col_values) s) as [[v s1]|e] eqn:Ec.
  - destruct j as [|j].
    + unfold column_unusable in Hbad. rewrite Nat.add_0_r, Eget in Hbad.
      rewrite Hbad in Ec. discriminate.
    + unfold Rand.bind.
      rewrite (IH (S col_idx) j s1);
        [reflexivity | lia |].
      replace (S col_idx + j) with (col_idx + S j) by lia. exact Hbad.
  - apply choice_raises in Ec. subst e. reflexivity.
Qed.

Lemma instances_loop_spec (example : Dataset.Example)
    (contexts : list (list string)) (header header' : list Column)
    (instances instances' : list SourcedInstance) (s s' : Rand.source) :
  instances_loop MAX config vocab_list convert_tokens_to_ids tokenize
    example contexts header instances s = Ok ((instances', header'), s') ->
  Forall2 same_column header header'
  /\ exists new,
       instances' = instances ++ new
       /\ length new = length contexts
       /\ Forall (fun inst =>
                    instance_source inst = Dataset.source example
                    /\ num_columns (info (instance inst))
                       = Some (length header)) new.
Proof.
  revert header instances s.
  induction contexts as [|context rest IH]; intros header instances s H;
    simpl in H.
  - apply ret_Ok in H. destruct H as [H _]. injection H as -> ->.
    split.
    + induction header; constructor; [repeat split | assumption].
    + exists []. rewrite app_nil_r. auto.
  - apply bind_Ok in H. destruct H as (header1 & s1 & Esample & H).
    apply bind_Ok in H. destruct H as (inst & s2 & Einst & H).
    apply sample_values_spec in Esample. destruct Esample as [HF _].
    assert (Hsame : Forall2 same_column header header1).
    { clear - HF. induction HF as [|a b l l' [Hab _] _ IHF]; constructor;
        assumption. }
    assert (Hlen : length header1 = length header).
    { symmetry. eapply Forall2_length. exact Hsame. }
    unfold create_pretraining_instance, create_pretraining_instance_with
      in Einst.
    apply bind_Ok in Einst. destruct Einst as (ii & t0 & _ & Einst).
    apply bind_Ok in Einst. destruct Einst as (pools & t1 & _ & Einst).
    apply bind_Ok in Einst.
    destruct Einst as ([[[masked positions] labels] inf] & t2 & _ & Einst).
    apply bind_Ok in Einst. destruct Einst as (ids & t3 & _ & Einst).
    apply bind_Ok in Einst. destruct Einst as (label_ids & t4 & _ & Einst).
    apply ret_Ok in Einst. destruct Einst as [-> _].
    apply IH in H. destruct H as (Hsame' & new & -> & Hnew & Hall).
    split.
    + clear - Hsame Hsame'. revert header' Hsame'.
      induction Hsame as [|a b l l' Hab _ IHs]; intros header' Hs';
        inversion Hs' as [|? c ? l'' Hbc Hrest]; subst; constructor.
      * destruct Hab as (H1 & H2 & H3). destruct Hbc as (H4 & H5 & H6).
        repeat split; congruence.
      * apply IHs. exact Hrest.
    + eexists (_ :: new). rewrite <- app_assoc. split; [reflexivity|].
      split; [simpl; congruence|].
      constructor.
      * simpl. rewrite Hlen. auto.
      * rewrite <- Hlen. exact Hall.
Qed.

End ExampleFacts.

(** X16. When [get_pretraining_instances_from_example] returns, it
    returns one instance per context of the sampler; each carries the
    source of the example and the number of header columns; and the
    columns of the header keep their names, types and name tokens. *)
Theorem example_instances_shape (MAX : Z) (config : TableBertConfig)
    (vocab_list : list string)
    (convert_tokens_to_ids : list string -> result (list Z))
    (tokenize : string -> list string)
    (context_sampler : Dataset.Example -> list (list string))
    (example : Dataset.Example) (s s' : Rand.source)
    (instances : list SourcedInstance) (header' : list Column) :
  get_pretraining_instances_from_example MAX config vocab_list
    convert_tokens_to_ids tokenize context_sampler example s
  = Ok ((instances, header'), s') ->
  length instances = length (context_sampler example)
  /\ Forall (fun inst =>
               instance_source inst = Dataset.source example
               /\ num_columns (info (instance inst))
                  = Some (length (Dataset.header example))) instances
  /\ Forall2 same_column (Dataset.header example) header'.
Proof.
  unfold get_pretraining_instances_from_example. intros H.
  apply instances_loop_spec in H.
  destruct H as (Hsame & new & -> & Hlen & Hall).
  simpl. auto.
Qed.

(** X17. A column without a usable value (data missing, or every value
    [None] or empty) is noticed only when a context is sampled: without
    contexts the call returns no instance and leaves the header as it is;
    with a context it raises [IndexError]. *)
Theorem example_with_unusable_column (MAX : Z) (config : TableBertConfig)
    (vocab_list : list string)
    (convert_tokens_to_ids : list string -> result (list Z))
    (tokenize : string -> list string)
    (context_sampler : Dataset.Example -> list (list string))
    (example : Dataset.Example) (s : Rand.source) (col_idx : nat) :
  col_idx < length (Dataset.header example) ->
  column_unusable (Dataset.column_data example) col_idx ->
  (context_sampler example = [] ->
   get_pretraining_instances_from_example MAX config vocab_list
     convert_tokens_to_ids tokenize context_sampler example s
   = Ok (([], Dataset.header example), s))
  /\ (context_sampler example <> [] ->
      get_pretraining_instances_from_example MAX config vocab_list
        convert_tokens_to_ids tokenize context_sampler example s
      = Raise IndexError).
Proof.
  intros Hidx Hbad. unfold get_pretraining_instances_from_example. split.
  - intros ->. reflexivity.
  - intros Hne. destruct (context_sampler example) as [|context rest];
      [contradiction|].
    simpl. unfold Rand.bind at 1.
    rewrite (sample_values_raises tokenize _ _ 0 col_idx s Hidx Hbad).
    reflexivity.
Qed.

Lemma example_instances_shape_witness :
  get_pretraining_instances_from_example 512 scenario_config small_vocab
    zero_ids one_token one_context scenario_example [0; 2 ^ 52]%N
  = Ok (([mkSourcedInstance scenario_pretraining_instance "wiki"],
         [scenario_column]), [])
  /\ length [mkSourcedInstance scenario_pretraining_instance "wiki"]
     = length (one_context scenario_example).
Proof.
  assert (H : get_pretraining_instances_from_example 512 scenario_config
                small_vocab zero_ids one_token one_context scenario_example
                [0; 2 ^ 52]%N
              = Ok (([mkSourcedInstance scenario_pretraining_instance "wiki"],
                     [scenario_column]), []))
    by (vm_compute; reflexivity).
  split; [exact H|].
  exact (proj1 (example_instances_shape _ _ _ _ _ _ _ _ _ _ _ H)).
Defined.

Lemma example_with_unusable_column_witness :
  0 < length (Dataset.header empty_column_example)
  /\ column_unusable (Dataset.column_data empty_column_example) 0
  /\ one_context empty_column_example <> []
  /\ get_pretraining_instances_from_example 512 scenario_config small_vocab
       zero_ids one_token one_context empty_column_example [0; 2 ^ 52]%N
     = Raise IndexError.
Proof.
  assert (H1 : 0 < length (Dataset.header empty_column_example))
    by (simpl; lia).
  assert (H2 : column_unusable (Dataset.column_data empty_column_example) 0)
    by reflexivity.
  assert (H3 : one_context empty_column_example <> []) by discriminate.
  split; [exact H1|]. split; [exact H2|]. split; [exact H3|].
  exact (proj2 (example_with_unusable_column 512 scenario_config small_vocab
                  zero_ids one_token one_context empty_column_example
                  [0; 2 ^ 52]%N 0 H1 H2) H3).
Defined.

Lemma instances_loop_header (MAX : Z) (config : TableBertConfig)
    (vocab_list : list string)
    (convert_tokens_to_ids : list string -> result (list Z))
    (tokenize : string -> list string) (example : Dataset.Example)
    (contexts : list (list string)) (header header' : list Column)
    (instances instances' : list SourcedInstance) (s s' : Rand.source) :
  instances_loop MAX config vocab_list convert_tokens_to_ids tokenize
    example contexts header instances s = Ok ((instances', header'), s') ->
  contexts <> [] ->
  exists header0 s0 s1,
    sample_values tokenize (Dataset.column_data example) header0 0 s0
    = Ok (header', s1).
Proof.
  revert header instances s.
  induction contexts as [|context rest IH]; intros header instances s H Hne;
    [contradiction|].
  simpl in H.
  apply bind_Ok in H. destruct H as (header1 & s1 & Esample & H).
  apply bind_Ok in H. destruct H as (inst & s2 & _ & H).
  destruct rest as [|context' rest'].
  - simpl in H. apply ret_Ok in H. destruct H as [H _].
    injection H as _ <-. eauto.
  - apply IH in H; [exact H | discriminate].
Qed.

(** X18. Once a context has been sampled, every column of the header
    carries the tokens of a value of its own data column that is neither
    [None] nor empty. *)
Theorem sampled_values_from_data (MAX : Z) (config : TableBertConfig)
    (vocab_list : list string)
    (convert_tokens_to_ids : list string -> result (list Z))
    (tokenize : string -> list string)
    (context_sampler : Dataset.Example -> list (list string))
    (example : Dataset.Example) (s s' : Rand.source)
    (instances : list SourcedInstance) (header' : list Column)
    (j : nat) (column' : Column) :
  get_pretraining_instances_from_example MAX config vocab_list
    convert_tokens_to_ids tokenize context_sampler example s
  = Ok ((instances, header'), s') ->
  context_sampler example <> [] ->
  nth_error header' j = Some column' ->
  exists col_values v,
    nth_error (Dataset.column_data example) j = Some col_values
    /\ In (Some v) col_values
    /\ v <> ""%string
    /\ sample_value_tokens column' = tokenize v.
Proof.
  unfold get_pretraining_instances_from_example. intros H Hne Hj.
  apply instances_loop_header in H; [|exact Hne].
  destruct H as (header0 & s0 & s1 & Hsample).
  apply sample_values_spec in Hsample. destruct Hsample as [_ Hnth].
  exact (Hnth j column' Hj).
Qed.

Lemma sampled_values_from_data_witness :
  get_pretraining_instances_from_example 512 scenario_config small_vocab
    zero_ids one_token one_context scenario_example [0; 2 ^ 52]%N
  = Ok (([mkSourcedInstance scenario_pretraining_instance "wiki"],
         [scenario_column]), [])
  /\ one_context scenario_example <> []
  /\ nth_error [scenario_column] 0 = Some scenario_column
  /\ exists col_values v,
       nth_error (Dataset.column_data scenario_example) 0 = Some col_values
       /\ In (Some v) col_values
       /\ v <> ""%string
       /\ sample_value_tokens scenario_column = one_token v.
Proof.
  assert (H : get_pretraining_instances_from_example 512 scenario_config
                small_vocab zero_ids one_token one_context scenario_example
                [0; 2 ^ 52]%N
              = Ok (([mkSourcedInstance scenario_pretraining_instance "wiki"],
                     [scenario_column]), []))
    by (vm_compute; reflexivity).
  assert (H2 : one_context scenario_example <> []) by discriminate.
  split; [exact H|]. split; [exact H2|]. split; [reflexivity|].
  exact (sampled_values_from_data _ _ _ _ _ _ _ _ _ _ _ 0 scenario_column
           H H2 eq_refl).
Defined.

(** ** The candidate pools of an instance hold every index once *)

Lemma in_other_tokens_list (i : nat) (span : SpanMap) :
  in_other_tokens i span <-> In i (other_list span).
Proof.
  unfold in_other_tokens, other_list.
  destruct (span_other_tokens span); simpl; tauto.
Qed.

Lemma cell_step_distinct (column : Column) (cell_value : list string)
    (off : nat) (st : list string * SpanMap) (token : string) :
  fold_wf off st ->
  span_distinct (snd st) ->
  span_distinct (snd (cell_step column cell_value off st token)).
Proof.
  destruct st as [input sm]. unfold fold_wf, cell_step. simpl.
  intros (_ & Hb & _ & _) (Hct & Ho & Hnd).
  assert (Hcn : forall i, in_span i (span_column_name sm) ->
                          i < off + length input)
    by (intros i Hi; apply (Hb i); left; exact Hi).
  assert (Hty : forall i, in_span i (span_type sm) -> i < off + length input)
    by (intros i Hi; apply (Hb i); right; left; exact Hi).
  assert (Hot : forall i, In i (other_list sm) -> i < off + length input).
  { intros i Hi. apply (Hb i). right. right.
    apply in_other_tokens_list. exact Hi. }
  destruct (token =? "column")%string; [|destruct (token =? "value")%string;
    [|destruct (token =? "type")%string]]; unfold span_distinct, other_list;
    simpl.
  - split; [|split; [|exact Hnd]].
    + intros i Hi Hi'. apply Hty in Hi'. lia.
    + intros i Hi. split; [|apply (Ho i Hi)].
      intros Hi'. apply Hot in Hi. lia.
  - split; [exact Hct|]. split; [exact Ho | exact Hnd].
  - split; [|split; [|exact Hnd]].
    + intros i Hi Hi'. apply Hcn in Hi. lia.
    + intros i Hi. split; [apply (Ho i Hi)|].
      intros Hi'. apply Hot in Hi. lia.
  - fold (other_list sm). split; [exact Hct|]. split.
    + intros i Hi. apply in_app_or in Hi. destruct Hi as [Hi|[<-|[]]].
      * apply (Ho i Hi).
      * split; intros Hi'; [apply Hcn in Hi' | apply Hty in Hi']; lia.
    + apply NoDup_app; [exact Hnd | repeat constructor; intros [] |].
      intros i Hi [<-|[]]. apply Hot in Hi. lia.
Qed.

Lemma cell_fold_distinct (column : Column) (cell_value : list string)
    (off : nat) (template : list string) (st : list string * SpanMap) :
  fold_wf off st ->
  span_distinct (snd st) ->
  span_distinct
    (snd (fold_left (cell_step column cell_value off) template st)).
Proof.
  revert st. induction template as [|token rest IH]; intros st Hwf Hd.
  - exact Hd.
  - cbn [fold_left]. apply IH.
    + apply cell_step_fold_wf. exact Hwf.
    + apply cell_step_distinct; assumption.
Qed.

Lemma get_cell_input_distinct (config : TableBertConfig) (column : Column)
    (cell_value : list string) (off : nat) :
  span_distinct (snd (get_cell_input config column cell_value off)).
Proof.
  unfold get_cell_input.
  pose proof (cell_fold_distinct column cell_value off
                (cell_input_template config)
                ([], mkSpanMap (off, off + 1) None None None None None))
    as H.
  destruct (fold_left _ _ _) as [input sm]. simpl in *.
  assert (Hd : span_distinct sm).
  { apply H.
    - unfold fold_wf, maskable, in_other_tokens. simpl. tauto.
    - unfold span_distinct, other_list. simpl.
      split; [tauto|]. split; [tauto | constructor]. }
  exact Hd.
Qed.

Lemma column_candidates_NoDup (literal_prob : Q) (span : SpanMap)
    (s s' : Rand.source) (l : list nat) :
  span_distinct span ->
  column_candidates literal_prob span s = Ok (l, s') ->
  NoDup l.
Proof.
  intros (Hct & Ho & Hnd). unfold column_candidates. intros H.
  apply bind_Ok in H. destruct H as ([a b] & s1 & Ecn & H).
  apply bind_Ok in H. destruct H as ([c d] & s2 & Ety & H).
  apply bind_Ok in H. destruct H as (r & s3 & _ & H).
  apply bind_Ok in H. destruct H as (other & s4 & Eo & H).
  apply ret_Ok in H. destruct H as [-> _].
  apply lift_Ok in Ecn. destruct Ecn as [Ecn _].
  apply lift_Ok in Ety. destruct Ety as [Ety _].
  apply span_lookup_Ok in Ecn. apply span_lookup_Ok in Ety.
  assert (Hother : incl other (other_list span) /\ NoDup other).
  { destruct (Qltb r literal_prob).
    - apply lift_Ok in Eo. destruct Eo as [Eo _].
      apply span_lookup_Ok in Eo. unfold other_list in *.
      rewrite Eo in *. split; [apply incl_refl | exact Hnd].
    - apply ret_Ok in Eo. destruct Eo as [-> _].
      split; [intros x [] | constructor]. }
  destruct Hother as [Hincl Hnd'].
  rewrite Ecn, Ety in *. simpl in *.
  apply NoDup_app; [apply seq_NoDup | apply NoDup_app |].
  - apply seq_NoDup.
  - exact Hnd'.
  - intros i Hi Hi'. apply range_In in Hi.
    exact (proj2 (Ho i (Hincl i Hi')) Hi).
  - intros i Hi Hi'. apply range_In in Hi. apply in_app_or in Hi'.
    destruct Hi' as [Hi'|Hi'].
    + apply range_In in Hi'. exact (Hct i Hi Hi').
    + exact (proj1 (Ho i (Hincl i Hi')) Hi).
Qed.

Lemma dict_set_apart (d : Dict.t SpanMap) (k : string) (v : SpanMap) :
  ForallOrdPairs entries_apart d ->
  (forall kv, In kv d -> entries_apart kv (k, v)) ->
  ForallOrdPairs entries_apart (Dict.set d k v).
Proof.
  induction d as [|[k0 v0] rest IH]; simpl; intros Hfop Hnew.
  - repeat constructor.
  - inversion Hfop as [|? ? Hhd Htl]; subst.
    destruct (k0 =? k)%string.
    + constructor; [|exact Htl].
      apply Forall_forall. intros kv Hin.
      specialize (Hnew kv (or_intror Hin)).
      unfold entries_apart in *. simpl in *. tauto.
    + constructor.
      * apply Forall_forall. intros [k' v'] Hin.
        apply dict_set_In in Hin. destruct Hin as [->|Hin].
        -- exact (Hnew (k0, v0) (or_introl eq_refl)).
        -- exact (proj1 (Forall_forall _ _) Hhd _ Hin).
      * apply IH; [exact Htl|].
        intros kv Hin. apply Hnew. right. exact Hin.
Qed.

Lemma table_loop_apart (config : TableBertConfig) (budget : Z)
    (columns : list Column) (row row' : list string)
    (spans spans' : Dict.t SpanMap) (start0 start : nat) :
  table_loop config budget columns row spans start = (row', spans') ->
  start = start0 + length row ->
  spans_wf start0 start spans ->
  ForallOrdPairs entries_apart spans ->
  Forall (fun kv => span_distinct (snd kv)) spans ->
  ForallOrdPairs entries_apart spans'
  /\ Forall (fun kv => span_distinct (snd kv)) spans'.
Proof.
  revert row spans start.
  induction columns as [|column rest IH];
    intros row spans start H Hs Hwf Hap Hd; simpl in H.
  - injection H as <- <-. auto.
  - pose proof (get_cell_input_wf config column
                  (Py.slice_to (sample_value_tokens column)
                     (max_cell_len config)) start) as Hcell.
    pose proof (get_cell_input_distinct config column
                  (Py.slice_to (sample_value_tokens column)
                     (max_cell_len config)) start) as Hdist.
    cbv zeta in Hcell.
    destruct (get_cell_input config column _ start) as [cell sm].
    simpl in Hcell, Hdist. destruct Hcell as (Hw & Hlo & Hhi).
    destruct (_ >? budget)%Z.
    + injection H as <- <-. auto.
    + apply IH in H; [exact H | rewrite !length_app; simpl; lia | | |].
      * apply (dict_set_spans_wf start0 start); auto; try lia.
        rewrite Hhi, length_app. simpl. lia.
      * apply dict_set_apart; [exact Hap|].
        intros kv Hin. left. simpl. rewrite Hlo.
        destruct Hwf as [HF _].
        exact (proj2 (proj2 (proj1 (Forall_forall _ _) HF _ Hin))).
      * apply Forall_forall. intros [k' v'] Hin.
        apply dict_set_In in Hin. destruct Hin as [->|Hin]; [exact Hdist|].
        exact (proj1 (Forall_forall _ _) Hd _ Hin).
Qed.

Lemma mapM_column_candidates_pools (literal_prob : Q)
    (spans : Dict.t SpanMap) (s s' : Rand.source)
    (pools : list (list nat)) :
  Rand.mapM (fun kv => column_candidates literal_prob (snd kv))
    (Dict.items spans) s = Ok (pools, s') ->
  Forall (fun kv => span_distinct (snd kv)) spans ->
  Forall2 (fun kv pool =>
             NoDup pool /\ forall i, In i pool -> maskable i (snd kv))
    spans pools.
Proof.
  unfold Dict.items. revert s s' pools.
  induction spans as [|kv rest IH]; intros s s' pools H Hd; simpl in H.
  - apply ret_Ok in H. destruct H as [-> _]. constructor.
  - apply bind_Ok in H. destruct H as (l & s1 & El & H).
    apply bind_Ok in H. destruct H as (ls & s2 & Els & H).
    apply ret_Ok in H. destruct H as [-> _].
    inversion Hd as [|? ? Hkv Hrest]; subst.
    constructor; [|exact (IH _ _ _ Els Hrest)].
    split; [exact (column_candidates_NoDup _ _ _ _ _ Hkv El)|].
    intros i Hi.
    destruct (column_candidates_spec _ _ _ _ _ El i Hi) as [H1|[H1|[_ H1]]];
      unfold maskable; auto.
Qed.

Lemma pool_apart_from_rest (start bound : nat) (kv : string * SpanMap)
    (spans : Dict.t SpanMap) (pools : list (list nat)) (i : nat) :
  Forall (entries_apart kv) spans ->
  Forall (fun kv => cell_wf (snd kv)
                    /\ start <= cell_lo (snd kv)
                    /\ cell_hi (snd kv) < bound) spans ->
  Forall2 (fun kv pool =>
             NoDup pool /\ forall i, In i pool -> maskable i (snd kv))
    spans pools ->
  cell_lo (snd kv) <= i < cell_hi (snd kv) ->
  ~ In i (concat pools).
Proof.
  intros Hap HF H2 Hi. revert Hap HF.
  induction H2 as [|kv' pool' sp ps [_ Hm'] _ IH]; intros Hap HF Hin;
    [contradiction|].
  inversion Hap as [|? ? Hap1 Hap']; subst.
  inversion HF as [|? ? ((_ & Hmb' & _) & _) HF']; subst.
  simpl in Hin. apply in_app_or in Hin. destruct Hin as [Hin|Hin].
  - apply Hm', Hmb' in Hin. unfold entries_apart in Hap1. lia.
  - exact (IH Hap' HF' Hin).
Qed.

Lemma pools_NoDup (start bound : nat) (spans : Dict.t SpanMap)
    (pools : list (list nat)) :
  spans_wf start bound spans ->
  ForallOrdPairs entries_apart spans ->
  Forall2 (fun kv pool =>
             NoDup pool /\ forall i, In i pool -> maskable i (snd kv))
    spans pools ->
  NoDup (concat pools)
  /\ forall i, In i (concat pools) -> start <= i /\ i + 1 < bound.
Proof.
  intros [HF _] Hap H2. revert HF Hap.
  induction H2 as [|kv pool spans' pools' [Hnd Hm] Htail IH]; intros HF Hap.
  - split; [constructor | intros i []].
  - inversion HF as [|? ? (Hwf & Hlo & Hhi) HF']; subst.
    inversion Hap as [|? ? Hhd Hap']; subst.
    destruct (IH HF' Hap') as [Hc Hb].
    destruct Hwf as (_ & Hmb & _).
    assert (Hpool : forall i, In i pool ->
                              cell_lo (snd kv) <= i < cell_hi (snd kv))
      by (intros i Hi; apply Hmb, Hm, Hi).
    split.
    + simpl. apply NoDup_app; [exact Hnd | exact Hc |].
      intros i Hi. apply Hpool in Hi.
      exact (pool_apart_from_rest start bound kv spans' pools' i Hhd HF'
               Htail Hi).
    + intros i Hi. simpl in Hi. apply in_app_or in Hi.
      destruct Hi as [Hi|Hi]; [apply Hpool in Hi; lia | exact (Hb i Hi)].
Qed.

Lemma get_input_pools_ready (MAX : Z) (config : TableBertConfig)
    (context : list string) (table : Table) (inst : Instance) :
  get_input MAX config context table = Ok inst ->
  exists start bound,
    spans_wf start bound (column_spans inst)
    /\ ForallOrdPairs entries_apart (column_spans inst)
    /\ Forall (fun kv => span_distinct (snd kv)) (column_spans inst)
    /\ NoDup (context_candidates config inst)
    /\ (forall i, In i (context_candidates config inst) ->
                  i < start \/ bound <= i + 1)
    /\ 0 < start
    /\ bound <= length (tokens inst)
    /\ forall i, In i (context_candidates config inst) ->
                 0 < i /\ i + 1 < length (tokens inst).
Proof.
  intros H. apply get_input_inv in H.
  destruct H as (row0 & spans & last_token & Hloop & Hlast & -> & _ & H).
  cbv zeta in H.
  set (start0 := if context_first config then length context + 2 else 1)
    in *.
  assert (Hwf0 : spans_wf start0 start0 []).
  { split; [constructor | intros ? ? []]. }
  pose proof (table_loop_wf _ _ _ _ _ _ _ start0 _ Hloop
                ltac:(simpl; lia) Hwf0) as Hwf.
  pose proof (table_loop_apart _ _ _ _ _ _ _ start0 _ Hloop
                ltac:(simpl; lia) Hwf0 (FOP_nil _) (Forall_nil _))
    as [Hap Hd].
  exists start0, (start0 + length row0).
  split; [exact Hwf|]. split; [exact Hap|]. split; [exact Hd|].
  assert (Hrow : length row0 - 1 <= length (strip_delimiter config row0
                                              last_token)).
  { unfold strip_delimiter.
    destruct (last_token =? column_delimiter config)%string;
      [rewrite removelast_length|]; lia. }
  assert (Hne : 0 < length row0).
  { destruct row0; [discriminate | simpl; lia]. }
  set (row := strip_delimiter config row0 last_token) in *.
  unfold context_candidates. subst start0.
  destruct (context_first config); destruct H as (-> & _ & ->).
  - assert (Hlen : length (["[CLS]"%string] ++ context ++ ["[SEP]"%string]
                             ++ row ++ ["[SEP]"%string])
                   = length context + length row + 3)
      by (rewrite !length_app; simpl; lia).
    rewrite Hlen.
    unfold Py.range. rewrite Nat.sub_0_r. cbn [Nat.add seq tl].
    split; [apply seq_NoDup|].
    split; [intros i Hi; left; apply in_seq in Hi; lia|].
    split; [lia|]. split; [lia|].
    intros i Hi. apply in_seq in Hi. lia.
  - assert (Hlen : length (["[CLS]"%string] ++ row ++ ["[SEP]"%string]
                             ++ context ++ ["[SEP]"%string])
                   = length context + length row + 3)
      by (rewrite !length_app; simpl; lia).
    rewrite Hlen.
    unfold Py.range.
    replace (length row + 1 + 1 + length context + 1 - (length row + 1))
      with (S (length context + 1)) by lia.
    rewrite removelast_seq. split; [apply seq_NoDup|].
    split; [intros i Hi; right; apply in_seq in Hi; lia|].
    split; [lia|]. split; [lia|].
    intros i Hi. apply in_seq in Hi. lia.
Qed.

(** X19. [create_pretraining_instance] masks no position twice: the
    masked positions are pairwise different, and therefore every label is
    the token of the assembled sequence at its masked position. *)
Theorem instance_positions_masked_once (MAX : Z) (config : TableBertConfig)
    (vocab_list : list string)
    (convert_tokens_to_ids : list string -> result (list Z))
    (context : list string) (header : list Column) (s s' : Rand.source)
    (out : PretrainingInstance) :
  create_pretraining_instance MAX config vocab_list convert_tokens_to_ids
    context header s = Ok (out, s') ->
  NoDup (masked_lm_positions out)
  /\ exists inst,
       get_input MAX config context (mkTable "fake_table" header) = Ok inst
       /\ Forall2 (fun i label => nth_error (tokens inst) i = Some label)
            (masked_lm_positions out) (masked_lm_labels out).
Proof.
  unfold create_pretraining_instance, create_pretraining_instance_with.
  intros H.
  apply bind_Ok in H. destruct H as (inst & s0 & Eget & H).
  apply lift_Ok in Eget. destruct Eget as [Eget ->].
  apply bind_Ok in H. destruct H as (pools & s1 & Epools & H).
  apply bind_Ok in H.
  destruct H as ([[[masked positions] labels] inf] & s2 & Emask & H).
  apply bind_Ok in H. destruct H as (ids & s3 & _ & H).
  apply bind_Ok in H. destruct H as (label_ids & s4 & _ & H).
  apply ret_Ok in H. destruct H as [-> _]. simpl.
  destruct (get_input_pools_ready _ _ _ _ _ Eget)
    as (start & bound & Hwf & Hap & Hd & Hctx & Hout & _).
  pose proof (mapM_column_candidates_pools _ _ _ _ _ Epools Hd) as H2.
  destruct (pools_NoDup _ _ _ _ Hwf Hap H2) as [Hpools Hin].
  assert (Hnd : NoDup (context_candidates config inst ++ concat pools)).
  { apply NoDup_app; [exact Hctx | exact Hpools |].
    intros i Hi Hi'. apply Hout in Hi. apply Hin in Hi'. lia. }
  pose proof (masked_positions_NoDup _ _ _ _ _ _ _ _ _ _ _ Emask Hnd)
    as Hpos.
  split; [exact Hpos|]. exists inst. split; [exact Eget|].
  apply create_masked_lm_predictions_inv in Emask.
  destruct Emask as (mc & n & cols & t1 & n' & t2 & _ & _ & Hl & _).
  destruct (mask_loop_labels _ _ _ _ _ _ _ _ Hl Hpos)
    as (originals & -> & HF).
  exact HF.
Qed.

Lemma instance_positions_masked_once_witness :
  create_pretraining_instance 512 scenario_config small_vocab zero_ids
    scenario_context [scenario_column] [2 ^ 52]%N
  = Ok (scenario_pretraining_instance, [])
  /\ NoDup (masked_lm_positions scenario_pretraining_instance).
Proof.
  assert (H : create_pretraining_instance 512 scenario_config small_vocab
                zero_ids scenario_context [scenario_column] [2 ^ 52]%N
              = Ok (scenario_pretraining_instance, []))
    by (vm_compute; reflexivity).
  split; [exact H|].
  exact (proj1 (instance_positions_masked_once _ _ _ _ _ _ _ _ _ H)).
Defined.

(** X20. The boundary tokens of the sequence are never masked: every
    masked position lies strictly between the first and the last index,
    and the instance still starts with [CLS] and ends with [SEP]. *)
Theorem boundary_tokens_never_masked (MAX : Z) (config : TableBertConfig)
    (vocab_list : list string)
    (convert_tokens_to_ids : list string -> result (list Z))
    (context : list string) (header : list Column) (s s' : Rand.source)
    (out : PretrainingInstance) :
  create_pretraining_instance MAX config vocab_list convert_tokens_to_ids
    context header s = Ok (out, s') ->
  (forall i, In i (masked_lm_positions out) ->
             0 < i /\ i + 1 < length (masked_tokens out))
  /\ nth_error (masked_tokens out) 0 = Some "[CLS]"%string
  /\ nth_error (masked_tokens out) (length (masked_tokens out) - 1)
     = Some "[SEP]"%string.
Proof.
  unfold create_pretraining_instance, create_pretraining_instance_with.
  intros H.
  apply bind_Ok in H. destruct H as (inst & s0 & Eget & H).
  apply lift_Ok in Eget. destruct Eget as [Eget ->].
  apply bind_Ok in H. destruct H as (pools & s1 & Epools & H).
  apply bind_Ok in H.
  destruct H as ([[[masked positions] labels] inf] & s2 & Emask & H).
  apply bind_Ok in H. destruct H as (ids & s3 & _ & H).
  apply bind_Ok in H. destruct H as (label_ids & s4 & _ & H).
  apply ret_Ok in H. destruct H as [-> _].
  cbn [masked_tokens masked_lm_positions].
  destruct (get_input_pools_ready _ _ _ _ _ Eget)
    as (start & bound & Hwf & Hap & Hd & _ & _ & Hstart & Hbound & Hctx).
  pose proof (mapM_column_candidates_pools _ _ _ _ _ Epools Hd) as H2.
  destruct (pools_NoDup _ _ _ _ Hwf Hap H2) as [_ Hin].
  destruct (create_masked_lm_predictions_lengths _ _ _ _ _ _ _ _ _ _ _
              Emask) as [Hlen _].
  assert (Hinterior : forall i, In i positions ->
                                0 < i /\ i + 1 < length (tokens inst)).
  { intros i Hi.
    apply (masked_positions_are_candidates _ _ _ _ _ _ _ _ _ _ _ Emask)
      in Hi.
    apply in_app_or in Hi. destruct Hi as [Hi|Hi].
    - exact (Hctx i Hi).
    - apply Hin in Hi. lia. }
  rewrite Hlen. split; [exact Hinterior|].
  apply create_masked_lm_predictions_inv in Emask.
  destruct Emask as (mc & n & cols & t1 & n' & t2 & _ & _ & Hl & _).
  pose proof (mask_loop_untouched _ _ _ _ _ _ _ _ Hl) as Hsame.
  assert (Hfirst : nth_error (tokens inst) 0 = Some "[CLS]"%string
                   /\ nth_error (tokens inst) (length (tokens inst) - 1)
                      = Some "[SEP]"%string).
  { apply get_input_inv in Eget.
    destruct Eget as (row0 & spans & last_token & _ & _ & _ & _ & Ht).
    cbv zeta in Ht.
    destruct (context_first config); destruct Ht as (-> & _).
    - split; [reflexivity|].
      rewrite !app_assoc.
      match goal with
      | |- nth_error (?l ++ _) _ = _ =>
          rewrite length_app, Nat.add_sub, nth_error_app2 by apply le_n;
          rewrite Nat.sub_diag
      end.
      reflexivity.
    - split; [reflexivity|].
      rewrite !app_assoc.
      match goal with
      | |- nth_error (?l ++ _) _ = _ =>
          rewrite length_app, Nat.add_sub, nth_error_app2 by apply le_n;
          rewrite Nat.sub_diag
      end.
      reflexivity. }
  destruct Hfirst as [H0 Hlast].
  split.
  - rewrite Hsame; [exact H0|].
    intros Hi. apply Hinterior in Hi. lia.
  - rewrite Hsame; [exact Hlast|].
    intros Hi. apply Hinterior in Hi. lia.
Qed.

Lemma boundary_tokens_never_masked_witness :
  create_pretraining_instance 512 scenario_config small_vocab zero_ids
    scenario_context [scenario_column] [2 ^ 52]%N
  = Ok (scenario_pretraining_instance, [])
  /\ nth_error (masked_tokens scenario_pretraining_instance) 0
     = Some "[CLS]"%string.
Proof.
  assert (H : create_pretraining_instance 512 scenario_config small_vocab
                zero_ids scenario_context [scenario_column] [2 ^ 52]%N
              = Ok (scenario_pretraining_instance, []))
    by (vm_compute; reflexivity).
  split; [exact H|].
  exact (proj1 (proj2 (boundary_tokens_never_masked _ _ _ _ _ _ _ _ _ H))).
Defined.

(** ** Cell values survive masking *)

Lemma slice_ext {A} (l1 l2 : list A) (a b : nat) :
  (forall i, a <= i < b -> nth_error l1 i = nth_error l2 i) ->
  slice l1 a b = slice l2 a b.
Proof.
  intros H. unfold slice. apply nth_error_ext. intros n.
  rewrite !nth_error_firstn.
  destruct (Nat.ltb_spec n (b - a)) as [Hn|Hn]; [|reflexivity].
  rewrite !nth_error_skipn. apply H. lia.
Qed.

Lemma value_index_not_candidate (MAX : Z) (config : TableBertConfig)
    (literal_prob : Q) (context : list string) (table : Table)
    (inst : Instance) (s s' : Rand.source) (pools : list (list nat))
    (key : string) (span : SpanMap) (i : nat) :
  get_input MAX config context table = Ok inst ->
  Rand.mapM (fun kv => column_candidates literal_prob (snd kv))
    (Dict.items (column_spans inst)) s = Ok (pools, s') ->
  In (key, span) (Dict.items (column_spans inst)) ->
  in_span i (span_value span) ->
  ~ In i (context_candidates config inst ++ concat pools).
Proof.
  intros Hget Hpools Hin Hi Hpos.
  destruct (get_input_layout _ _ _ _ _ Hget)
    as (start & bound & [HF Hap] & Hctx).
  unfold Dict.items in Hin.
  pose proof (proj1 (Forall_forall _ _) HF _ Hin) as (Hwf & Hlo & Hhi).
  cbn [snd] in Hwf, Hlo, Hhi. destruct Hwf as (Hw & Hm & Hv & Hvm).
  pose proof (Hv i Hi) as Hcell.
  apply in_app_or in Hpos. destruct Hpos as [Hpos|Hpos].
  - apply Hctx in Hpos. lia.
  - destruct (mapM_column_candidates _ _ _ _ _ Hpools i Hpos)
      as ([key' span'] & Hin' & Hd).
    cbn [snd] in Hd.
    pose proof (proj1 (Forall_forall _ _) HF _ Hin') as ((_ & Hm' & _) & _).
    cbn [snd] in Hm'.
    assert (Hmask' : maskable i span').
    { unfold maskable. destruct Hd as [Hd|[Hd|[_ Hd]]]; auto. }
    pose proof (Hm' i Hmask') as Hcell'.
    destruct (Hap _ _ Hin Hin') as [Heq|[Hlt|Hlt]]; cbn [snd] in *.
    + subst span'. exact (Hvm i Hi Hmask').
    + lia.
    + lia.
Qed.

Lemma value_span_located (MAX : Z) (config : TableBertConfig)
    (context : list string) (table : Table) (inst : Instance)
    (key : string) (span : SpanMap) (a b : nat) :
  get_input MAX config context table = Ok inst ->
  In (key, span) (Dict.items (column_spans inst)) ->
  span_value span = Some (a, b) ->
  exists column,
    In column (header table)
    /\ name column = key
    /\ slice (tokens inst) a b = truncated_value config column.
Proof.
  intros Hget Hin E. unfold Dict.items in Hin.
  destruct (get_input_located _ _ _ _ _ Hget)
    as (pre & post & Htok & Hpre & Hloc).
  pose proof (proj1 (Forall_forall _ _) Hloc _ Hin)
    as (column & off & Hc & Hname & Hle & Hsm & Hlt & Hs).
  simpl in Hname, Hsm. exists column. split; [exact Hc|].
  split; [exact Hname|].
  pose proof (get_cell_input_sliced config column
                (truncated_value config column) off) as Hsl.
  pose proof (get_cell_input_tokens_offset config column
                (truncated_value config column) off) as Hoff.
  fold (cell_tokens config column) in Hoff.
  destruct (get_cell_input config column (truncated_value config column)
              off) as [cell sm] eqn:Ecell.
  simpl in Hsm, Hoff, Hsl. subst span cell.
  destruct Hsl as (_ & Hv & _).
  rewrite Htok. rewrite <- Hpre in Hle, Hlt, Hs.
  destruct (Hv a b E) as (H1 & H2 & H3 & H4).
  rewrite (located_slice config column pre _ post off a b) by assumption.
  exact H4.
Qed.

(** X21. Cell values survive masking: in the masked sequence, the [value]
    span recorded under a column name still holds the truncated value
    tokens of a header column of that name. *)
Theorem values_survive_masking (MAX : Z) (config : TableBertConfig)
    (vocab_list : list string)
    (convert_tokens_to_ids : list string -> result (list Z))
    (context : list string) (header : list Column) (s s' : Rand.source)
    (out : PretrainingInstance) :
  create_pretraining_instance MAX config vocab_list convert_tokens_to_ids
    context header s = Ok (out, s') ->
  exists inst,
    get_input MAX config context (mkTable "fake_table" header) = Ok inst
    /\ forall key span a b,
         In (key, span) (Dict.items (column_spans inst)) ->
         span_value span = Some (a, b) ->
         exists column,
           In column header
           /\ name column = key
           /\ slice (masked_tokens out) a b
              = Py.slice_to (sample_value_tokens column)
                  (max_cell_len config).
Proof.
  unfold create_pretraining_instance, create_pretraining_instance_with.
  intros H.
  apply bind_Ok in H. destruct H as (inst & s0 & Eget & H).
  apply lift_Ok in Eget. destruct Eget as [Eget ->].
  apply bind_Ok in H. destruct H as (pools & s1 & Epools & H).
  apply bind_Ok in H.
  destruct H as ([[[masked positions] labels] inf] & s2 & Emask & H).
  apply bind_Ok in H. destruct H as (ids & s3 & _ & H).
  apply bind_Ok in H. destruct H as (label_ids & s4 & _ & H).
  apply ret_Ok in H. destruct H as [-> _].
  cbn [masked_tokens].
  exists inst. split; [exact Eget|].
  intros key span a b Hin E.
  destruct (value_span_located _ _ _ _ _ _ _ _ _ Eget Hin E)
    as (column & Hc & Hname & Hs).
  exists column. split; [exact Hc|]. split; [exact Hname|].
  unfold truncated_value in Hs. rewrite <- Hs.
  apply slice_ext. intros i Hi.
  pose proof (masked_positions_are_candidates _ _ _ _ _ _ _ _ _ _ _ Emask)
    as Hincl.
  apply create_masked_lm_predictions_inv in Emask.
  destruct Emask as (mc & n & cols & t1 & n' & t2 & _ & _ & Hl & _).
  apply (mask_loop_untouched _ _ _ _ _ _ _ _ Hl).
  intros Hpos. apply Hincl in Hpos.
  apply (value_index_not_candidate _ _ _ _ _ _ _ _ _ key span i Eget Epools
           Hin); [|exact Hpos].
  unfold in_span. rewrite E. exact Hi.
Qed.

Lemma values_survive_masking_witness :
  create_pretraining_instance 512 scenario_config small_vocab zero_ids
    scenario_context [scenario_column] [2 ^ 52]%N
  = Ok (scenario_pretraining_instance, [])
  /\ exists inst,
       get_input 512 scenario_config scenario_context
         (mkTable "fake_table" [scenario_column]) = Ok inst.
Proof.
  assert (H : create_pretraining_instance 512 scenario_config small_vocab
                zero_ids scenario_context [scenario_column] [2 ^ 52]%N
              = Ok (scenario_pretraining_instance, []))
    by (vm_compute; reflexivity).
  split; [exact H|].
  destruct (values_survive_masking _ _ _ _ _ _ _ _ _ H) as (inst & Hg & _).
  exists inst. exact Hg.
Defined.
